(** * Greybus operations: a shallow embedding of the operation core

    The operation core of the Greybus subsystem multiplexes request/response
    exchanges ("operations") over one connection.  This development embeds
    the C functions of the operations source file as functions on an
    explicit kernel state and proves what they do to that state.

    Modelling conventions.
    - Pointers are integers ([Z]); [NULL] is 0.  Objects of the operation
      slab cache live in the map [ops], buffers handed out by the host
      driver live in the map [mem]; both are keyed by address, so that two
      lists naming the same operation share it.
    - Every C function is a computation in the monad [M]: it threads the
      kernel state and may stop with [Oops] where the C code dereferences a
      pointer that is null or dangling, or reads outside a buffer.
    - The host driver, the slab allocator and user callbacks are outside
      the file.  Calls to them are recorded in traces; what the
      allocators and the transport answer is taken from plans held in the
      state (an empty plan answers with success).
    - There is one connection; [operation->connection] is that connection
      for every operation, and [connection->hd] is its host device. *)

From stdpp Require Import gmap list.

Open Scope Z_scope.

(** ** Constants *)

Definition NULL : Z := 0.

(** [#define GB_OPERATION_TYPE_RESPONSE 0x80] *)
Definition GB_OPERATION_TYPE_RESPONSE : Z := 0x80.

(** [#define OPERATION_TIMEOUT_DEFAULT 1000] (milliseconds) *)
Definition OPERATION_TIMEOUT_DEFAULT : Z := 1000.

(** [#define GB_OPERATION_MESSAGE_SIZE_MAX 4096] *)
Definition GB_OPERATION_MESSAGE_SIZE_MAX : Z := 4096.

(** [sizeof(struct gb_operation_msg_hdr)]: two [__le16], two [__u8], two
    bytes of padding, aligned to [sizeof(u64)]. *)
Definition sizeof_hdr : Z := 8.

(** Byte offsets of the header fields. *)
Definition hdr_size_off : Z := 0.
Definition hdr_operation_id_off : Z := 2.
Definition hdr_type_off : Z := 4.
Definition hdr_result_off : Z := 5.

(** Linux error numbers used by the file. *)
Definition E2BIG : Z := 7.
Definition ENOMEM : Z := 12.
Definition ENOTCONN : Z := 107.
Definition MAX_ERRNO : Z := 4095.

(** Modelled from the spec: the result codes [Success (0)], [Timeout],
    [Overflow] and [ProtocolBad] of the section on external interfaces.
    The enumeration is declared in a header that is not part of the
    sources at hand; the three error codes are only required to be
    distinct non-zero bytes. *)
Definition GB_OP_SUCCESS : Z := 0.
Definition GB_OP_PROTOCOL_BAD : Z := 5.
Definition GB_OP_OVERFLOW : Z := 6.
Definition GB_OP_TIMEOUT : Z := 0xff.

(** Modelled from the spec: the connection is either enabled or not; the
    enumeration lives in the connection header, outside the sources. *)
Inductive gb_connection_state :=
| GB_CONNECTION_STATE_DISABLED
| GB_CONNECTION_STATE_ENABLED.

#[global] Instance gb_connection_state_eq_dec : EqDecision gb_connection_state.
Proof. solve_decision. Defined.

Inductive gfp_t := GFP_KERNEL | GFP_ATOMIC.

(** ** Machine arithmetic *)

(** A [u16] keeps the low sixteen bits. *)
Definition u16 (z : Z) : Z := z mod 65536.

(** A [u8] keeps the low eight bits. *)
Definition u8 (z : Z) : Z := z mod 256.

(** [cpu_to_le16]: the two bytes of a sixteen-bit value, low byte first. *)
Definition cpu_to_le16 (z : Z) : list Z := [u16 z mod 256; u16 z / 256].

(** [le16_to_cpu] on the two bytes found at an offset. *)
Definition le16_to_cpu (lo hi : Z) : Z := lo + 256 * hi.

(** [IS_ERR]: a pointer in the last [MAX_ERRNO] addresses of a 64-bit
    address space encodes an error number. *)
Definition IS_ERR (ptr : Z) : bool := bool_decide (2 ^ 64 - MAX_ERRNO ≤ ptr).

(** [PTR_ERR]: the pointer read as a signed long. *)
Definition PTR_ERR (ptr : Z) : Z := ptr - 2 ^ 64.

(** [ERR_PTR], used by a host driver to report failure. *)
Definition ERR_PTR (err : Z) : Z := err + 2 ^ 64.

(** ** Data model *)

(** Modelled from the spec: [struct gb_message], embedded twice in every
    operation.  The structure is declared in a header outside the sources;
    the fields are the ones the functions below read and write (the
    attributes of a Message Buffer in the spec's data model). *)
Record gb_message := mk_message {
  msg_operation : Z;      (* struct gb_operation *operation *)
  msg_buffer : Z;         (* void *buffer *)
  msg_payload : Z;        (* void *payload *)
  msg_buffer_size : Z;    (* size_t buffer_size *)
  msg_cookie : Z;         (* void *cookie *)
}.

(** A message as [kmem_cache_zalloc] leaves it. *)
Definition zero_message : gb_message := mk_message 0 0 0 0 0.

(** Modelled from the spec: [struct gb_operation], declared in the same
    header.  The id is the [u16] that [gb_pending_operation_find] compares
    and [cpu_to_le16] stores; work items and the timer are kept as the flag
    "queued" for the timer and as an entry of the work queue. *)
Record gb_operation := mk_operation {
  op_request : gb_message;
  op_response : gb_message;
  op_id : Z;                (* u16 id *)
  op_canceled : bool;
  op_result : Z;
  op_callback : Z;          (* gb_operation_callback, NULL when absent *)
  op_completion : bool;     (* struct completion: done *)
  op_timeout_work : bool;   (* delayed work: queued on the timer *)
  op_kref : Z;
}.

Definition zero_operation : gb_operation :=
  mk_operation zero_message zero_message 0 false 0 0 false false 0.

(** Modelled from the spec: the fields of [struct gb_connection] that the
    operation core touches; the structure is declared outside the sources
    and, as in the spec's data model, the id counter is sixteen bits wide. *)
Record gb_connection := mk_connection {
  c_state : gb_connection_state;
  c_operations : list Z;        (* struct list_head operations *)
  c_pending : list Z;           (* struct list_head pending *)
  c_op_cycle : Z;               (* u16 op_cycle *)
  c_interface_cport_id : Z;     (* u16 interface_cport_id *)
  c_request_recv : Z;           (* protocol->request_recv, NULL when absent *)
}.

(** Calls into the host driver, in the order they were made. *)
Inductive hd_call :=
| BufferAlloc (size : Z) (gfp : gfp_t) (ret : Z)
| BufferFree (buf : Z)
| BufferSend (cport : Z) (buf : Z) (size : Z) (gfp : gfp_t) (ret : Z)
| BufferCancel (cookie : Z).

#[global] Instance gfp_t_eq_dec : EqDecision gfp_t.
Proof. solve_decision. Defined.
#[global] Instance hd_call_eq_dec : EqDecision hd_call.
Proof. solve_decision. Defined.

(** What leaves the core towards its users and the log. *)
Inductive event :=
| EvCallback (cb : Z) (op : Z)       (* operation->callback(operation) *)
| EvCompleteAll (op : Z)             (* complete_all(&operation->completion) *)
| EvRequestRecv (type : Z) (op : Z)  (* protocol->request_recv(type, operation) *)
| EvWarn                             (* WARN_ON fired *)
| EvErr.                             (* gb_connection_err *)

#[global] Instance event_eq_dec : EqDecision event.
Proof. solve_decision. Defined.

(** The kernel state seen by the operation core. *)
Record gb_state := mk_state {
  ops : gmap Z gb_operation;    (* live objects of gb_operation_cache *)
  conn : gb_connection;
  mem : gmap Z (list Z);        (* live driver buffers, by base address *)
  hd_calls : list hd_call;      (* host driver trace *)
  events : list event;          (* completions, handlers, log *)
  recv_workqueue : list Z;      (* gb_operation_recv_workqueue, FIFO *)
  next_addr : Z;                (* next address the allocators hand out *)
  kmem_plan : list bool;        (* does the next kmem_cache_zalloc succeed *)
  alloc_plan : list (option (list Z));
                                (* next buffer_alloc: NULL, or stale bytes *)
  send_plan : list Z;           (* next buffer_send: cookie or ERR_PTR *)
}.

(** ** The state and fault monad *)

Inductive res (A : Type) :=
| Ok (a : A) (s : gb_state)
| Oops (s : gb_state).
Arguments Ok {A} a s.
Arguments Oops {A} s.

Definition M (A : Type) : Type := gb_state → res A.

Definition ret {A} (a : A) : M A := λ s, Ok a s.

Definition bind {A B} (m : M A) (k : A → M B) : M B :=
  λ s, match m s with
       | Ok a s' => k a s'
       | Oops s' => Oops s'
       end.

Notation "'let*' x ':=' m 'in' k" := (bind m (λ x, k))
  (at level 10, x name, m at level 100, k at level 200).
Notation "m ;;; k" := (bind m (λ _, k))
  (at level 100, right associativity).

Definition oops {A} : M A := λ s, Oops s.
Definition gets {A} (f : gb_state → A) : M A := λ s, Ok (f s) s.
Definition modify (f : gb_state → gb_state) : M unit := λ s, Ok tt (f s).

(** Field updates. *)
Definition set_ops (f : gmap Z gb_operation → gmap Z gb_operation) (s : gb_state) :=
  mk_state (f (ops s)) (conn s) (mem s) (hd_calls s) (events s)
    (recv_workqueue s) (next_addr s) (kmem_plan s) (alloc_plan s) (send_plan s).
Definition set_conn (f : gb_connection → gb_connection) (s : gb_state) :=
  mk_state (ops s) (f (conn s)) (mem s) (hd_calls s) (events s)
    (recv_workqueue s) (next_addr s) (kmem_plan s) (alloc_plan s) (send_plan s).
Definition set_mem (f : gmap Z (list Z) → gmap Z (list Z)) (s : gb_state) :=
  mk_state (ops s) (conn s) (f (mem s)) (hd_calls s) (events s)
    (recv_workqueue s) (next_addr s) (kmem_plan s) (alloc_plan s) (send_plan s).
Definition set_hd_calls (f : list hd_call → list hd_call) (s : gb_state) :=
  mk_state (ops s) (conn s) (mem s) (f (hd_calls s)) (events s)
    (recv_workqueue s) (next_addr s) (kmem_plan s) (alloc_plan s) (send_plan s).
Definition set_events (f : list event → list event) (s : gb_state) :=
  mk_state (ops s) (conn s) (mem s) (hd_calls s) (f (events s))
    (recv_workqueue s) (next_addr s) (kmem_plan s) (alloc_plan s) (send_plan s).
Definition set_recv_workqueue (f : list Z → list Z) (s : gb_state) :=
  mk_state (ops s) (conn s) (mem s) (hd_calls s) (events s)
    (f (recv_workqueue s)) (next_addr s) (kmem_plan s) (alloc_plan s) (send_plan s).
Definition set_next_addr (f : Z → Z) (s : gb_state) :=
  mk_state (ops s) (conn s) (mem s) (hd_calls s) (events s)
    (recv_workqueue s) (f (next_addr s)) (kmem_plan s) (alloc_plan s) (send_plan s).
Definition set_kmem_plan (f : list bool → list bool) (s : gb_state) :=
  mk_state (ops s) (conn s) (mem s) (hd_calls s) (events s)
    (recv_workqueue s) (next_addr s) (f (kmem_plan s)) (alloc_plan s) (send_plan s).
Definition set_alloc_plan
    (f : list (option (list Z)) → list (option (list Z))) (s : gb_state) :=
  mk_state (ops s) (conn s) (mem s) (hd_calls s) (events s)
    (recv_workqueue s) (next_addr s) (kmem_plan s) (f (alloc_plan s)) (send_plan s).
Definition set_send_plan (f : list Z → list Z) (s : gb_state) :=
  mk_state (ops s) (conn s) (mem s) (hd_calls s) (events s)
    (recv_workqueue s) (next_addr s) (kmem_plan s) (alloc_plan s) (f (send_plan s)).

Definition emit (e : event) : M unit := modify (set_events (λ l, l ++ [e])).
Definition hd_log (c : hd_call) : M unit := modify (set_hd_calls (λ l, l ++ [c])).

(** ** Operations and their embedded messages *)

(** [operation->field]: faults on a null or dangling pointer. *)
Definition deref (p : Z) : M gb_operation :=
  λ s, match ops s !! p with
       | Some o => Ok o s
       | None => Oops s
       end.

(** [operation->field = ...] *)
Definition update (p : Z) (f : gb_operation → gb_operation) : M unit :=
  let* o := deref p in modify (set_ops (insert p (f o))).

(** Which of the two embedded messages: [&operation->request] or
    [&operation->response]. *)
Inductive msg_sel := Request | Response.

Definition get_msg (w : msg_sel) (o : gb_operation) : gb_message :=
  match w with Request => op_request o | Response => op_response o end.

Definition set_msg (w : msg_sel) (m : gb_message) (o : gb_operation) : gb_operation :=
  match w with
  | Request =>
      mk_operation m (op_response o) (op_id o) (op_canceled o) (op_result o)
        (op_callback o) (op_completion o) (op_timeout_work o) (op_kref o)
  | Response =>
      mk_operation (op_request o) m (op_id o) (op_canceled o) (op_result o)
        (op_callback o) (op_completion o) (op_timeout_work o) (op_kref o)
  end.

Definition set_op_id (v : Z) (o : gb_operation) : gb_operation :=
  mk_operation (op_request o) (op_response o) v (op_canceled o) (op_result o)
    (op_callback o) (op_completion o) (op_timeout_work o) (op_kref o).
Definition set_op_canceled (v : bool) (o : gb_operation) : gb_operation :=
  mk_operation (op_request o) (op_response o) (op_id o) v (op_result o)
    (op_callback o) (op_completion o) (op_timeout_work o) (op_kref o).
Definition set_op_result (v : Z) (o : gb_operation) : gb_operation :=
  mk_operation (op_request o) (op_response o) (op_id o) (op_canceled o) v
    (op_callback o) (op_completion o) (op_timeout_work o) (op_kref o).
Definition set_op_callback (v : Z) (o : gb_operation) : gb_operation :=
  mk_operation (op_request o) (op_response o) (op_id o) (op_canceled o) (op_result o)
    v (op_completion o) (op_timeout_work o) (op_kref o).
Definition set_op_completion (v : bool) (o : gb_operation) : gb_operation :=
  mk_operation (op_request o) (op_response o) (op_id o) (op_canceled o) (op_result o)
    (op_callback o) v (op_timeout_work o) (op_kref o).
Definition set_op_timeout_work (v : bool) (o : gb_operation) : gb_operation :=
  mk_operation (op_request o) (op_response o) (op_id o) (op_canceled o) (op_result o)
    (op_callback o) (op_completion o) v (op_kref o).
Definition set_op_kref (v : Z) (o : gb_operation) : gb_operation :=
  mk_operation (op_request o) (op_response o) (op_id o) (op_canceled o) (op_result o)
    (op_callback o) (op_completion o) (op_timeout_work o) v.

(** [message->operation->connection->hd]: the host device is reached
    through the message's back pointer, which must name a live operation. *)
Definition message_hd (m : gb_message) : M unit :=
  let* _ := deref (msg_operation m) in ret tt.

(** ** Buffer memory *)

(** Read one byte at [base + off]. *)
Definition load_byte (base off : Z) : M Z :=
  λ s, match mem s !! base with
       | Some bytes =>
           if bool_decide (0 ≤ off) then
             match bytes !! Z.to_nat off with
             | Some b => Ok b s
             | None => Oops s
             end
           else Oops s
       | None => Oops s
       end.

(** Overwrite [length src] bytes starting at offset [off]. *)
Definition splice (off : nat) (src bytes : list Z) : list Z :=
  take off bytes ++ src ++ drop (off + length src) bytes.

(** Store the bytes [src] at [base + off]; the whole range must lie
    inside the buffer. *)
Definition store_bytes (base off : Z) (src : list Z) : M unit :=
  λ s, match mem s !! base with
       | Some bytes =>
           if bool_decide (0 ≤ off ∧ off + Z.of_nat (length src) ≤ Z.of_nat (length bytes))
           then Ok tt (set_mem (insert base (splice (Z.to_nat off) src bytes)) s)
           else Oops s
       | None => Oops s
       end.

(** [memcpy(dst, data, size)] from a caller's array into a driver buffer. *)
Definition memcpy (dst : Z) (data : list Z) (size : Z) : M unit :=
  if bool_decide (0 ≤ size ∧ size ≤ Z.of_nat (length data))
  then store_bytes dst 0 (take (Z.to_nat size) data)
  else oops.

(** ** Allocators and the host driver *)

(** [kmem_cache_zalloc(gb_operation_cache, gfp)] *)
Definition kmem_cache_zalloc : M Z :=
  λ s, let ok := match kmem_plan s with [] => true | b :: _ => b end in
       let s1 := set_kmem_plan (drop 1) s in
       if ok then
         let p := next_addr s1 in
         Ok p (set_next_addr (λ a, a + 1) (set_ops (insert p zero_operation) s1))
       else Ok NULL s1.

(** [kmem_cache_free(gb_operation_cache, operation)] *)
Definition kmem_cache_free (p : Z) : M unit :=
  let* _ := deref p in modify (set_ops (delete p)).

(** The bytes of a fresh buffer: whatever the allocator left there. *)
Definition stale_bytes (junk : list Z) (size : Z) : list Z :=
  take (Z.to_nat size) (junk ++ replicate (Z.to_nat size) 0).

(** [hd->driver->buffer_alloc(size, gfp)] *)
Definition buffer_alloc (size : Z) (gfp : gfp_t) : M Z :=
  λ s, let plan := match alloc_plan s with [] => Some [] | a :: _ => a end in
       let s1 := set_alloc_plan (drop 1) s in
       match plan with
       | Some junk =>
           let b := next_addr s1 in
           Ok b (set_hd_calls (λ l, l ++ [BufferAlloc size gfp b])
                   (set_next_addr (λ a, a + 1)
                      (set_mem (insert b (stale_bytes junk size)) s1)))
       | None =>
           Ok NULL (set_hd_calls (λ l, l ++ [BufferAlloc size gfp NULL]) s1)
       end.

(** [hd->driver->buffer_free(buffer)] *)
Definition buffer_free (b : Z) : M unit :=
  hd_log (BufferFree b) ;;; modify (set_mem (delete b)).

(** [hd->driver->buffer_send(hd, cport, buffer, size, gfp)]: the driver
    answers with a cookie or with an [ERR_PTR]. *)
Definition buffer_send (cport b size : Z) (gfp : gfp_t) : M Z :=
  λ s, let r := match send_plan s with [] => next_addr s | r :: _ => r end in
       Ok r (set_hd_calls (λ l, l ++ [BufferSend cport b size gfp r])
               (set_send_plan (drop 1) s)).

(** [hd->driver->buffer_cancel(cookie)] *)
Definition buffer_cancel (cookie : Z) : M unit :=
  hd_log (BufferCancel cookie).

(** ** Kernel lists *)

(** [list_del(&operation->links)]: the node leaves the list it is on. *)
Definition list_del (p : Z) (l : list Z) : list Z :=
  filter (λ q, q ≠ p) l.

Definition set_c_lists (operations pending : list Z) (c : gb_connection) :=
  mk_connection (c_state c) operations pending (c_op_cycle c)
    (c_interface_cport_id c) (c_request_recv c).
Definition set_c_op_cycle (v : Z) (c : gb_connection) :=
  mk_connection (c_state c) (c_operations c) (c_pending c) v
    (c_interface_cport_id c) (c_request_recv c).

(** [list_move_tail(&operation->links, &connection->pending)] *)
Definition move_to_pending (p : Z) (c : gb_connection) : gb_connection :=
  set_c_lists (list_del p (c_operations c)) (list_del p (c_pending c) ++ [p]) c.

(** [list_move_tail(&operation->links, &connection->operations)] *)
Definition move_to_operations (p : Z) (c : gb_connection) : gb_connection :=
  set_c_lists (list_del p (c_operations c) ++ [p]) (list_del p (c_pending c)) c.

(** [list_add_tail(&operation->links, &connection->operations)] *)
Definition add_to_operations (p : Z) (c : gb_connection) : gb_connection :=
  set_c_lists (c_operations c ++ [p]) (c_pending c) c.

(** [list_del(&operation->links)] on whichever list holds the node. *)
Definition del_from_lists (p : Z) (c : gb_connection) : gb_connection :=
  set_c_lists (list_del p (c_operations c)) (list_del p (c_pending c)) c.

(** ** The functions of the operation core *)

(** [gb_pending_operation_insert]: the operation takes the incremented
    cycle counter as its id, moves to the tail of the pending list, and
    the id is stored into the request header. *)
Definition gb_pending_operation_insert (p : Z) : M unit :=
  let* _ := deref p in
  let* cycle := gets (λ s, u16 (c_op_cycle (conn s) + 1)) in
  modify (set_conn (set_c_op_cycle cycle)) ;;;
  update p (set_op_id cycle) ;;;
  modify (set_conn (move_to_pending p)) ;;;
  let* o := deref p in
  store_bytes (msg_buffer (op_request o)) hdr_operation_id_off
    (cpu_to_le16 (op_id o)).

(** [gb_pending_operation_remove] *)
Definition gb_pending_operation_remove (p : Z) : M unit :=
  let* _ := deref p in
  modify (set_conn (move_to_operations p)).

(** The loop of [gb_pending_operation_find] over the pending list. *)
Fixpoint pending_scan (l : list Z) (operation_id : Z) : M Z :=
  match l with
  | [] => ret NULL
  | p :: l' =>
      let* o := deref p in
      if bool_decide (op_id o = operation_id) then ret p
      else pending_scan l' operation_id
  end.

(** [gb_pending_operation_find] *)
Definition gb_pending_operation_find (operation_id : Z) : M Z :=
  let* l := gets (λ s, c_pending (conn s)) in
  pending_scan l operation_id.

(** [gb_message_send] on [&operation->request] or [&operation->response]. *)
Definition gb_message_send (p : Z) (w : msg_sel) (gfp : gfp_t) : M Z :=
  let* o := deref p in
  let message := get_msg w o in
  message_hd message ;;;
  let* dest_cport_id := gets (λ s, c_interface_cport_id (conn s)) in
  let* cookie :=
    buffer_send dest_cport_id (msg_buffer message) (msg_buffer_size message) gfp in
  let m1 := mk_message (msg_operation message) (msg_buffer message)
              (msg_payload message) (msg_buffer_size message) cookie in
  update p (set_msg w m1) ;;;
  if IS_ERR cookie then
    let m2 := mk_message (msg_operation message) (msg_buffer message)
                (msg_payload message) (msg_buffer_size message) NULL in
    update p (set_msg w m2) ;;;
    ret (PTR_ERR cookie)
  else ret 0.

(** [gb_message_cancel] *)
Definition gb_message_cancel (p : Z) (w : msg_sel) : M unit :=
  let* o := deref p in
  let message := get_msg w o in
  if bool_decide (msg_cookie message = NULL) then ret tt
  else
    message_hd message ;;;
    buffer_cancel (msg_cookie message).

(** [gb_operation_complete] *)
Definition gb_operation_complete (p : Z) : M unit :=
  let* o := deref p in
  if bool_decide (op_callback o ≠ NULL) then emit (EvCallback (op_callback o) p)
  else
    emit (EvCompleteAll p) ;;;
    update p (set_op_completion true).

(** [gb_operation_wait], resumed when [wait_for_completion_interruptible]
    returns [r]. *)
Definition gb_operation_wait (p : Z) (r : Z) : M Z :=
  (if bool_decide (r < 0) then gb_message_cancel p Request else ret tt) ;;;
  ret r.

(** [gb_operation_request_handle] *)
Definition gb_operation_request_handle (p : Z) : M unit :=
  let* o := deref p in
  let* type := load_byte (msg_buffer (op_request o)) hdr_type_off in
  let* request_recv := gets (λ s, c_request_recv (conn s)) in
  if bool_decide (request_recv ≠ NULL) then emit (EvRequestRecv type p)
  else
    emit EvErr ;;;
    update p (set_op_result GB_OP_PROTOCOL_BAD).

(** [gb_operation_recv_work] *)
Definition gb_operation_recv_work (p : Z) : M unit :=
  let* o := deref p in
  let incoming_request := bool_decide (msg_buffer (op_response o) = NULL) in
  (if incoming_request then gb_operation_request_handle p else ret tt) ;;;
  gb_operation_complete p.

(** [operation_timeout] *)
Definition operation_timeout (p : Z) : M unit :=
  update p (set_op_result GB_OP_TIMEOUT) ;;;
  gb_operation_complete p.

(** [gb_operation_message_init] *)
Definition gb_operation_message_init
    (p : Z) (type : Z) (size : Z) (request : bool) (gfp_flags : gfp_t) : M Z :=
  if bool_decide (size > GB_OPERATION_MESSAGE_SIZE_MAX) then ret (- E2BIG)
  else
    let size := size + sizeof_hdr in
    let w := if request then Request else Response in
    let type := if request then type else Z.lor type GB_OPERATION_TYPE_RESPONSE in
    let* o := deref p in
    let message := get_msg w o in
    let* buf := buffer_alloc size gfp_flags in
    let m1 := mk_message (msg_operation message) buf (msg_payload message)
                (msg_buffer_size message) (msg_cookie message) in
    update p (set_msg w m1) ;;;
    if bool_decide (buf = NULL) then ret (- ENOMEM)
    else
      store_bytes buf hdr_size_off (cpu_to_le16 size) ;;;
      store_bytes buf hdr_operation_id_off [0; 0] ;;;
      store_bytes buf hdr_type_off [u8 type] ;;;
      let m2 := mk_message p buf (buf + sizeof_hdr) size (msg_cookie message) in
      update p (set_msg w m2) ;;;
      ret 0.

(** [gb_operation_message_exit] *)
Definition gb_operation_message_exit (p : Z) (w : msg_sel) : M unit :=
  let* o := deref p in
  let message := get_msg w o in
  message_hd message ;;;
  buffer_free (msg_buffer message) ;;;
  update p (set_msg w (mk_message NULL NULL NULL 0 (msg_cookie message))).

(** [gb_operation_create_common] *)
Definition gb_operation_create_common
    (outgoing : bool) (type request_size response_size : Z) : M Z :=
  let gfp_flags := if bool_decide (response_size ≠ 0) then GFP_KERNEL else GFP_ATOMIC in
  let* p := kmem_cache_zalloc in
  if bool_decide (p = NULL) then ret NULL
  else
    let* r := gb_operation_message_init p type request_size true gfp_flags in
    if bool_decide (r ≠ 0) then kmem_cache_free p ;;; ret NULL
    else
      let* r :=
        (if outgoing
         then gb_operation_message_init p type response_size false GFP_KERNEL
         else ret 0) in
      if bool_decide (r ≠ 0) then
        gb_operation_message_exit p Request ;;;
        kmem_cache_free p ;;;
        ret NULL
      else
        update p (set_op_callback NULL) ;;;
        update p (set_op_completion false) ;;;
        update p (set_op_timeout_work false) ;;;
        update p (set_op_kref 1) ;;;
        modify (set_conn (add_to_operations p)) ;;;
        ret p.

(** [gb_operation_create] *)
Definition gb_operation_create (type request_size response_size : Z) : M Z :=
  gb_operation_create_common true type request_size response_size.

(** [gb_operation_create_incoming] *)
Definition gb_operation_create_incoming (type request_size response_size : Z) : M Z :=
  gb_operation_create_common false type request_size response_size.

(** [_gb_operation_destroy] *)
Definition _gb_operation_destroy (p : Z) : M unit :=
  let* _ := deref p in
  modify (set_conn (del_from_lists p)) ;;;
  gb_operation_message_exit p Response ;;;
  gb_operation_message_exit p Request ;;;
  kmem_cache_free p.

(** [gb_operation_put]: [WARN_ON(!operation)] guards the [kref_put], which
    destroys the operation when the count drops to zero. *)
Definition gb_operation_put (p : Z) : M unit :=
  if bool_decide (p = NULL) then emit EvWarn
  else
    let* o := deref p in
    update p (set_op_kref (op_kref o - 1)) ;;;
    if bool_decide (op_kref o - 1 = 0) then _gb_operation_destroy p else ret tt.

(** How [gb_operation_request_send] leaves its caller: it returned a
    status, or it sits in [gb_operation_wait] until the completion fires
    or the wait is interrupted. *)
Inductive send_status :=
| Returned (r : Z)
| Waiting.

(** [schedule_delayed_work(&operation->timeout_work, timeout)] *)
Definition schedule_delayed_work (p : Z) : M unit :=
  update p (set_op_timeout_work true).

(** [cancel_delayed_work(&operation->timeout_work)] *)
Definition cancel_delayed_work (p : Z) : M unit :=
  update p (set_op_timeout_work false).

(** [queue_work(gb_operation_recv_workqueue, &operation->recv_work)]: a
    work item that is already queued is not queued again. *)
Definition queue_work (p : Z) : M unit :=
  modify (set_recv_workqueue (λ q, if bool_decide (p ∈ q) then q else q ++ [p])).

(** [gb_operation_request_send], up to the point where a synchronous
    caller starts to wait. *)
Definition gb_operation_request_send (p : Z) (callback : Z) : M send_status :=
  let* _ := deref p in
  let* st := gets (λ s, c_state (conn s)) in
  if bool_decide (st ≠ GB_CONNECTION_STATE_ENABLED) then ret (Returned (- ENOTCONN))
  else
    update p (set_op_callback callback) ;;;
    gb_pending_operation_insert p ;;;
    let* r := gb_message_send p Request GFP_KERNEL in
    if bool_decide (r ≠ 0) then ret (Returned r)
    else
      schedule_delayed_work p ;;;
      if bool_decide (callback = NULL) then ret Waiting
      else ret (Returned r).

(** [gb_connection_recv_request] *)
Definition gb_connection_recv_request
    (operation_id type : Z) (data : list Z) (size : Z) : M unit :=
  let* p := gb_operation_create_incoming type size 0 in
  if bool_decide (p = NULL) then emit EvErr
  else
    update p (set_op_id operation_id) ;;;
    let* o := deref p in
    memcpy (msg_buffer (op_request o)) data size ;;;
    queue_work p.

(** [gb_connection_recv_response] *)
Definition gb_connection_recv_response
    (operation_id : Z) (data : list Z) (size : Z) : M unit :=
  let* p := gb_pending_operation_find operation_id in
  if bool_decide (p = NULL) then emit EvErr
  else
    cancel_delayed_work p ;;;
    gb_pending_operation_remove p ;;;
    let* o := deref p in
    let message := op_response o in
    if bool_decide (size > msg_buffer_size message) then
      update p (set_op_result GB_OP_OVERFLOW) ;;;
      emit EvErr
    else
      let* status :=
        load_byte (msg_buffer message) (msg_payload message - msg_buffer message) in
      store_bytes (msg_buffer message) hdr_result_off [u8 status] ;;;
      let* result := load_byte (msg_buffer message) hdr_result_off in
      update p (set_op_result result) ;;;
      (if bool_decide (result = GB_OP_SUCCESS)
       then memcpy (msg_buffer message) data size
       else ret tt) ;;;
      queue_work p.

(** [gb_connection_recv]: [data] is the received array and its length is
    the [size] argument of the C function. *)
Definition gb_connection_recv (data : list Z) : M unit :=
  let size := Z.of_nat (length data) in
  let* st := gets (λ s, c_state (conn s)) in
  if bool_decide (st ≠ GB_CONNECTION_STATE_ENABLED) then emit EvErr
  else if bool_decide (size < sizeof_hdr) then emit EvErr
  else
    let byte i := default 0 (data !! i) in
    let msg_size := le16_to_cpu (byte 0%nat) (byte 1%nat) in
    if bool_decide (msg_size > size) then emit EvErr
    else
      let operation_id := le16_to_cpu (byte 2%nat) (byte 3%nat) in
      let type := byte 4%nat in
      if bool_decide (Z.land type GB_OPERATION_TYPE_RESPONSE ≠ 0)
      then gb_connection_recv_response operation_id data msg_size
      else gb_connection_recv_request operation_id type data msg_size.

(** [gb_operation_cancel] *)
Definition gb_operation_cancel (p : Z) : M unit :=
  update p (set_op_canceled true) ;;;
  gb_message_cancel p Request ;;;
  let* o := deref p in
  if bool_decide (msg_buffer (op_response o) ≠ NULL)
  then gb_message_cancel p Response
  else ret tt.

(** ** The contexts that call into the core *)

(** The timer service runs [operation_timeout] for a delayed work item
    that is still queued; the item leaves the timer as it starts. *)
Definition timer_fire (p : Z) : M unit :=
  let* o := deref p in
  if op_timeout_work o then
    update p (set_op_timeout_work false) ;;;
    operation_timeout p
  else ret tt.

(** The single worker of [gb_operation_recv_workqueue] takes the oldest
    work item and runs [gb_operation_recv_work] on it. *)
Definition worker_step : M unit :=
  let* q := gets recv_workqueue in
  match q with
  | [] => ret tt
  | p :: q' =>
      modify (set_recv_workqueue (λ _, q')) ;;;
      gb_operation_recv_work p
  end.

(** Run a computation and keep the final state, faulted or not. *)
Definition final {A} (r : res A) : gb_state :=
  match r with Ok _ s => s | Oops s => s end.

Definition faulted {A} (r : res A) : bool :=
  match r with Ok _ _ => false | Oops _ => true end.

(** An enabled connection with nothing on it, plans for the allocators
    and the transport, and addresses handed out from [16] on. *)
Definition boot (request_recv : Z) (kp : list bool)
    (ap : list (option (list Z))) (sp : list Z) : gb_state :=
  mk_state ∅ (mk_connection GB_CONNECTION_STATE_ENABLED [] [] 0 7 request_recv)
    ∅ [] [] [] 16 kp ap sp.

(** The number of times [gb_operation_complete] ran for [p]: each run
    either calls the callback or fires the completion. *)
Definition is_completion (p : Z) (e : event) : bool :=
  match e with
  | EvCallback _ q | EvCompleteAll q => bool_decide (q = p)
  | _ => false
  end.

Definition completions (p : Z) (s : gb_state) : nat :=
  length (filter (λ e, is_completion p e = true) (events s)).

(** The number of [buffer_free] calls the driver saw for the buffer [b]. *)
Definition frees (b : Z) (s : gb_state) : nat :=
  length (filter (λ c, c = BufferFree b) (hd_calls s)).

(** The buffers [buffer_alloc] returned successfully, oldest first. *)
Definition allocated (s : gb_state) : list Z :=
  omap (λ c, match c with
             | BufferAlloc _ _ b => if bool_decide (b = NULL) then None else Some b
             | _ => None
             end) (hd_calls s).

(** The [buffer_cancel] calls the driver saw, oldest first. *)
Definition cancels (s : gb_state) : list Z :=
  omap (λ c, match c with BufferCancel k => Some k | _ => None end) (hd_calls s).

(** ** States and values the properties are stated on *)

(** The state [gb_pending_operation_insert] leaves behind. *)
Definition inserted (p : Z) (o : gb_operation) (bytes : list Z) (s : gb_state) : gb_state :=
  let cycle := u16 (c_op_cycle (conn s) + 1) in
  set_mem (insert (msg_buffer (op_request o))
             (splice 2 (cpu_to_le16 cycle) bytes))
    (set_conn (move_to_pending p)
       (set_ops (insert p (set_op_id cycle o))
          (set_conn (set_c_op_cycle cycle) s))).

(** After a submit no operation in the pending list has id 0. *)
Definition no_zero_id_pending (s : gb_state) : Prop :=
  ∀ p o, p ∈ c_pending (conn s) → ops s !! p = Some o → op_id o ≠ 0.

(** An operation created on a connection whose counter has reached 65535:
    the state before the 65536th submit. *)
Definition before_wrap : gb_state :=
  final (gb_operation_create 1 2 4
           (set_conn (set_c_op_cycle 65535) (boot 0 [] [] []))).

(** The part of [gb_operation_cancel] after the flag is set. *)
Definition cancel_messages (p : Z) : M unit :=
  gb_message_cancel p Request ;;;
  let* o := deref p in
  if bool_decide (msg_buffer (op_response o) ≠ NULL)
  then gb_message_cancel p Response
  else ret tt.

(** The cookies [gb_operation_cancel] hands to [buffer_cancel]: the
    request's when it is non-null, then the response's when the operation
    has a response buffer and its cookie is non-null. *)
Definition in_flight (o : gb_operation) : list Z :=
  (if bool_decide (msg_cookie (op_request o) = NULL) then []
   else [msg_cookie (op_request o)]) ++
  (if bool_decide (msg_buffer (op_response o) ≠ NULL) then
     if bool_decide (msg_cookie (op_response o) = NULL) then []
     else [msg_cookie (op_response o)]
   else []).

(** An asynchronous request in flight: created, submitted with callback
    [5], the transport accepted the buffer and returned a cookie. *)
Definition submitted_async : gb_state :=
  final (gb_operation_request_send 16 5
           (final (gb_operation_create 1 2 4 (boot 0 [] [] [])))).

(** The first steps of the response path once the operation is found:
    the timer is cancelled and the operation leaves the pending list. *)
Definition unpended (p : Z) (o : gb_operation) (s : gb_state) : gb_state :=
  set_conn (move_to_operations p)
    (set_ops (insert p (set_op_timeout_work false o)) s).

(** A request that allows a 4-byte response payload, submitted without a
    callback; the caller waits. *)
Definition submitted_sync : gb_state :=
  final (gb_operation_request_send 16 0
           (final (gb_operation_create 1 2 4 (boot 0 [] [] [])))).

(** A response frame for id 1 with [size = header + 8]. *)
Definition big_response : list Z :=
  [16; 0; 1; 0; 0x81; 0; 0; 0; 1; 2; 3; 4; 5; 6; 7; 8].

(** The response buffer after the response path ran with result [r]. *)
Definition response_bytes (r : Z) (data : list Z) (size : Z) (bytes : list Z) : list Z :=
  if bool_decide (r = GB_OP_SUCCESS)
  then take (Z.to_nat size) data ++ drop (Z.to_nat size) (<[5%nat := r]> bytes)
  else <[5%nat := r]> bytes.

(** The state the response path leaves behind for a frame that fits,
    when it recorded the result [r]. *)
Definition responded (p : Z) (o : gb_operation) (data : list Z) (size : Z)
    (bytes : list Z) (r : Z) (s : gb_state) : gb_state :=
  let buf := msg_buffer (op_response o) in
  let s1 := set_ops (insert p (set_op_result r (set_op_timeout_work false o)))
              (set_mem (insert buf (<[5%nat := r]> bytes)) (unpended p o s)) in
  let s2 := if bool_decide (r = GB_OP_SUCCESS)
            then set_mem (insert buf (response_bytes r data size bytes)) s1
            else s1 in
  set_recv_workqueue (λ q, if bool_decide (p ∈ q) then q else q ++ [p]) s2.

(** A request whose response buffer still holds a non-zero byte at the
    start of its payload when the response arrives. *)
Definition submitted_stale : gb_state :=
  final (gb_operation_request_send 16 5
           (final (gb_operation_create 1 2 4
                     (boot 0 [] [Some []; Some [0; 0; 0; 0; 0; 0; 0; 0; 7]] [])))).

(** A response for id 1 that fits the buffer and reports the error 7. *)
Definition error_response : list Z := [12; 0; 1; 0; 0x81; 7; 0; 0; 7; 2; 3; 4].

(** A successful response for id 1 with four bytes of payload. *)
Definition good_response : list Z := [12; 0; 1; 0; 0x81; 0; 0; 0; 1; 2; 3; 4].

(** A freshly allocated operation, about to get its request message. *)
Definition fresh_operation : gb_state :=
  final (kmem_cache_zalloc (boot 0 [] [Some []] [])).

(** An incoming request of two payload bytes was received on a connection
    whose protocol has no handler, and the worker has completed it with
    [GB_OP_PROTOCOL_BAD]. *)
Definition incoming_handled : gb_state :=
  final (worker_step
           (final (gb_connection_recv [10; 0; 0x42; 0x42; 3; 0; 0; 0; 1; 2]
                     (boot 0 [] [] [])))).

(** ** Well-formed states *)

(** No operation named by [l] has the id [id]; every entry of [l] is a
    live operation. *)
Definition none_has_id (s : gb_state) (l : list Z) (id : Z) : Prop :=
  ∀ q, q ∈ l → ∃ o, ops s !! q = Some o ∧ op_id o ≠ id.

(** Every entry of the pending list names a live operation. *)
Definition pending_live (s : gb_state) : Prop :=
  ∀ q, q ∈ c_pending (conn s) → is_Some (ops s !! q).

(** An operation is linked into at most one of the two lists of the
    connection, and at most once: what a [struct list_head] node allows. *)
Definition lists_ok (c : gb_connection) : Prop :=
  NoDup (c_operations c ++ c_pending c).

(** Two asynchronous requests in flight, with ids 1 and 2 and the cookies
    100 and 101. *)
Definition two_submitted : gb_state :=
  final (gb_operation_request_send 19 6
    (final (gb_operation_request_send 16 5
      (final (gb_operation_create 2 0 4
        (final (gb_operation_create 1 2 4 (boot 0 [] [] [100; 101])))))))).

(** The same two requests after the counter has gone round: the next
    submit will hand out id 1 again while the first request still has it. *)
Definition two_submitted_wrapped : gb_state :=
  final (gb_operation_create 3 0 4
           (set_conn (set_c_op_cycle 0) two_submitted)).

Definition set_c_state (v : gb_connection_state) (c : gb_connection) :=
  mk_connection v (c_operations c) (c_pending c) (c_op_cycle c)
    (c_interface_cport_id c) (c_request_recv c).

(** A request was created and the connection was disabled before it
    could be submitted. *)
Definition created_then_disabled : gb_state :=
  set_conn (set_c_state GB_CONNECTION_STATE_DISABLED)
    (final (gb_operation_create 1 2 4 (boot 0 [] [] []))).

(** A request was created; the transport will answer the send with the
    cookie 100. *)
Definition created_for_send : gb_state :=
  final (gb_operation_create 1 2 4 (boot 0 [] [] [100])).

(** What the next [buffer_alloc] will answer: null, or a buffer holding
    the given stale bytes. *)
Definition next_alloc (s : gb_state) : option (list Z) :=
  match alloc_plan s with [] => Some [] | a :: _ => a end.

(** Whether the next [kmem_cache_zalloc] will succeed. *)
Definition next_kmem (s : gb_state) : bool :=
  match kmem_plan s with [] => true | b :: _ => b end.

(** The allocators hand out addresses that are not in use and not null. *)
Definition heap_fresh (s : gb_state) : Prop :=
  0 < next_addr s ∧
  ∀ a, next_addr s ≤ a → ops s !! a = None ∧ mem s !! a = None.

(** The frame [gb_operation_message_init] leaves in a fresh buffer of
    [size] bytes: the size, a zero id, the type, and from offset 5 on
    whatever the allocator left there. *)
Definition init_bytes (junk : list Z) (size type : Z) : list Z :=
  cpu_to_le16 size ++ [0; 0; u8 type] ++ drop 5 (stale_bytes junk size).

(** The type byte [gb_operation_message_init] stores. *)
Definition init_type (request : bool) (type : Z) : Z :=
  if request then type else Z.lor type GB_OPERATION_TYPE_RESPONSE.

(** The state after [gb_operation_message_init] succeeded with a payload
    of [size] bytes. *)
Definition message_inited (p : Z) (o : gb_operation) (type size : Z)
    (request : bool) (gfp : gfp_t) (junk : list Z) (s : gb_state) : gb_state :=
  let w := if request then Request else Response in
  let b := next_addr s in
  set_ops (insert p (set_msg w
             (mk_message p b (b + sizeof_hdr) (size + sizeof_hdr)
                (msg_cookie (get_msg w o))) o))
    (set_mem (insert b (init_bytes junk (size + sizeof_hdr) (init_type request type)))
       (set_hd_calls (λ l, l ++ [BufferAlloc (size + sizeof_hdr) gfp b])
          (set_next_addr (λ a, a + 1) (set_alloc_plan (drop 1) s)))).

(** The state after [gb_operation_message_init] found no memory. *)
Definition message_enomem (p : Z) (o : gb_operation) (size : Z)
    (request : bool) (gfp : gfp_t) (s : gb_state) : gb_state :=
  let w := if request then Request else Response in
  let m := get_msg w o in
  set_ops (insert p (set_msg w
             (mk_message (msg_operation m) NULL (msg_payload m)
                (msg_buffer_size m) (msg_cookie m)) o))
    (set_hd_calls (λ l, l ++ [BufferAlloc (size + sizeof_hdr) gfp NULL])
       (set_alloc_plan (drop 1) s)).

(** The state after a successful [kmem_cache_zalloc]: a zeroed operation
    at the next free address. *)
Definition zalloced (s : gb_state) : gb_state :=
  set_next_addr (λ a, a + 1)
    (set_ops (insert (next_addr s) zero_operation) (set_kmem_plan (drop 1) s)).

(** The state after [gb_operation_message_exit] on a message whose back
    pointer is valid. *)
Definition message_exited (p : Z) (o : gb_operation) (w : msg_sel) (s : gb_state) :
    gb_state :=
  set_ops (insert p (set_msg w
             (mk_message NULL NULL NULL 0 (msg_cookie (get_msg w o))) o))
    (set_mem (delete (msg_buffer (get_msg w o)))
       (set_hd_calls (λ l, l ++ [BufferFree (msg_buffer (get_msg w o))]) s)).

(** The flags [gb_operation_create_common] allocates the operation and
    its request buffer with. *)
Definition create_gfp (response_size : Z) : gfp_t :=
  if bool_decide (response_size ≠ 0) then GFP_KERNEL else GFP_ATOMIC.

(** The operation [gb_operation_create_common] returns, at address [p]:
    the request buffer right behind it, the response buffer (for an
    outgoing operation) behind that. *)
Definition created_operation (outgoing : bool) (p request_size response_size : Z) :
    gb_operation :=
  mk_operation
    (mk_message p (p + 1) (p + 1 + sizeof_hdr) (request_size + sizeof_hdr) 0)
    (if outgoing
     then mk_message p (p + 2) (p + 2 + sizeof_hdr) (response_size + sizeof_hdr) 0
     else zero_message)
    0 false 0 NULL false false 1.

(** The state after [gb_operation_create_common] succeeded. *)
Definition created (outgoing : bool) (type request_size response_size : Z)
    (junk1 junk2 : list Z) (s : gb_state) : gb_state :=
  let p := next_addr s in
  let gfp := create_gfp response_size in
  let mem1 := <[p + 1 := init_bytes junk1 (request_size + sizeof_hdr) type]> (mem s) in
  mk_state
    (<[p := created_operation outgoing p request_size response_size]> (ops s))
    (add_to_operations p (conn s))
    (if outgoing
     then <[p + 2 := init_bytes junk2 (response_size + sizeof_hdr)
                       (Z.lor type GB_OPERATION_TYPE_RESPONSE)]> mem1
     else mem1)
    (hd_calls s ++
     BufferAlloc (request_size + sizeof_hdr) gfp (p + 1) ::
     (if outgoing
      then [BufferAlloc (response_size + sizeof_hdr) GFP_KERNEL (p + 2)]
      else []))
    (events s) (recv_workqueue s)
    (if outgoing then p + 3 else p + 2)
    (drop 1 (kmem_plan s))
    (if outgoing then drop 1 (drop 1 (alloc_plan s)) else drop 1 (alloc_plan s))
    (send_plan s).

(** Every operation linked into a list of the connection is live. *)
Definition lists_live (s : gb_state) : Prop :=
  ∀ q, q ∈ c_operations (conn s) ++ c_pending (conn s) → is_Some (ops s !! q).

(** The event [gb_operation_complete] leaves for the operation [o] at
    [p]: the callback when there is one, the completion otherwise. *)
Definition completion_event (p : Z) (o : gb_operation) : event :=
  if bool_decide (op_callback o ≠ NULL) then EvCallback (op_callback o) p
  else EvCompleteAll p.

(** The operation after [gb_operation_complete]: only a completion that
    nobody handles by callback is marked done. *)
Definition completed (o : gb_operation) : gb_operation :=
  if bool_decide (op_callback o ≠ NULL) then o else set_op_completion true o.

(** The first request in flight with a second reference taken on it. *)
Definition submitted_held : gb_state :=
  set_ops (insert 16
             (mk_operation (mk_message 16 17 25 10 19) (mk_message 16 18 26 12 0)
                1 false 0 5 false true 2)) submitted_async.

(** An incoming request sits in the work queue of a connection whose
    protocol has the request handler [9]. *)
Definition incoming_queued : gb_state :=
  final (gb_connection_recv [10; 0; 0x42; 0x42; 3; 0; 0; 0; 1; 2] (boot 9 [] [] [])).

(** * The power-management reference count of the GPU driver

    The second file of the sources, [mali_kbase_pm.c], counts the users of
    the GPU: the first reference powers the GPU on, dropping the last one
    powers it off.  It is embedded for the configuration without
    [CONFIG_MALI_ARBITER_SUPPORT]; the debug assertions are recorded as
    events, not enforced. *)

Module kbase_pm.

(** The values of [enum kbase_pm_suspend_handler] the file names (the
    enumeration is declared in a header outside the sources). *)
Inductive kbase_pm_suspend_handler :=
| KBASE_PM_SUSPEND_HANDLER_NOT_POSSIBLE
| KBASE_PM_SUSPEND_HANDLER_DONT_INCREASE
| KBASE_PM_SUSPEND_HANDLER_DONT_REACTIVATE.

#[global] Instance kbase_pm_suspend_handler_eq_dec :
  EqDecision kbase_pm_suspend_handler.
Proof. solve_decision. Defined.

(** Calls that leave the file, in the order they are made. *)
Inductive pm_call :=
| KTRACE_PM_CONTEXT_ACTIVE (c : Z)   (* KBASE_KTRACE_ADD(.., PM_CONTEXT_ACTIVE, NULL, c) *)
| KTRACE_PM_CONTEXT_IDLE (c : Z)     (* KBASE_KTRACE_ADD(.., PM_CONTEXT_IDLE, NULL, c) *)
| hwaccess_pm_gpu_active             (* kbase_hwaccess_pm_gpu_active *)
| hwaccess_pm_gpu_idle               (* kbase_hwaccess_pm_gpu_idle *)
| clk_rate_trace_gpu_active          (* kbase_clk_rate_trace_manager_gpu_active *)
| clk_rate_trace_gpu_idle            (* kbase_clk_rate_trace_manager_gpu_idle *)
| wake_up_zero_active_count          (* wake_up(&kbdev->pm.zero_active_count_wait) *)
| debug_assert_failed.               (* a KBASE_DEBUG_ASSERT whose condition is false *)

(** The part of [struct kbase_device] the two functions use:
    [kbdev->pm.active_count], the flag [kbdev->pm.suspending] that
    [kbase_pm_is_suspending] reads, whether [kbdev->pm.lock] is held, and
    the calls made so far. *)
Record kbase_device := mk_kbdev {
  active_count : Z;        (* int *)
  suspending : bool;
  pm_locked : bool;
  pm_calls : list pm_call;
}.

(** An [int] keeps the low 32 bits, read as a signed number. *)
Definition int32 (z : Z) : Z := (z + 2 ^ 31) mod 2 ^ 32 - 2 ^ 31.

(** [kbase_pm_lock]: taking the mutex while it is held never returns. *)
Definition kbase_pm_lock (d : kbase_device) : option kbase_device :=
  if pm_locked d then None
  else Some (mk_kbdev (active_count d) (suspending d) true (pm_calls d)).

(** [kbase_pm_unlock] *)
Definition kbase_pm_unlock (d : kbase_device) : kbase_device :=
  mk_kbdev (active_count d) (suspending d) false (pm_calls d).

Definition call (c : pm_call) (d : kbase_device) : kbase_device :=
  mk_kbdev (active_count d) (suspending d) (pm_locked d) (pm_calls d ++ [c]).

Definition set_active_count (c : Z) (d : kbase_device) : kbase_device :=
  mk_kbdev c (suspending d) (pm_locked d) (pm_calls d).

(** The tail of [kbase_pm_context_active_handle_suspend]: take the
    reference, power on for the first one, unlock, return 0. *)
Definition take_reference (d : kbase_device) : Z * kbase_device :=
  let c := int32 (active_count d + 1) in
  let d := set_active_count c d in
  let d := call (KTRACE_PM_CONTEXT_ACTIVE c) d in
  let d := if bool_decide (c = 1)
           then call clk_rate_trace_gpu_active (call hwaccess_pm_gpu_active d)
           else d in
  (0, kbase_pm_unlock d).

(** [kbase_pm_context_active_handle_suspend] *)
Definition kbase_pm_context_active_handle_suspend
    (suspend_handler : kbase_pm_suspend_handler) (d : kbase_device) :
    option (Z * kbase_device) :=
  match kbase_pm_lock d with
  | None => None
  | Some d =>
      if suspending d then
        match suspend_handler with
        | KBASE_PM_SUSPEND_HANDLER_DONT_REACTIVATE =>
            if bool_decide (active_count d ≠ 0) then Some (take_reference d)
            else Some (1, kbase_pm_unlock d)
        | KBASE_PM_SUSPEND_HANDLER_DONT_INCREASE =>
            Some (1, kbase_pm_unlock d)
        | KBASE_PM_SUSPEND_HANDLER_NOT_POSSIBLE =>
            Some (take_reference (call debug_assert_failed d))
        end
      else Some (take_reference d)
  end.

(** [kbase_pm_context_active] *)
Definition kbase_pm_context_active (d : kbase_device) : option kbase_device :=
  match kbase_pm_context_active_handle_suspend
          KBASE_PM_SUSPEND_HANDLER_NOT_POSSIBLE d with
  | Some (_, d) => Some d
  | None => None
  end.

(** [kbase_pm_context_idle] *)
Definition kbase_pm_context_idle (d : kbase_device) : option kbase_device :=
  match kbase_pm_lock d with
  | None => None
  | Some d =>
      let c := int32 (active_count d - 1) in
      let d := set_active_count c d in
      let d := call (KTRACE_PM_CONTEXT_IDLE c) d in
      let d := if bool_decide (0 ≤ c) then d else call debug_assert_failed d in
      let d := if bool_decide (c = 0)
               then call wake_up_zero_active_count
                      (call clk_rate_trace_gpu_idle (call hwaccess_pm_gpu_idle d))
               else d in
      Some (kbase_pm_unlock d)
  end.

(** [kbase_pm_apc_power_off_worker] *)
Definition kbase_pm_apc_power_off_worker (d : kbase_device) : option kbase_device :=
  kbase_pm_context_idle d.

End kbase_pm.

(** * Module start and stop of the operation core

    [gb_operation_init] creates the slab cache for operations and the
    work queue of the worker; [gb_operation_exit] destroys both.  The two
    file-scope pointers and the kernel objects that exist are the state;
    what [kmem_cache_create] and [alloc_workqueue] return is an input. *)

Module lifecycle.

Record globals := mk_globals {
  gb_operation_cache : Z;             (* static struct kmem_cache * *)
  gb_operation_recv_workqueue : Z;    (* static struct workqueue_struct * *)
  objects : list Z;                   (* caches and work queues that exist *)
}.

(** [kmem_cache_create] and [alloc_workqueue]: a non-null result is a new
    object. *)
Definition create_object (r : Z) (g : globals) : globals :=
  if bool_decide (r = NULL) then g
  else mk_globals (gb_operation_cache g) (gb_operation_recv_workqueue g)
         (objects g ++ [r]).

(** [kmem_cache_destroy] and [destroy_workqueue] *)
Definition destroy_object (r : Z) (g : globals) : globals :=
  mk_globals (gb_operation_cache g) (gb_operation_recv_workqueue g)
    (list_del r (objects g)).

Definition set_cache (v : Z) (g : globals) : globals :=
  mk_globals v (gb_operation_recv_workqueue g) (objects g).
Definition set_workqueue (v : Z) (g : globals) : globals :=
  mk_globals (gb_operation_cache g) v (objects g).

(** [gb_operation_init], given the results of [kmem_cache_create] and of
    [alloc_workqueue]. *)
Definition gb_operation_init (cache workqueue : Z) (g : globals) : Z * globals :=
  let g := set_cache cache (create_object cache g) in
  if bool_decide (gb_operation_cache g = NULL) then (- ENOMEM, g)
  else
    let g := set_workqueue workqueue (create_object workqueue g) in
    if bool_decide (gb_operation_recv_workqueue g = NULL) then
      let g := destroy_object (gb_operation_cache g) g in
      (- ENOMEM, set_cache NULL g)
    else (0, g).

(** [gb_operation_exit] *)
Definition gb_operation_exit (g : globals) : globals :=
  let g := destroy_object (gb_operation_recv_workqueue g) g in
  let g := set_workqueue NULL g in
  let g := destroy_object (gb_operation_cache g) g in
  set_cache NULL g.

End lifecycle.

(** * Properties *)

(** ** Stepping through monadic code *)

Lemma bind_Ok {A B} (m : M A) (k : A → M B) s a s1 :
  m s = Ok a s1 → bind m k s = k a s1.
Proof. unfold bind. by intros ->. Qed.

Lemma bind_Oops {A B} (m : M A) (k : A → M B) s s1 :
  m s = Oops s1 → bind m k s = Oops s1.
Proof. unfold bind. by intros ->. Qed.

Lemma deref_Ok s p o : ops s !! p = Some o → deref p s = Ok o s.
Proof. unfold deref. by intros ->. Qed.

Lemma deref_Oops s p : ops s !! p = None → deref p s = Oops s.
Proof. unfold deref. by intros ->. Qed.

Lemma update_Ok s p o f :
  ops s !! p = Some o → update p f s = Ok tt (set_ops (insert p (f o)) s).
Proof. intros H. unfold update. by rewrite (bind_Ok _ _ _ _ _ (deref_Ok _ _ _ H)). Qed.

(** ** Releasing a null operation *)

(** C10. [gb_operation_put] on a null pointer only raises the warning: no
    reference count is decremented, no operation or buffer is freed, the
    driver is not called and neither list of the connection nor the work
    queue changes. *)
Theorem gb_operation_put_null (s : gb_state) :
  ∃ s', gb_operation_put NULL s = Ok tt s' ∧
        ops s' = ops s ∧ conn s' = conn s ∧ mem s' = mem s ∧
        hd_calls s' = hd_calls s ∧ recv_workqueue s' = recv_workqueue s ∧
        next_addr s' = next_addr s ∧
        events s' = events s ++ [EvWarn].
Proof.
  eexists. split; [reflexivity|]. simpl. repeat split.
Qed.

(** ** Assigning the id: [gb_pending_operation_insert] *)

Lemma store_bytes_Ok s base off src bytes :
  mem s !! base = Some bytes →
  0 ≤ off → off + Z.of_nat (length src) ≤ Z.of_nat (length bytes) →
  store_bytes base off src s
  = Ok tt (set_mem (insert base (splice (Z.to_nat off) src bytes)) s).
Proof.
  intros Hm H0 H1. unfold store_bytes. rewrite Hm.
  by rewrite bool_decide_eq_true_2.
Qed.

Lemma load_byte_Ok s base off bytes b :
  mem s !! base = Some bytes → 0 ≤ off → bytes !! Z.to_nat off = Some b →
  load_byte base off s = Ok b s.
Proof.
  intros Hm H0 Hb. unfold load_byte. rewrite Hm.
  rewrite bool_decide_eq_true_2 by done. by rewrite Hb.
Qed.

Lemma gb_pending_operation_insert_Ok s p o bytes :
  ops s !! p = Some o →
  mem s !! msg_buffer (op_request o) = Some bytes →
  (4 ≤ length bytes)%nat →
  gb_pending_operation_insert p s = Ok tt (inserted p o bytes s).
Proof.
  intros Ho Hm Hlen. unfold gb_pending_operation_insert.
  rewrite (bind_Ok _ _ _ _ _ (deref_Ok _ _ _ Ho)).
  unfold gets at 1. unfold bind at 1.
  unfold modify at 1. unfold bind at 1.
  erewrite bind_Ok; [|by apply update_Ok].
  unfold modify at 1. unfold bind at 1.
  erewrite bind_Ok; [|apply deref_Ok, lookup_insert_eq].
  erewrite store_bytes_Ok; [reflexivity|exact Hm|done|].
  simpl. unfold hdr_operation_id_off. lia.
Qed.

Lemma u16_succ_zero (c : Z) : u16 (c + 1) = 0 ↔ u16 c = 65535.
Proof. unfold u16. split; intros H; Z.div_mod_to_equations; lia. Qed.

(** C5, as stated, fails: with the counter at 65535 the increment wraps to
    0, zero is not skipped, and the operation enters the pending list with
    id 0 (and 0 in its request header). *)
Lemma gb_pending_operation_insert_zero_id :
  no_zero_id_pending before_wrap ∧
  ∃ s' o, gb_pending_operation_insert 16 before_wrap = Ok tt s' ∧
          16 ∈ c_pending (conn s') ∧ ops s' !! 16 = Some o ∧ op_id o = 0 ∧
          mem s' !! msg_buffer (op_request o) = Some [10; 0; 0; 0; 1; 0; 0; 0; 0; 0] ∧
          ¬ no_zero_id_pending s'.
Proof.
  split.
  - intros p o Hp. vm_compute in Hp. by apply elem_of_nil in Hp.
  - eexists _, _. split; [vm_compute; reflexivity|].
    split; [vm_compute; apply list_elem_of_here|].
    split; [vm_compute; reflexivity|].
    split; [reflexivity|]. split; [vm_compute; reflexivity|].
    intros H. eapply (H 16); [vm_compute; apply list_elem_of_here | vm_compute; reflexivity | reflexivity].
Qed.

(** C5, amended.  [gb_pending_operation_insert] increments the
    connection's 16-bit counter with plain wrap-around, gives the new value
    to the operation as its id, stores it little-endian into the request
    header and moves the operation to the tail of the pending list.  Zero
    is not skipped: the assigned id is 0 exactly when the counter stood at
    65535. *)
Theorem gb_pending_operation_insert_spec s p o bytes :
  ops s !! p = Some o →
  mem s !! msg_buffer (op_request o) = Some bytes →
  (4 ≤ length bytes)%nat →
  ∃ s', gb_pending_operation_insert p s = Ok tt s' ∧
        let id := (c_op_cycle (conn s) + 1) mod 65536 in
        c_op_cycle (conn s') = id ∧
        ops s' !! p = Some (set_op_id id o) ∧
        c_pending (conn s') = list_del p (c_pending (conn s)) ++ [p] ∧
        c_operations (conn s') = list_del p (c_operations (conn s)) ∧
        mem s' !! msg_buffer (op_request o)
          = Some (take 2 bytes ++ [id mod 256; id / 256] ++ drop 4 bytes) ∧
        (id = 0 ↔ c_op_cycle (conn s) mod 65536 = 65535).
Proof.
  intros Ho Hm Hlen. eexists. split.
  { by eapply gb_pending_operation_insert_Ok. }
  cbv zeta. unfold inserted. simpl.
  repeat split; try reflexivity.
  - apply lookup_insert_eq.
  - rewrite lookup_insert_eq. unfold cpu_to_le16, u16.
    by rewrite Z.mod_mod.
  - apply u16_succ_zero.
  - apply u16_succ_zero.
Qed.

(** The amended statement at the first submit on a fresh connection. *)
Lemma gb_pending_operation_insert_spec_witness :
  ∃ s', gb_pending_operation_insert 16
          (final (gb_operation_create 1 2 4 (boot 0 [] [] []))) = Ok tt s' ∧
        c_op_cycle (conn s') = 1 ∧
        c_pending (conn s') = [16].
Proof.
  destruct (gb_pending_operation_insert_spec
              (final (gb_operation_create 1 2 4 (boot 0 [] [] []))) 16
              (mk_operation (mk_message 16 17 25 10 0) (mk_message 16 18 26 12 0)
                 0 false 0 0 false false 1)
              [10; 0; 0; 0; 1; 0; 0; 0; 0; 0])
    as (s' & Hrun & Hcyc & _ & Hpend & _).
  - vm_compute. reflexivity.
  - vm_compute. reflexivity.
  - simpl. lia.
  - exists s'. split; [exact Hrun|]. split; [exact Hcyc|exact Hpend].
Defined.


(** ** Submitting: [gb_operation_request_send] *)

Lemma IS_ERR_ERR_PTR e : 1 ≤ e ≤ MAX_ERRNO → IS_ERR (ERR_PTR (- e)) = true.
Proof. intros H. unfold IS_ERR, ERR_PTR. apply bool_decide_eq_true_2. lia. Qed.

Lemma PTR_ERR_ERR_PTR e : PTR_ERR (ERR_PTR e) = e.
Proof. unfold PTR_ERR, ERR_PTR. lia. Qed.

(** Reduce the monad, the primitives that only shuffle the state and the
    projections of the state record; lookups in the heaps stay in place. *)
Ltac mred :=
  cbv beta iota zeta delta
    [bind ret gets modify emit hd_log update message_hd oops
     schedule_delayed_work cancel_delayed_work queue_work buffer_cancel
     buffer_free buffer_send deref final faulted
     set_ops set_conn set_mem set_hd_calls set_events set_recv_workqueue
     set_next_addr set_kmem_plan set_alloc_plan set_send_plan
     ops conn mem hd_calls events recv_workqueue next_addr kmem_plan
     alloc_plan send_plan].

(** Use an equation of the context on the goal. *)
Ltac mhyp :=
  match goal with
  | H : ?l = _ |- context [?l] => rewrite H
  end.

(** Run monadic code as far as the known lookups and tests allow. *)
Ltac mrun := mred; repeat (mhyp; mred).

(** A failed send: the driver's error comes back and the cookie is null. *)
Lemma gb_message_send_error s p w gfp o e rest :
  ops s !! p = Some o →
  msg_operation (get_msg w o) = p →
  send_plan s = ERR_PTR (- e) :: rest →
  1 ≤ e ≤ MAX_ERRNO →
  ∃ s', gb_message_send p w gfp s = Ok (- e) s' ∧
        (∃ m, ops s' = <[p := set_msg w m o]> (ops s) ∧ msg_cookie m = NULL) ∧
        conn s' = conn s ∧ mem s' = mem s ∧ events s' = events s ∧
        recv_workqueue s' = recv_workqueue s ∧
        hd_calls s' = hd_calls s ++
          [BufferSend (c_interface_cport_id (conn s)) (msg_buffer (get_msg w o))
             (msg_buffer_size (get_msg w o)) gfp (ERR_PTR (- e))].
Proof.
  intros Ho Hback Hplan He. destruct s; simpl in *.
  unfold gb_message_send. mred.
  rewrite Ho, Hback, Ho. mred. rewrite Ho, Hplan. mred.
  rewrite IS_ERR_ERR_PTR by done. mred. rewrite lookup_insert_eq. mred.
  rewrite PTR_ERR_ERR_PTR.
  eexists. split; [reflexivity|]. simpl. repeat split.
  exists (mk_message p (msg_buffer (get_msg w o)) (msg_payload (get_msg w o))
            (msg_buffer_size (get_msg w o)) NULL).
  split; [|reflexivity]. rewrite insert_insert_eq. by destruct w.
Qed.

(** C6. On an enabled connection, when the transport refuses the request
    buffer, [gb_operation_request_send] returns the transport's error
    code at once; the operation stays in the pending list, its timeout is
    not armed, nothing is queued for the worker and no completion is
    delivered. *)
Theorem gb_operation_request_send_transport_error s p o bytes callback e rest :
  c_state (conn s) = GB_CONNECTION_STATE_ENABLED →
  ops s !! p = Some o →
  msg_operation (op_request o) = p →
  mem s !! msg_buffer (op_request o) = Some bytes →
  (4 ≤ length bytes)%nat →
  op_timeout_work o = false →
  send_plan s = ERR_PTR (- e) :: rest →
  1 ≤ e ≤ MAX_ERRNO →
  ∃ s' o', gb_operation_request_send p callback s = Ok (Returned (- e)) s' ∧
           p ∈ c_pending (conn s') ∧
           ops s' !! p = Some o' ∧
           op_timeout_work o' = false ∧
           op_completion o' = op_completion o ∧
           msg_cookie (op_request o') = NULL ∧
           recv_workqueue s' = recv_workqueue s ∧
           events s' = events s ∧
           completions p s' = completions p s.
Proof.
  intros Hen Ho Hback Hm Hlen Htw Hplan He.
  unfold gb_operation_request_send.
  rewrite (bind_Ok _ _ _ _ _ (deref_Ok _ _ _ Ho)).
  unfold gets at 1. unfold bind at 1. rewrite Hen.
  rewrite bool_decide_eq_false_2 by (intros H; by apply H).
  erewrite bind_Ok; [|by apply update_Ok].
  set (o1 := set_op_callback callback o).
  set (s1 := set_ops (insert p o1) s).
  erewrite bind_Ok;
    [|apply (gb_pending_operation_insert_Ok s1 p o1 bytes);
      [apply lookup_insert_eq|exact Hm|exact Hlen]].
  set (s2 := inserted p o1 bytes s1).
  set (o2 := set_op_id (u16 (c_op_cycle (conn s1) + 1)) o1).
  destruct (gb_message_send_error s2 p Request GFP_KERNEL o2 e rest)
    as (s3 & Hrun & (m & Hops & Hck) & Hconn & _ & Hev & Hwq & _);
    [apply lookup_insert_eq|exact Hback|exact Hplan|exact He|].
  rewrite (bind_Ok _ _ _ _ _ Hrun).
  rewrite bool_decide_eq_true_2 by lia.
  exists s3, (set_msg Request m o2). split; [reflexivity|].
  split. { rewrite Hconn. simpl. apply elem_of_app. right. apply list_elem_of_here. }
  split. { rewrite Hops. apply lookup_insert_eq. }
  split; [exact Htw|]. split; [reflexivity|]. split; [exact Hck|].
  split; [by rewrite Hwq|]. split; [by rewrite Hev|].
  unfold completions. by rewrite Hev.
Qed.

(** The transport answers [-ENOMEM] to the first submit on a fresh
    connection. *)
Lemma gb_operation_request_send_transport_error_witness :
  ∃ s' o', gb_operation_request_send 16 0
             (final (gb_operation_create 1 2 4
                       (boot 0 [] [] [ERR_PTR (- ENOMEM)])))
           = Ok (Returned (- ENOMEM)) s' ∧
           16 ∈ c_pending (conn s') ∧
           ops s' !! 16 = Some o' ∧
           op_timeout_work o' = false ∧
           completions 16 s' = 0%nat.
Proof.
  destruct (gb_operation_request_send_transport_error
              (final (gb_operation_create 1 2 4
                        (boot 0 [] [] [ERR_PTR (- ENOMEM)]))) 16
              (mk_operation (mk_message 16 17 25 10 0) (mk_message 16 18 26 12 0)
                 0 false 0 0 false false 1)
              [10; 0; 0; 0; 1; 0; 0; 0; 0; 0] 0 ENOMEM [])
    as (s' & o' & Hrun & Hpend & Hops & Htw & _ & _ & _ & _ & Hc).
  - reflexivity.
  - vm_compute. reflexivity.
  - reflexivity.
  - vm_compute. reflexivity.
  - simpl. lia.
  - reflexivity.
  - reflexivity.
  - unfold ENOMEM, MAX_ERRNO. lia.
  - exists s', o'. split; [exact Hrun|]. split; [exact Hpend|].
    split; [exact Hops|]. split; [exact Htw|]. rewrite Hc. reflexivity.
Defined.

(** ** Cancelling: [gb_operation_cancel] *)

Lemma gb_operation_cancel_unfold p :
  gb_operation_cancel p = (update p (set_op_canceled true) ;;; cancel_messages p).
Proof. reflexivity. Qed.

(** Cancelling the messages only appends to the driver trace, and does
    the same in every state with the same operations. *)
Lemma cancel_messages_run s p o s1 :
  ops s !! p = Some o →
  cancel_messages p s = Ok tt s1 →
  s1 = set_hd_calls (λ l, l ++ map BufferCancel (in_flight o)) s ∧
  ∀ s', ops s' = ops s →
        cancel_messages p s'
        = Ok tt (set_hd_calls (λ l, l ++ map BufferCancel (in_flight o)) s').
Proof.
  intros Ho H.
  assert (Hall : ∀ t, ops t = ops s →
            cancel_messages p t
            = Ok tt (set_hd_calls (λ l, l ++ map BufferCancel (in_flight o)) t)).
  { intros t Ht.
    destruct t as [opst c m h ev wq na kp ap sp],
             s as [ops0 c' m' h' ev' wq' na' kp' ap' sp'].
    simpl in *. subst opst. revert H.
    unfold cancel_messages, gb_message_cancel, in_flight, get_msg. mrun.
    destruct (bool_decide (msg_cookie (op_request o) = NULL)) eqn:Hrq;
      destruct (bool_decide (msg_buffer (op_response o) ≠ NULL)) eqn:Hrb;
      try destruct (bool_decide (msg_cookie (op_response o) = NULL)) eqn:Hrs;
      mrun.
    all: try (destruct (ops0 !! msg_operation (op_request o)) eqn:E1; mrun).
    all: try (destruct (ops0 !! msg_operation (op_response o)) eqn:E2; mrun).
    all: intros H; try discriminate H.
    all: simpl; rewrite ?app_nil_r, <- ?app_assoc; reflexivity. }
  split; [|exact Hall]. rewrite Hall in H by done. congruence.
Qed.

(** C9, as stated, fails: while the request is in flight every cancel
    calls the transport's [buffer_cancel] with the same cookie, so two
    cancels leave two calls in the driver trace where one cancel leaves
    one. *)
Lemma gb_operation_cancel_repeats_buffer_cancel :
  ∃ s1 s2, gb_operation_cancel 16 submitted_async = Ok tt s1 ∧
           gb_operation_cancel 16 s1 = Ok tt s2 ∧
           cancels s1 = [19] ∧ cancels s2 = [19; 19] ∧
           hd_calls s2 ≠ hd_calls s1.
Proof.
  eexists _, _. split; [vm_compute; reflexivity|].
  split; [vm_compute; reflexivity|].
  split; [vm_compute; reflexivity|].
  split; [vm_compute; reflexivity|].
  vm_compute. discriminate.
Qed.

(** C9, amended.  A second [gb_operation_cancel] leaves the operation,
    the connection and the buffers exactly as the first one left them,
    but the transport sees the same [buffer_cancel] calls once more: one
    for each message of the operation whose cookie is non-null.  Two
    cancels are the same as one only when no message is in flight. *)
Theorem gb_operation_cancel_again s p o s1 :
  ops s !! p = Some o →
  gb_operation_cancel p s = Ok tt s1 →
  ops s1 !! p = Some (set_op_canceled true o) ∧
  hd_calls s1 = hd_calls s ++ map BufferCancel (in_flight o) ∧
  ∃ s2, gb_operation_cancel p s1 = Ok tt s2 ∧
        ops s2 = ops s1 ∧ conn s2 = conn s1 ∧ mem s2 = mem s1 ∧
        events s2 = events s1 ∧ recv_workqueue s2 = recv_workqueue s1 ∧
        hd_calls s2 = hd_calls s1 ++ map BufferCancel (in_flight o) ∧
        (in_flight o = [] → s2 = s1).
Proof.
  intros Ho H. rewrite gb_operation_cancel_unfold in *.
  rewrite (bind_Ok _ _ _ _ _ (update_Ok _ _ _ _ Ho)) in H.
  set (o1 := set_op_canceled true o) in *.
  set (s0 := set_ops (insert p o1) s) in *.
  assert (Ho0 : ops s0 !! p = Some o1) by apply lookup_insert_eq.
  destruct (cancel_messages_run s0 p o1 s1 Ho0 H) as [-> Hall].
  change (in_flight o1) with (in_flight o) in *.
  split; [exact Ho0|]. split; [reflexivity|].
  set (s1 := set_hd_calls (λ l, l ++ map BufferCancel (in_flight o)) s0).
  assert (Ho1 : ops s1 !! p = Some o1) by exact Ho0.
  rewrite (bind_Ok _ _ _ _ _ (update_Ok _ _ _ _ Ho1)).
  assert (Hsame : set_ops (insert p (set_op_canceled true o1)) s1 = s1).
  { destruct s. unfold s1, s0, set_ops, set_hd_calls. simpl. f_equal.
    apply insert_insert_eq. }
  rewrite Hsame. rewrite (Hall s1 eq_refl).
  eexists. split; [reflexivity|]. simpl. repeat split.
  intros ->. destruct s. unfold s1, s0, set_ops, set_hd_calls. simpl.
  by rewrite !app_nil_r.
Qed.

(** The amended statement on the request in flight. *)
Lemma gb_operation_cancel_again_witness :
  ∃ s1 s2, gb_operation_cancel 16 submitted_async = Ok tt s1 ∧
           gb_operation_cancel 16 s1 = Ok tt s2 ∧
           ops s2 = ops s1 ∧
           hd_calls s2 = hd_calls s1 ++ [BufferCancel 19].
Proof.
  pose (o := mk_operation (mk_message 16 17 25 10 19) (mk_message 16 18 26 12 0)
               1 false 0 5 false true 1).
  pose (s1 := final (gb_operation_cancel 16 submitted_async)).
  destruct (gb_operation_cancel_again submitted_async 16 o s1)
    as (_ & _ & s2 & Hrun & Hops & _ & _ & _ & _ & Hcalls & _).
  - vm_compute. reflexivity.
  - vm_compute. reflexivity.
  - exists s1, s2. split; [vm_compute; reflexivity|].
    split; [exact Hrun|]. split; [exact Hops|exact Hcalls].
Defined.

(** ** Receiving a response: [gb_connection_recv_response] *)

Lemma list_del_not_elem p l : p ∉ list_del p l.
Proof. unfold list_del. rewrite list_elem_of_filter. intros [H _]. by apply H. Qed.

Lemma splice_single (i : nat) (x : Z) (l : list Z) :
  (i < length l)%nat → splice i [x] l = <[i := x]> l.
Proof.
  intros H. unfold splice. simpl. rewrite Nat.add_1_r.
  symmetry. by apply insert_take_drop.
Qed.

Lemma splice_front (src l : list Z) : splice 0 src l = src ++ drop (length src) l.
Proof. reflexivity. Qed.

Lemma recv_response_found s id p o data size :
  gb_pending_operation_find id s = Ok p s →
  p ≠ NULL →
  ops s !! p = Some o →
  gb_connection_recv_response id data size s
  = (let message := op_response o in
     if bool_decide (size > msg_buffer_size message) then
       (update p (set_op_result GB_OP_OVERFLOW) ;;;
        emit EvErr)
     else
       (let* status :=
          load_byte (msg_buffer message) (msg_payload message - msg_buffer message) in
        store_bytes (msg_buffer message) hdr_result_off [u8 status] ;;;
        let* result := load_byte (msg_buffer message) hdr_result_off in
        update p (set_op_result result) ;;;
        (if bool_decide (result = GB_OP_SUCCESS)
         then memcpy (msg_buffer message) data size
         else ret tt) ;;;
        queue_work p)) (unpended p o s).
Proof.
  intros Hfind Hp Ho. unfold gb_connection_recv_response.
  rewrite (bind_Ok _ _ _ _ _ Hfind).
  rewrite bool_decide_eq_false_2 by done.
  unfold cancel_delayed_work.
  rewrite (bind_Ok _ _ _ _ _ (update_Ok _ _ _ _ Ho)).
  unfold gb_pending_operation_remove.
  erewrite bind_Ok; [|erewrite bind_Ok; [reflexivity|apply deref_Ok, lookup_insert_eq]].
  erewrite bind_Ok; [|apply deref_Ok, lookup_insert_eq].
  reflexivity.
Qed.

(** C4.  A response larger than the response buffer: the operation gets
    the result [GB_OP_OVERFLOW] and leaves the pending list with its
    timer cancelled, no byte is copied, and the function returns without
    queueing the work item, so [gb_operation_complete] does not run. *)
Theorem gb_connection_recv_response_overflow s id p o data size :
  gb_pending_operation_find id s = Ok p s →
  p ≠ NULL →
  ops s !! p = Some o →
  size > msg_buffer_size (op_response o) →
  ∃ s', gb_connection_recv_response id data size s = Ok tt s' ∧
        ops s' !! p
        = Some (set_op_result GB_OP_OVERFLOW (set_op_timeout_work false o)) ∧
        (p ∉ c_pending (conn s')) ∧
        mem s' = mem s ∧
        recv_workqueue s' = recv_workqueue s ∧
        events s' = events s ++ [EvErr] ∧
        completions p s' = completions p s.
Proof.
  intros Hfind Hp Ho Hsize.
  rewrite (recv_response_found _ _ _ _ _ _ Hfind Hp Ho). cbv zeta.
  rewrite bool_decide_eq_true_2 by done.
  erewrite bind_Ok; [|apply update_Ok, lookup_insert_eq].
  eexists. split; [reflexivity|]. simpl.
  split; [apply lookup_insert_eq|]. split; [apply list_del_not_elem|].
  repeat split.
  unfold completions. simpl. rewrite filter_app. simpl.
  rewrite filter_cons_False by done. rewrite filter_nil. by rewrite app_nil_r.
Qed.

(** The overflow scenario: afterwards neither the worker nor the timer
    has anything left that would complete the operation. *)
Lemma gb_connection_recv_response_overflow_witness :
  ∃ s', gb_connection_recv big_response submitted_sync = Ok tt s' ∧
        (op_result <$> ops s' !! 16) = Some GB_OP_OVERFLOW ∧
        completions 16 s' = 0%nat ∧
        worker_step s' = Ok tt s' ∧
        timer_fire 16 s' = Ok tt s'.
Proof.
  assert (Hrecv : gb_connection_recv big_response submitted_sync
                  = gb_connection_recv_response 1 big_response 16 submitted_sync)
    by (vm_compute; reflexivity).
  assert (Hq : recv_workqueue submitted_sync = []) by (vm_compute; reflexivity).
  assert (Hc0 : completions 16 submitted_sync = 0%nat) by (vm_compute; reflexivity).
  destruct (gb_connection_recv_response_overflow submitted_sync 1 16
              (mk_operation (mk_message 16 17 25 10 19) (mk_message 16 18 26 12 0)
                 1 false 0 0 false true 1) big_response 16)
    as (s' & Hrun & Hops & _ & _ & Hwq & _ & Hc).
  - vm_compute. reflexivity.
  - discriminate.
  - vm_compute. reflexivity.
  - simpl. lia.
  - exists s'. rewrite Hrecv, Hc, Hc0, Hops. rewrite Hq in Hwq.
    split; [exact Hrun|]. split; [reflexivity|]. split; [reflexivity|].
    split.
    + unfold worker_step, gets, bind. rewrite Hwq. reflexivity.
    + unfold timer_fire. erewrite bind_Ok; [|apply deref_Ok, Hops]. reflexivity.
Defined.

Section response_fits.

Variables (s : gb_state) (id p : Z) (o : gb_operation).
Variables (data : list Z) (size : Z) (bytes : list Z) (status : Z).

Hypothesis Hfind : gb_pending_operation_find id s = Ok p s.
Hypothesis Hp : p ≠ NULL.
Hypothesis Ho : ops s !! p = Some o.
Hypothesis Hpay : msg_payload (op_response o) - msg_buffer (op_response o) = sizeof_hdr.
Hypothesis Hm : mem s !! msg_buffer (op_response o) = Some bytes.
Hypothesis Hlen : Z.of_nat (length bytes) = msg_buffer_size (op_response o).
Hypothesis Hst : bytes !! 8%nat = Some status.
Hypothesis Hsize : 0 ≤ size ≤ msg_buffer_size (op_response o).
Hypothesis Hdata : size ≤ Z.of_nat (length data).

(** The run of the response path on a frame that fits.  The result it
    records is the first payload byte found in the response buffer before
    anything was copied into it. *)
Lemma gb_connection_recv_response_Ok :
  gb_connection_recv_response id data size s
  = Ok tt (responded p o data size bytes (u8 status) s).
Proof.
  assert (H8 : (8 < length bytes)%nat) by (by eapply lookup_lt_Some).
  rewrite (recv_response_found _ _ _ _ _ _ Hfind Hp Ho). cbv zeta.
  rewrite bool_decide_eq_false_2 by lia. rewrite Hpay.
  erewrite bind_Ok; [|by eapply load_byte_Ok; [exact Hm| |exact Hst]].
  erewrite bind_Ok;
    [|eapply store_bytes_Ok; [exact Hm|done|unfold hdr_result_off; simpl; lia]].
  change (Z.to_nat hdr_result_off) with 5%nat.
  rewrite splice_single by lia.
  erewrite bind_Ok;
    [|eapply load_byte_Ok;
      [apply lookup_insert_eq|done|
       change (Z.to_nat hdr_result_off) with 5%nat;
       apply list_lookup_insert_eq; lia]].
  erewrite bind_Ok; [|apply update_Ok, lookup_insert_eq].
  unfold responded, response_bytes. cbv zeta.
  destruct (bool_decide (u8 status = GB_OP_SUCCESS)) eqn:Hr; [|reflexivity].
  unfold memcpy. rewrite bool_decide_eq_true_2 by lia.
  erewrite bind_Ok;
    [|eapply store_bytes_Ok;
      [apply lookup_insert_eq|done|
       rewrite length_take, length_insert; lia]].
  change (Z.to_nat 0) with 0%nat. rewrite splice_front.
  rewrite length_take_le by lia. reflexivity.
Qed.

(** C3, amended.  For a matched response frame that fits the response
    buffer, the dispatcher cancels the timer, moves the operation from
    the pending list to the operations list and queues it for the worker
    without completing it; the incoming bytes are copied into the response
    buffer only when the result recorded for the operation is
    [GB_OP_SUCCESS], and for any other result the buffer keeps its bytes
    apart from the result byte of its header. *)
Theorem gb_connection_recv_response_fits :
  ∃ s' o', gb_connection_recv_response id data size s = Ok tt s' ∧
           ops s' !! p = Some o' ∧
           op_timeout_work o' = false ∧
           (p ∉ c_pending (conn s')) ∧
           p ∈ c_operations (conn s') ∧
           p ∈ recv_workqueue s' ∧
           events s' = events s ∧
           mem s' !! msg_buffer (op_response o)
           = Some (response_bytes (op_result o') data size bytes).
Proof.
  exists (responded p o data size bytes (u8 status) s),
         (set_op_result (u8 status) (set_op_timeout_work false o)).
  split; [apply gb_connection_recv_response_Ok|].
  unfold responded. cbv zeta.
  destruct (bool_decide (u8 status = GB_OP_SUCCESS)) eqn:Hr; simpl.
  all: split; [apply lookup_insert_eq|]; split; [reflexivity|].
  all: split; [apply list_del_not_elem|].
  all: split; [apply elem_of_app; right; apply list_elem_of_here|].
  all: split;
    [destruct (bool_decide (p ∈ recv_workqueue s)) eqn:Hq;
     [by apply bool_decide_eq_true_1 in Hq
     |apply elem_of_app; right; apply list_elem_of_here]|].
  all: split; [reflexivity|].
  - apply lookup_insert_eq.
  - rewrite lookup_insert_eq. unfold response_bytes. by rewrite Hr.
Qed.

End response_fits.

(** C3, as stated, fails: the response matches the pending operation and
    fits its buffer, the operation is queued for the worker with result 7,
    but the incoming bytes are not copied: the response buffer keeps the
    header written at allocation and its old payload. *)
Lemma gb_connection_recv_response_error_not_copied :
  ∃ s', gb_connection_recv error_response submitted_stale = Ok tt s' ∧
        gb_pending_operation_find 1 submitted_stale = Ok 16 submitted_stale ∧
        (msg_buffer_size ∘ op_response <$> ops submitted_stale !! 16)
        = Some (Z.of_nat (length error_response)) ∧
        recv_workqueue s' = [16] ∧
        (op_result <$> ops s' !! 16) = Some 7 ∧
        mem s' !! 18 = Some [12; 0; 0; 0; 0x81; 7; 0; 0; 7; 0; 0; 0] ∧
        mem s' !! 18 ≠ Some error_response.
Proof.
  eexists. split; [vm_compute; reflexivity|].
  split; [vm_compute; reflexivity|].
  split; [vm_compute; reflexivity|].
  split; [vm_compute; reflexivity|].
  split; [vm_compute; reflexivity|].
  split; [vm_compute; reflexivity|].
  vm_compute. discriminate.
Qed.

(** The amended statement on a successful response. *)
Lemma gb_connection_recv_response_fits_witness :
  ∃ s', gb_connection_recv_response 1 good_response 12 submitted_sync = Ok tt s' ∧
        16 ∈ recv_workqueue s' ∧
        (16 ∉ c_pending (conn s')) ∧
        events s' = [].
Proof.
  assert (He : events submitted_sync = []) by (vm_compute; reflexivity).
  destruct (gb_connection_recv_response_fits submitted_sync 1 16
              (mk_operation (mk_message 16 17 25 10 19) (mk_message 16 18 26 12 0)
                 1 false 0 0 false true 1)
              good_response 12 [12; 0; 0; 0; 0x81; 0; 0; 0; 0; 0; 0; 0] 0)
    as (s' & o' & Hrun & _ & _ & Hpend & _ & Hwq & Hev & _).
  - vm_compute. reflexivity.
  - discriminate.
  - vm_compute. reflexivity.
  - reflexivity.
  - vm_compute. reflexivity.
  - reflexivity.
  - reflexivity.
  - simpl. lia.
  - simpl. lia.
  - exists s'. rewrite He in Hev.
    split; [exact Hrun|]. split; [exact Hwq|]. split; [exact Hpend|exact Hev].
Defined.

(** ** The timeout: [operation_timeout] *)

Lemma completions_snoc p e s s' :
  events s' = events s ++ [e] →
  is_completion p e = true →
  completions p s' = S (completions p s).
Proof.
  intros He Hp. unfold completions. rewrite He, filter_app, length_app.
  rewrite filter_cons_True by done. simpl. lia.
Qed.

(** C2.  [operation_timeout] records [GB_OP_TIMEOUT] and runs
    [gb_operation_complete] once, but it does not touch the lists of the
    connection: an operation that was pending when its timer fired is
    still in the pending list after the completion returned. *)
Theorem operation_timeout_leaves_pending s p o :
  ops s !! p = Some o →
  p ∈ c_pending (conn s) →
  ∃ s', operation_timeout p s = Ok tt s' ∧
        (op_result <$> ops s' !! p) = Some GB_OP_TIMEOUT ∧
        completions p s' = S (completions p s) ∧
        conn s' = conn s ∧
        p ∈ c_pending (conn s').
Proof.
  intros Ho Hpend. unfold operation_timeout.
  rewrite (bind_Ok _ _ _ _ _ (update_Ok _ _ _ _ Ho)).
  unfold gb_operation_complete.
  erewrite bind_Ok; [|apply deref_Ok, lookup_insert_eq].
  change (op_callback (set_op_result GB_OP_TIMEOUT o)) with (op_callback o).
  case_bool_decide.
  - eexists. split; [reflexivity|].
    split; [simpl; by rewrite lookup_insert_eq|].
    split; [|by split].
    eapply completions_snoc; [reflexivity|]. simpl. by apply bool_decide_eq_true_2.
  - unfold emit, modify. unfold bind at 1.
    erewrite update_Ok; [|apply lookup_insert_eq].
    eexists. split; [reflexivity|].
    split; [simpl; by rewrite lookup_insert_eq|].
    split; [|by split].
    eapply completions_snoc; [reflexivity|]. simpl. by apply bool_decide_eq_true_2.
Qed.

(** The timer of the synchronous request fires. *)
Lemma operation_timeout_leaves_pending_witness :
  ∃ s', operation_timeout 16 submitted_sync = Ok tt s' ∧
        completions 16 s' = 1%nat ∧
        c_pending (conn s') = [16].
Proof.
  assert (Hc0 : completions 16 submitted_sync = 0%nat) by (vm_compute; reflexivity).
  assert (Hp0 : c_pending (conn submitted_sync) = [16]) by (vm_compute; reflexivity).
  destruct (operation_timeout_leaves_pending submitted_sync 16
              (mk_operation (mk_message 16 17 25 10 19) (mk_message 16 18 26 12 0)
                 1 false 0 0 false true 1))
    as (s' & Hrun & _ & Hc & Hconn & _).
  - vm_compute. reflexivity.
  - rewrite Hp0. apply list_elem_of_here.
  - exists s'. rewrite Hc, Hc0, Hconn, Hp0.
    split; [exact Hrun|]. split; reflexivity.
Defined.

(** C1.  The timeout scenario: the timer completes the waiting operation
    with [GB_OP_TIMEOUT]; the operation is still pending, so a response
    with its id that arrives later is matched, queued, and the worker
    runs [gb_operation_complete] for the same operation a second time. *)
Theorem late_response_completes_again :
  ∃ s1 s2 s3,
    timer_fire 16 submitted_sync = Ok tt s1 ∧
    (op_result <$> ops s1 !! 16) = Some GB_OP_TIMEOUT ∧
    completions 16 s1 = 1%nat ∧
    gb_connection_recv good_response s1 = Ok tt s2 ∧
    recv_workqueue s2 = [16] ∧
    worker_step s2 = Ok tt s3 ∧
    completions 16 s3 = 2%nat ∧
    events s3 = [EvCompleteAll 16; EvCompleteAll 16].
Proof.
  eexists _, _, _. split; [vm_compute; reflexivity|].
  split; [vm_compute; reflexivity|]. split; [vm_compute; reflexivity|].
  split; [vm_compute; reflexivity|]. split; [vm_compute; reflexivity|].
  split; [vm_compute; reflexivity|]. split; vm_compute; reflexivity.
Qed.

(** ** Allocating a message: [gb_operation_message_init] *)

Lemma length_stale_bytes junk size :
  0 ≤ size → Z.of_nat (length (stale_bytes junk size)) = size.
Proof.
  intros H. unfold stale_bytes.
  rewrite length_take, length_app, length_replicate. lia.
Qed.

Lemma length_splice (off : nat) (src bytes : list Z) :
  (off + length src ≤ length bytes)%nat →
  length (splice off src bytes) = length bytes.
Proof.
  intros H. unfold splice.
  rewrite !length_app, length_take, length_drop. lia.
Qed.

(** The size test of [gb_operation_message_init] compares the payload
    size alone with the maximum. *)
Lemma gb_operation_message_init_E2BIG s p type size request gfp :
  size > GB_OPERATION_MESSAGE_SIZE_MAX →
  gb_operation_message_init p type size request gfp s = Ok (- E2BIG) s.
Proof.
  intros H. unfold gb_operation_message_init.
  by rewrite bool_decide_eq_true_2.
Qed.

Lemma buffer_alloc_Ok s size gfp junk rest :
  alloc_plan s = Some junk :: rest →
  buffer_alloc size gfp s
  = Ok (next_addr s)
      (set_hd_calls (λ l, l ++ [BufferAlloc size gfp (next_addr s)])
         (set_next_addr (λ a, a + 1)
            (set_mem (insert (next_addr s) (stale_bytes junk size))
               (set_alloc_plan (drop 1) s)))).
Proof. intros H. unfold buffer_alloc. by rewrite H. Qed.

(** C7.  A payload of more than [4096 - 8] but at most 4096 bytes passes
    the size test: the header is added after the test, the driver is
    asked for [size + 8] bytes, and the message ends up with a frame
    larger than [GB_OPERATION_MESSAGE_SIZE_MAX]. *)
Theorem gb_operation_message_init_exceeds_max
    s p o type size request gfp junk rest :
  ops s !! p = Some o →
  alloc_plan s = Some junk :: rest →
  next_addr s ≠ NULL →
  GB_OPERATION_MESSAGE_SIZE_MAX - sizeof_hdr < size ≤ GB_OPERATION_MESSAGE_SIZE_MAX →
  ∃ s' o', gb_operation_message_init p type size request gfp s = Ok 0 s' ∧
           ops s' !! p = Some o' ∧
           msg_buffer_size (get_msg (if request then Request else Response) o')
           = size + sizeof_hdr ∧
           msg_buffer_size (get_msg (if request then Request else Response) o')
           > GB_OPERATION_MESSAGE_SIZE_MAX ∧
           hd_calls s'
           = hd_calls s ++ [BufferAlloc (size + sizeof_hdr) gfp (next_addr s)].
Proof.
  intros Ho Hplan Hna Hsize.
  unfold GB_OPERATION_MESSAGE_SIZE_MAX, sizeof_hdr in *.
  unfold gb_operation_message_init.
  rewrite bool_decide_eq_false_2
    by (unfold GB_OPERATION_MESSAGE_SIZE_MAX; lia).
  cbv zeta. unfold sizeof_hdr.
  rewrite (bind_Ok _ _ _ _ _ (deref_Ok _ _ _ Ho)).
  rewrite (bind_Ok _ _ _ _ _ (buffer_alloc_Ok _ _ _ _ _ Hplan)).
  erewrite bind_Ok; [|apply update_Ok; exact Ho].
  rewrite bool_decide_eq_false_2 by done.
  assert (Hlen : Z.of_nat (length (stale_bytes junk (size + 8))) = size + 8)
    by (apply length_stale_bytes; lia).
  set (b0 := stale_bytes junk (size + 8)) in *.
  set (b1 := splice (Z.to_nat hdr_size_off) (cpu_to_le16 (size + 8)) b0).
  set (b2 := splice (Z.to_nat hdr_operation_id_off) [0; 0] b1).
  assert (Hlen1 : length b1 = length b0)
    by (apply length_splice; unfold hdr_size_off, cpu_to_le16;
        cbn [length Z.to_nat]; lia).
  assert (Hlen2 : length b2 = length b1)
    by (apply length_splice; unfold hdr_operation_id_off; cbn [length]; lia).
  erewrite bind_Ok;
    [|eapply (store_bytes_Ok _ _ _ _ b0);
      [apply lookup_insert_eq|done|
       unfold hdr_size_off, cpu_to_le16; cbn [length]; lia]].
  erewrite bind_Ok;
    [|eapply (store_bytes_Ok _ _ _ _ b1);
      [apply lookup_insert_eq|done|
       rewrite Hlen1; unfold hdr_operation_id_off; cbn [length]; lia]].
  erewrite bind_Ok;
    [|eapply (store_bytes_Ok _ _ _ _ b2);
      [apply lookup_insert_eq|done|
       rewrite Hlen2, Hlen1; unfold hdr_type_off; cbn [length]; lia]].
  erewrite bind_Ok; [|apply update_Ok, lookup_insert_eq].
  eexists _, _. split; [reflexivity|]. simpl.
  split; [apply lookup_insert_eq|].
  destruct request; simpl; repeat split; lia.
Qed.

(** The largest payload that passes the test gives a frame of 4104 bytes. *)
Lemma gb_operation_message_init_exceeds_max_witness :
  ∃ s' o', gb_operation_message_init 16 1 4096 true GFP_KERNEL fresh_operation
           = Ok 0 s' ∧
           ops s' !! 16 = Some o' ∧
           msg_buffer_size (op_request o') = 4104 ∧
           hd_calls s' = [BufferAlloc 4104 GFP_KERNEL 17].
Proof.
  destruct (gb_operation_message_init_exceeds_max fresh_operation 16 zero_operation
              1 4096 true GFP_KERNEL [] [])
    as (s' & o' & Hrun & Hops & Hsz & _ & Hcalls).
  - vm_compute. reflexivity.
  - reflexivity.
  - discriminate.
  - unfold GB_OPERATION_MESSAGE_SIZE_MAX, sizeof_hdr. lia.
  - exists s', o'. split; [exact Hrun|]. split; [exact Hops|].
    split; [exact Hsz|exact Hcalls].
Defined.

(** ** Releasing buffers: [_gb_operation_destroy] *)

(** [gb_operation_message_exit] on a message whose back pointer is null:
    the host device is reached through [message->operation], so the
    function faults before it calls [buffer_free]. *)
Lemma gb_operation_message_exit_null s p w o :
  ops s !! p = Some o →
  msg_operation (get_msg w o) = NULL →
  ops s !! NULL = None →
  gb_operation_message_exit p w s = Oops s.
Proof.
  intros Ho Hback Hnull. unfold gb_operation_message_exit.
  rewrite (bind_Ok _ _ _ _ _ (deref_Ok _ _ _ Ho)).
  unfold message_hd. rewrite Hback.
  erewrite bind_Oops; [reflexivity|].
  erewrite bind_Oops; [reflexivity|]. by apply deref_Oops.
Qed.

(** C8.  The last reference to an operation without a response message
    is dropped: [_gb_operation_destroy] runs
    [gb_operation_message_exit] on the response first, which faults on the
    null back pointer; [buffer_free] is never called, and the request
    buffer that [buffer_alloc] returned stays allocated. *)
Theorem gb_operation_put_without_response s p o :
  p ≠ NULL →
  ops s !! p = Some o →
  op_kref o = 1 →
  msg_operation (op_response o) = NULL →
  ops s !! NULL = None →
  ∃ s', gb_operation_put p s = Oops s' ∧
        hd_calls s' = hd_calls s ∧
        mem s' = mem s ∧
        frees (msg_buffer (op_request o)) s' = frees (msg_buffer (op_request o)) s.
Proof.
  intros Hp Ho Hk Hback Hnull. unfold gb_operation_put.
  rewrite bool_decide_eq_false_2 by done.
  rewrite (bind_Ok _ _ _ _ _ (deref_Ok _ _ _ Ho)).
  rewrite (bind_Ok _ _ _ _ _ (update_Ok _ _ _ _ Ho)).
  rewrite Hk. rewrite bool_decide_eq_true_2 by done.
  unfold _gb_operation_destroy.
  erewrite bind_Ok; [|apply deref_Ok, lookup_insert_eq].
  unfold modify at 1. unfold bind at 1.
  erewrite bind_Oops;
    [|apply (gb_operation_message_exit_null _ p Response (set_op_kref (1 - 1) o));
      [apply lookup_insert_eq|exact Hback|
       simpl; rewrite lookup_insert_ne by done; exact Hnull]].
  eexists. split; [reflexivity|]. by repeat split.
Qed.

(** Releasing it: one buffer was allocated, none is freed. *)
Lemma gb_operation_put_without_response_witness :
  ∃ s', gb_operation_put 16 incoming_handled = Oops s' ∧
        allocated s' = [17] ∧
        frees 17 s' = 0%nat ∧
        is_Some (mem s' !! 17).
Proof.
  assert (Ha : allocated incoming_handled = [17]) by (vm_compute; reflexivity).
  assert (Hf : frees 17 incoming_handled = 0%nat) by (vm_compute; reflexivity).
  assert (Hm : is_Some (mem incoming_handled !! 17)) by (vm_compute; eauto).
  destruct (gb_operation_put_without_response incoming_handled 16
              (mk_operation (mk_message 16 17 25 18 0) zero_message
                 0x4242 false GB_OP_PROTOCOL_BAD 0 true false 1))
    as (s' & Hrun & Hcalls & Hmem & Hfrees).
  - discriminate.
  - vm_compute. reflexivity.
  - reflexivity.
  - reflexivity.
  - vm_compute. reflexivity.
  - exists s'. split; [exact Hrun|]. unfold allocated in *.
    rewrite Hcalls, Hmem. split; [exact Ha|]. split; [|exact Hm].
    change (msg_buffer (op_request _)) with 17 in Hfrees.
    rewrite Hfrees. exact Hf.
Defined.

(** An outgoing operation has both messages; releasing the last reference
    frees the response buffer and the request buffer, each once. *)
Lemma gb_operation_put_outgoing s p o :
  p ≠ NULL →
  ops s !! p = Some o →
  op_kref o = 1 →
  msg_operation (op_request o) = p →
  msg_operation (op_response o) = p →
  ∃ s', gb_operation_put p s = Ok tt s' ∧
        ops s' !! p = None ∧
        hd_calls s' = hd_calls s ++ [BufferFree (msg_buffer (op_response o));
                                     BufferFree (msg_buffer (op_request o))].
Proof.
  intros Hp Ho Hk Hrq Hrs. destruct s. simpl in *.
  unfold gb_operation_put, _gb_operation_destroy, gb_operation_message_exit, kmem_cache_free.
  rewrite bool_decide_eq_false_2 by done. mrun.
  rewrite bool_decide_eq_true_2 by done.
  unfold get_msg, set_msg. cbn [op_request op_response set_op_kref msg_operation].
  repeat (mrun; rewrite ?lookup_insert_eq, ?Hrq, ?Hrs;
          cbn [op_request op_response set_op_kref msg_operation]).
  eexists. split; [reflexivity|]. simpl.
  split; [apply lookup_delete_eq|]. by rewrite <- app_assoc.
Qed.

(** The failure paths of [gb_operation_create_common] free what they
    allocated: when the response buffer cannot be allocated, the request
    buffer is handed back once. *)
Example gb_operation_create_response_enomem :
  ∃ s', gb_operation_create 1 2 4 (boot 0 [] [Some []; None] []) = Ok NULL s' ∧
        hd_calls s' = [BufferAlloc 10 GFP_KERNEL 17; BufferAlloc 12 GFP_KERNEL NULL;
                       BufferFree 17] ∧
        ops s' = ∅ ∧ mem s' = ∅.
Proof.
  eexists. split; [vm_compute; reflexivity|].
  split; [vm_compute; reflexivity|]. split; vm_compute; reflexivity.
Qed.

(** The complete life of an outgoing operation: both buffers are freed
    exactly once. *)
Example outgoing_lifecycle_frees_once :
  ∃ s1 s2 s3,
    gb_connection_recv good_response submitted_sync = Ok tt s1 ∧
    worker_step s1 = Ok tt s2 ∧
    gb_operation_put 16 s2 = Ok tt s3 ∧
    allocated s3 = [17; 18] ∧ frees 17 s3 = 1%nat ∧ frees 18 s3 = 1%nat ∧
    completions 16 s3 = 1%nat.
Proof.
  eexists _, _, _. split; [vm_compute; reflexivity|].
  split; [vm_compute; reflexivity|]. split; [vm_compute; reflexivity|].
  split; [vm_compute; reflexivity|]. split; [vm_compute; reflexivity|].
  split; vm_compute; reflexivity.
Qed.

(** * Further properties of the operation core *)

(** ** The pending table *)

Lemma pending_scan_none s l id :
  none_has_id s l id → pending_scan l id s = Ok NULL s.
Proof.
  induction l as [|q l IH]; intros H; [reflexivity|]. simpl.
  destruct (H q) as (o & Ho & Hid); [apply list_elem_of_here|].
  rewrite (bind_Ok _ _ _ _ _ (deref_Ok _ _ _ Ho)).
  rewrite bool_decide_eq_false_2 by done.
  apply IH. intros r Hr. apply H. by apply list_elem_of_further.
Qed.

Lemma pending_scan_found s l1 p l2 o id :
  none_has_id s l1 id →
  ops s !! p = Some o →
  op_id o = id →
  pending_scan (l1 ++ p :: l2) id s = Ok p s.
Proof.
  induction l1 as [|q l1 IH]; intros H Ho Hid; simpl.
  - rewrite (bind_Ok _ _ _ _ _ (deref_Ok _ _ _ Ho)).
    by rewrite bool_decide_eq_true_2.
  - destruct (H q) as (oq & Hoq & Hne); [apply list_elem_of_here|].
    rewrite (bind_Ok _ _ _ _ _ (deref_Ok _ _ _ Hoq)).
    rewrite bool_decide_eq_false_2 by done.
    apply IH; [|done..]. intros r Hr. apply H. by apply list_elem_of_further.
Qed.


(** X1.  What [gb_pending_operation_find] returns: the state is left as
    it was, and the result is either null, when every pending operation
    has another id, or the first operation of the pending list whose id
    is the one asked for. *)
Theorem gb_pending_operation_find_inv s id p s' :
  gb_pending_operation_find id s = Ok p s' →
  s' = s ∧
  ((p = NULL ∧ none_has_id s (c_pending (conn s)) id) ∨
   (∃ l1 l2 o, c_pending (conn s) = l1 ++ p :: l2 ∧ none_has_id s l1 id ∧
               ops s !! p = Some o ∧ op_id o = id)).
Proof.
  unfold gb_pending_operation_find, gets, bind.
  generalize (c_pending (conn s)). intros l.
  revert p s'. induction l as [|q l IH]; intros p s'; simpl.
  - intros [= <- <-]. split; [done|]. left. split; [done|].
    intros r Hr. by apply elem_of_nil in Hr.
  - unfold bind at 1, deref. destruct (ops s !! q) as [oq|] eqn:Hoq; [|done].
    case_bool_decide as Hid.
    + intros [= <- <-]. split; [done|]. right.
      exists [], l, oq. repeat split; try done.
      intros r Hr. by apply elem_of_nil in Hr.
    + intros Hrun. destruct (IH _ _ Hrun) as [-> Hcase]. split; [done|].
      destruct Hcase as [[-> Hnone]|(l1 & l2 & o & -> & Hnone & Ho & Hoid)].
      * left. split; [done|]. intros r Hr.
        apply elem_of_cons in Hr as [->|Hr]; [eauto|by apply Hnone].
      * right. exists (q :: l1), l2, o. repeat split; try done.
        intros r Hr. apply elem_of_cons in Hr as [->|Hr]; [eauto|by apply Hnone].
Qed.

(** Looking up id 2 among the two requests in flight. *)
Lemma gb_pending_operation_find_inv_witness :
  ∃ l1 l2 o, c_pending (conn two_submitted) = l1 ++ 19 :: l2 ∧
             ops two_submitted !! 19 = Some o ∧ op_id o = 2.
Proof.
  destruct (gb_pending_operation_find_inv two_submitted 2 19 two_submitted)
    as [_ [[Hnull _]|(l1 & l2 & o & Hl & _ & Ho & Hid)]].
  - vm_compute. reflexivity.
  - discriminate Hnull.
  - exists l1, l2, o. split; [exact Hl|]. split; [exact Ho|exact Hid].
Defined.

(** X2.  A response whose id no pending operation has is dropped: the
    only effect of [gb_connection_recv_response] is one line in the error
    log.  Operations, lists, buffers, timers, the work queue and the
    driver are left alone. *)
Theorem gb_connection_recv_response_unknown_id s id data size :
  none_has_id s (c_pending (conn s)) id →
  gb_connection_recv_response id data size s
  = Ok tt (set_events (λ l, l ++ [EvErr]) s).
Proof.
  intros H. unfold gb_connection_recv_response.
  erewrite bind_Ok;
    [|unfold gb_pending_operation_find, gets, bind; by apply pending_scan_none].
  by rewrite bool_decide_eq_true_2.
Qed.

(** A response for id 9 while ids 1 and 2 are pending. *)
Lemma gb_connection_recv_response_unknown_id_witness :
  gb_connection_recv_response 9 [12; 0; 9; 0; 0x81; 0; 0; 0; 1; 2; 3; 4] 12
    two_submitted
  = Ok tt (set_events (λ l, l ++ [EvErr]) two_submitted).
Proof.
  assert (Hp : c_pending (conn two_submitted) = [16; 19]) by (vm_compute; reflexivity).
  assert (H16 : op_id <$> ops two_submitted !! 16 = Some 1) by (vm_compute; reflexivity).
  assert (H19 : op_id <$> ops two_submitted !! 19 = Some 2) by (vm_compute; reflexivity).
  apply gb_connection_recv_response_unknown_id.
  rewrite Hp. intros q Hq.
  apply elem_of_cons in Hq as [->|Hq]; [|apply elem_of_cons in Hq as [->|Hq]].
  - destruct (ops two_submitted !! 16) as [o|]; [|discriminate H16].
    exists o. split; [reflexivity|]. injection H16 as ->. discriminate.
  - destruct (ops two_submitted !! 19) as [o|]; [|discriminate H19].
    exists o. split; [reflexivity|]. injection H19 as ->. discriminate.
  - apply elem_of_nil in Hq. destruct Hq.
Defined.

Lemma elem_of_list_del p q l : q ∈ list_del p l ↔ q ∈ l ∧ q ≠ p.
Proof. unfold list_del. rewrite list_elem_of_filter. tauto. Qed.

Lemma list_del_app p l k : list_del p (l ++ k) = list_del p l ++ list_del p k.
Proof. unfold list_del. apply filter_app. Qed.

Lemma list_del_idemp p l : list_del p (list_del p l) = list_del p l.
Proof.
  unfold list_del. induction l as [|q l IH]; [reflexivity|].
  rewrite (filter_cons _ q l). destruct (decide (q ≠ p)) as [Hq|Hq]; [|exact IH].
  rewrite filter_cons, decide_True by done. by rewrite IH.
Qed.

Lemma list_del_self p : list_del p [p] = [].
Proof. unfold list_del. by rewrite filter_cons_False by (intros H; by apply H). Qed.

Lemma none_has_id_insert s p o l id :
  p ∉ l → none_has_id s l id → none_has_id (set_ops (insert p o) s) l id.
Proof.
  intros Hp H q Hq. destruct (H q Hq) as (oq & Hoq & Hne).
  exists oq. split; [|done]. simpl. rewrite lookup_insert_ne; [done|].
  intros ->. by apply Hp.
Qed.

(** X3.  Insert, then look up: when no other pending operation holds the
    id that [gb_pending_operation_insert] assigns, a lookup of that id
    returns the operation just inserted. *)
Theorem gb_pending_operation_find_after_insert s p o bytes :
  ops s !! p = Some o →
  mem s !! msg_buffer (op_request o) = Some bytes →
  (4 ≤ length bytes)%nat →
  none_has_id s (list_del p (c_pending (conn s))) (u16 (c_op_cycle (conn s) + 1)) →
  ∃ s1, gb_pending_operation_insert p s = Ok tt s1 ∧
        gb_pending_operation_find (u16 (c_op_cycle (conn s) + 1)) s1 = Ok p s1.
Proof.
  intros Ho Hm Hlen Hnone. eexists. split.
  { by eapply gb_pending_operation_insert_Ok. }
  unfold gb_pending_operation_find, gets, bind.
  change (c_pending (conn (inserted p o bytes s)))
    with (list_del p (c_pending (conn s)) ++ [p]).
  eapply pending_scan_found; [|apply lookup_insert_eq|reflexivity].
  intros q Hq. destruct (Hnone q Hq) as (oq & Hoq & Hne).
  exists oq. split; [|done]. simpl. rewrite lookup_insert_ne; [done|].
  intros ->. by apply list_del_not_elem in Hq.
Qed.

(** The first submit on a fresh connection. *)
Lemma gb_pending_operation_find_after_insert_witness :
  ∃ s1, gb_pending_operation_insert 16
          (final (gb_operation_create 1 2 4 (boot 0 [] [] []))) = Ok tt s1 ∧
        gb_pending_operation_find 1 s1 = Ok 16 s1.
Proof.
  destruct (gb_pending_operation_find_after_insert
              (final (gb_operation_create 1 2 4 (boot 0 [] [] []))) 16
              (mk_operation (mk_message 16 17 25 10 0) (mk_message 16 18 26 12 0)
                 0 false 0 0 false false 1)
              [10; 0; 0; 0; 1; 0; 0; 0; 0; 0])
    as (s1 & Hrun & Hfind).
  - vm_compute. reflexivity.
  - vm_compute. reflexivity.
  - simpl. lia.
  - intros q Hq. vm_compute in Hq. apply elem_of_nil in Hq. destruct Hq.
  - exists s1. split; [exact Hrun|exact Hfind].
Defined.

Lemma pending_scan_hit s l1 l2 id q oq :
  (∀ r, r ∈ l1 → is_Some (ops s !! r)) →
  q ∈ l1 →
  ops s !! q = Some oq →
  op_id oq = id →
  ∃ r o, r ∈ l1 ∧ ops s !! r = Some o ∧ op_id o = id ∧
         pending_scan (l1 ++ l2) id s = Ok r s.
Proof.
  induction l1 as [|r l1 IH]; intros Hlive Hq Hoq Hid.
  { by apply elem_of_nil in Hq. }
  destruct (Hlive r) as [o Ho]; [apply list_elem_of_here|]. simpl.
  rewrite (bind_Ok _ _ _ _ _ (deref_Ok _ _ _ Ho)).
  case_bool_decide as Hr.
  - exists r, o. split; [apply list_elem_of_here|done].
  - apply elem_of_cons in Hq as [->|Hq]; [congruence|].
    destruct IH as (r' & o' & Hr' & Ho' & Hid' & Hrun); try done.
    { intros x Hx. apply Hlive. by apply list_elem_of_further. }
    exists r', o'. split; [by apply list_elem_of_further|done].
Qed.

(** X4.  [gb_pending_operation_insert] does not look at the ids that are
    in use: when the incremented counter equals the id of an operation
    that is still pending, the new operation gets the same id, both are
    in the pending list, and a lookup of that id returns an older
    operation, not the one just inserted. *)
Theorem gb_pending_operation_insert_id_in_use s p o bytes q oq :
  ops s !! p = Some o →
  mem s !! msg_buffer (op_request o) = Some bytes →
  (4 ≤ length bytes)%nat →
  pending_live s →
  q ∈ c_pending (conn s) →
  q ≠ p →
  ops s !! q = Some oq →
  op_id oq = u16 (c_op_cycle (conn s) + 1) →
  ∃ s1 r, gb_pending_operation_insert p s = Ok tt s1 ∧
          p ∈ c_pending (conn s1) ∧ q ∈ c_pending (conn s1) ∧
          (op_id <$> ops s1 !! p) = Some (op_id oq) ∧
          ops s1 !! q = Some oq ∧
          gb_pending_operation_find (op_id oq) s1 = Ok r s1 ∧
          r ≠ p.
Proof.
  intros Ho Hm Hlen Hlive Hq Hqp Hoq Hid.
  destruct (pending_scan_hit (inserted p o bytes s)
              (list_del p (c_pending (conn s))) [p] (op_id oq) q oq)
    as (r & o_r & Hr & _ & _ & Hrun).
  - intros x Hx. apply elem_of_list_del in Hx as [Hx Hne].
    simpl. rewrite lookup_insert_ne by done. by apply Hlive.
  - by apply elem_of_list_del.
  - simpl. by rewrite lookup_insert_ne.
  - reflexivity.
  - exists (inserted p o bytes s), r.
    split; [by eapply gb_pending_operation_insert_Ok|].
    split; [simpl; apply elem_of_app; right; apply list_elem_of_here|].
    split; [simpl; apply elem_of_app; left; by apply elem_of_list_del|].
    split; [simpl; rewrite lookup_insert_eq; simpl; by rewrite Hid|].
    split; [simpl; by rewrite lookup_insert_ne|].
    split; [exact Hrun|].
    apply elem_of_list_del in Hr. tauto.
Qed.

(** A third request is submitted after the counter went round: it shares
    id 1 with the first request, and id 1 still finds the first one. *)
Lemma gb_pending_operation_insert_id_in_use_witness :
  ∃ s1, gb_pending_operation_insert 22 two_submitted_wrapped = Ok tt s1 ∧
        (op_id <$> ops s1 !! 22) = Some 1 ∧
        (op_id <$> ops s1 !! 16) = Some 1 ∧
        ∃ r, gb_pending_operation_find 1 s1 = Ok r s1 ∧ r ≠ 22.
Proof.
  assert (Hp : c_pending (conn two_submitted_wrapped) = [16; 19])
    by (vm_compute; reflexivity).
  assert (H16 : is_Some (ops two_submitted_wrapped !! 16)) by (vm_compute; eauto).
  assert (H19 : is_Some (ops two_submitted_wrapped !! 19)) by (vm_compute; eauto).
  destruct (gb_pending_operation_insert_id_in_use two_submitted_wrapped 22
              (mk_operation (mk_message 22 23 31 8 0) (mk_message 22 24 32 12 0)
                 0 false 0 0 false false 1)
              [8; 0; 0; 0; 3; 0; 0; 0] 16
              (mk_operation (mk_message 16 17 25 10 100) (mk_message 16 18 26 12 0)
                 1 false 0 5 false true 1))
    as (s1 & r & Hrun & _ & _ & Hp22 & Hq16 & Hfind & Hr).
  - vm_compute. reflexivity.
  - vm_compute. reflexivity.
  - simpl. lia.
  - intros x Hx. unfold pending_live in *. rewrite Hp in Hx.
    apply elem_of_cons in Hx as [->|Hx]; [exact H16|].
    apply elem_of_cons in Hx as [->|Hx]; [exact H19|].
    apply elem_of_nil in Hx. destruct Hx.
  - rewrite Hp. apply list_elem_of_here.
  - discriminate.
  - vm_compute. reflexivity.
  - vm_compute. reflexivity.
  - exists s1. split; [exact Hrun|]. split; [exact Hp22|].
    split; [rewrite Hq16; reflexivity|]. exists r. split; [exact Hfind|exact Hr].
Defined.

Lemma gb_pending_operation_remove_Ok s p o :
  ops s !! p = Some o →
  gb_pending_operation_remove p s = Ok tt (set_conn (move_to_operations p) s).
Proof.
  intros Ho. unfold gb_pending_operation_remove.
  by rewrite (bind_Ok _ _ _ _ _ (deref_Ok _ _ _ Ho)).
Qed.

(** X5.  Insert, then remove: the operation is back at the tail of the
    operations list, the other entries of both lists keep their order,
    and the operation keeps the id it was given (removal does not reset
    the id or the counter). *)
Theorem gb_pending_operation_insert_remove s p o bytes :
  ops s !! p = Some o →
  mem s !! msg_buffer (op_request o) = Some bytes →
  (4 ≤ length bytes)%nat →
  ∃ s1 s2, gb_pending_operation_insert p s = Ok tt s1 ∧
           gb_pending_operation_remove p s1 = Ok tt s2 ∧
           c_pending (conn s2) = list_del p (c_pending (conn s)) ∧
           c_operations (conn s2) = list_del p (c_operations (conn s)) ++ [p] ∧
           ops s2 !! p = Some (set_op_id (u16 (c_op_cycle (conn s) + 1)) o) ∧
           c_op_cycle (conn s2) = u16 (c_op_cycle (conn s) + 1).
Proof.
  intros Ho Hm Hlen. eexists _, _.
  split; [by eapply gb_pending_operation_insert_Ok|].
  split; [eapply gb_pending_operation_remove_Ok; apply lookup_insert_eq|].
  simpl.
  split; [by rewrite list_del_app, list_del_idemp, list_del_self, app_nil_r|].
  split; [by rewrite list_del_idemp|].
  split; [apply lookup_insert_eq|reflexivity].
Qed.

(** Submitting and taking back the first request of a connection. *)
Lemma gb_pending_operation_insert_remove_witness :
  ∃ s1 s2, gb_pending_operation_insert 16
             (final (gb_operation_create 1 2 4 (boot 0 [] [] []))) = Ok tt s1 ∧
           gb_pending_operation_remove 16 s1 = Ok tt s2 ∧
           c_pending (conn s2) = [] ∧
           c_operations (conn s2) = [16].
Proof.
  destruct (gb_pending_operation_insert_remove
              (final (gb_operation_create 1 2 4 (boot 0 [] [] []))) 16
              (mk_operation (mk_message 16 17 25 10 0) (mk_message 16 18 26 12 0)
                 0 false 0 0 false false 1)
              [10; 0; 0; 0; 1; 0; 0; 0; 0; 0])
    as (s1 & s2 & Hrun1 & Hrun2 & Hpend & Hops & _).
  - vm_compute. reflexivity.
  - vm_compute. reflexivity.
  - simpl. lia.
  - exists s1, s2. split; [exact Hrun1|]. split; [exact Hrun2|].
    split; [rewrite Hpend|rewrite Hops]; vm_compute; reflexivity.
Defined.

Lemma NoDup_list_del p l : NoDup l → NoDup (list_del p l).
Proof. unfold list_del. apply NoDup_filter. Qed.

Lemma lists_ok_move p a b :
  NoDup (a ++ b) → NoDup (list_del p a ++ list_del p b ++ [p]).
Proof.
  rewrite !NoDup_app. intros (Ha & Hab & Hb).
  split; [by apply NoDup_list_del|]. split.
  - intros x Hx Hx'. apply elem_of_list_del in Hx as [Hx Hne].
    apply elem_of_app in Hx' as [Hx'|Hx'].
    + apply elem_of_list_del in Hx' as [Hx' _]. by apply (Hab x).
    + apply list_elem_of_singleton in Hx'. done.
  - split; [by apply NoDup_list_del|]. split; [|apply NoDup_singleton].
    intros x Hx Hx'. apply elem_of_list_del in Hx as [_ Hne].
    apply list_elem_of_singleton in Hx'. done.
Qed.

(** X6.  [gb_pending_operation_insert] keeps the lists of the connection
    well formed: if no operation was linked twice before, none is
    afterwards; the inserted operation is in the pending list and no
    longer in the operations list, and no other operation changed lists. *)
Theorem gb_pending_operation_insert_lists_ok s p o bytes :
  ops s !! p = Some o →
  mem s !! msg_buffer (op_request o) = Some bytes →
  (4 ≤ length bytes)%nat →
  lists_ok (conn s) →
  ∃ s', gb_pending_operation_insert p s = Ok tt s' ∧
        lists_ok (conn s') ∧
        p ∈ c_pending (conn s') ∧
        (p ∉ c_operations (conn s')) ∧
        ∀ q, q ≠ p →
             (q ∈ c_pending (conn s') ↔ q ∈ c_pending (conn s)) ∧
             (q ∈ c_operations (conn s') ↔ q ∈ c_operations (conn s)).
Proof.
  intros Ho Hm Hlen Hok. eexists.
  split; [by eapply gb_pending_operation_insert_Ok|]. simpl.
  split; [by apply lists_ok_move|].
  split; [apply elem_of_app; right; apply list_elem_of_here|].
  split; [apply list_del_not_elem|].
  intros q Hq. rewrite elem_of_app, !elem_of_list_del, list_elem_of_singleton.
  tauto.
Qed.

(** The second of two requests is submitted. *)
Lemma gb_pending_operation_insert_lists_ok_witness :
  ∃ s', gb_pending_operation_insert 19
          (final (gb_operation_request_send 16 5
             (final (gb_operation_create 2 0 4
                (final (gb_operation_create 1 2 4 (boot 0 [] [] [100; 101])))))))
        = Ok tt s' ∧
        lists_ok (conn s') ∧ 19 ∈ c_pending (conn s').
Proof.
  set (s := final (gb_operation_request_send 16 5
             (final (gb_operation_create 2 0 4
                (final (gb_operation_create 1 2 4 (boot 0 [] [] [100; 101]))))))).
  assert (Hc : c_operations (conn s) ++ c_pending (conn s) = [19; 16])
    by (vm_compute; reflexivity).
  destruct (gb_pending_operation_insert_lists_ok s 19
              (mk_operation (mk_message 19 20 28 8 0) (mk_message 19 21 29 12 0)
                 0 false 0 0 false false 1)
              [8; 0; 0; 0; 2; 0; 0; 0])
    as (s' & Hrun & Hok & Hin & _).
  - vm_compute. reflexivity.
  - vm_compute. reflexivity.
  - simpl. lia.
  - unfold lists_ok. rewrite Hc. apply NoDup_cons. split.
    + intros H. apply list_elem_of_singleton in H. discriminate H.
    + apply NoDup_singleton.
  - exists s'. split; [exact Hrun|]. split; [exact Hok|exact Hin].
Defined.

Lemma lists_ok_move_back p a b :
  NoDup (a ++ b) → NoDup ((list_del p a ++ [p]) ++ list_del p b).
Proof.
  rewrite !NoDup_app. intros (Ha & Hab & Hb). split.
  - split; [by apply NoDup_list_del|]. split; [|apply NoDup_singleton].
    intros x Hx Hx'. apply elem_of_list_del in Hx as [_ Hne].
    apply list_elem_of_singleton in Hx'. done.
  - split; [|by apply NoDup_list_del].
    intros x Hx Hx'. apply elem_of_list_del in Hx' as [Hx' Hne].
    apply elem_of_app in Hx as [Hx|Hx].
    + apply elem_of_list_del in Hx as [Hx _]. by apply (Hab x).
    + apply list_elem_of_singleton in Hx. done.
Qed.

(** X7.  [gb_pending_operation_remove] keeps the lists well formed, takes
    the operation out of the pending list whether or not it was there,
    and puts it at the tail of the operations list; nothing else about
    the connection or the operation changes. *)
Theorem gb_pending_operation_remove_lists_ok s p o :
  ops s !! p = Some o →
  lists_ok (conn s) →
  ∃ s', gb_pending_operation_remove p s = Ok tt s' ∧
        lists_ok (conn s') ∧
        (p ∉ c_pending (conn s')) ∧
        p ∈ c_operations (conn s') ∧
        ops s' = ops s ∧ mem s' = mem s ∧
        c_op_cycle (conn s') = c_op_cycle (conn s) ∧
        ∀ q, q ≠ p →
             (q ∈ c_pending (conn s') ↔ q ∈ c_pending (conn s)) ∧
             (q ∈ c_operations (conn s') ↔ q ∈ c_operations (conn s)).
Proof.
  intros Ho Hok. eexists.
  split; [by eapply gb_pending_operation_remove_Ok|]. simpl.
  split; [by apply lists_ok_move_back|].
  split; [apply list_del_not_elem|].
  split; [apply elem_of_app; right; apply list_elem_of_here|].
  split; [reflexivity|]. split; [reflexivity|]. split; [reflexivity|].
  intros q Hq. rewrite elem_of_app, !elem_of_list_del, list_elem_of_singleton.
  tauto.
Qed.

(** The first of the two requests in flight is taken off the list. *)
Lemma gb_pending_operation_remove_lists_ok_witness :
  ∃ s', gb_pending_operation_remove 16 two_submitted = Ok tt s' ∧
        lists_ok (conn s') ∧ c_pending (conn s') = [19].
Proof.
  assert (Hc : c_operations (conn two_submitted) ++ c_pending (conn two_submitted)
               = [16; 19]) by (vm_compute; reflexivity).
  destruct (gb_pending_operation_remove_lists_ok two_submitted 16
              (mk_operation (mk_message 16 17 25 10 100) (mk_message 16 18 26 12 0)
                 1 false 0 5 false true 1))
    as (s' & Hrun & Hok & _).
  - vm_compute. reflexivity.
  - unfold lists_ok. rewrite Hc. apply NoDup_cons. split.
    + intros H. apply list_elem_of_singleton in H. discriminate H.
    + apply NoDup_singleton.
  - exists s'. split; [exact Hrun|]. split; [exact Hok|].
    rewrite (gb_pending_operation_remove_Ok two_submitted 16 _ ltac:(vm_compute; reflexivity)) in Hrun.
    injection Hrun as <-. vm_compute. reflexivity.
Defined.

(** ** Submitting a request *)

(** X8.  On a connection that is not enabled [gb_operation_request_send]
    returns [-ENOTCONN] and does nothing else: the callback is not
    stored, no id is assigned, the operation stays off the pending list,
    the driver is not called and no timer is armed. *)
Theorem gb_operation_request_send_not_connected s p o callback :
  ops s !! p = Some o →
  c_state (conn s) ≠ GB_CONNECTION_STATE_ENABLED →
  gb_operation_request_send p callback s = Ok (Returned (- ENOTCONN)) s.
Proof.
  intros Ho Hst. unfold gb_operation_request_send.
  rewrite (bind_Ok _ _ _ _ _ (deref_Ok _ _ _ Ho)).
  unfold gets at 1. unfold bind at 1.
  by rewrite bool_decide_eq_true_2.
Qed.

Lemma gb_operation_request_send_not_connected_witness :
  gb_operation_request_send 16 5 created_then_disabled
  = Ok (Returned (- ENOTCONN)) created_then_disabled.
Proof.
  apply (gb_operation_request_send_not_connected created_then_disabled 16
           (mk_operation (mk_message 16 17 25 10 0) (mk_message 16 18 26 12 0)
              0 false 0 0 false false 1)).
  - vm_compute. reflexivity.
  - discriminate.
Defined.

(** A successful send: the cookie is kept in the message. *)
Lemma gb_message_send_Ok s p w gfp o cookie rest :
  ops s !! p = Some o →
  msg_operation (get_msg w o) = p →
  send_plan s = cookie :: rest →
  IS_ERR cookie = false →
  gb_message_send p w gfp s
  = Ok 0 (set_ops (insert p (set_msg w
                     (mk_message p (msg_buffer (get_msg w o)) (msg_payload (get_msg w o))
                        (msg_buffer_size (get_msg w o)) cookie) o))
            (set_hd_calls (λ l, l ++
               [BufferSend (c_interface_cport_id (conn s)) (msg_buffer (get_msg w o))
                  (msg_buffer_size (get_msg w o)) gfp cookie])
               (set_send_plan (drop 1) s))).
Proof.
  intros Ho Hback Hplan He. destruct s; simpl in *.
  unfold gb_message_send. mred.
  rewrite Ho, Hback, Ho. mred. rewrite Ho, Hplan. mred.
  rewrite He. reflexivity.
Qed.

(** X9.  A submit that the transport accepts: the operation gets the next
    id and the callback, moves to the pending list, its request buffer is
    handed to [buffer_send] exactly once with the connection's cport id,
    the cookie is kept, the timeout is armed, and nothing is completed.
    With a callback the call returns 0; without one the caller waits. *)
Theorem gb_operation_request_send_accepted s p o bytes callback cookie rest :
  c_state (conn s) = GB_CONNECTION_STATE_ENABLED →
  ops s !! p = Some o →
  msg_operation (op_request o) = p →
  mem s !! msg_buffer (op_request o) = Some bytes →
  (4 ≤ length bytes)%nat →
  send_plan s = cookie :: rest →
  IS_ERR cookie = false →
  ∃ s' o',
    gb_operation_request_send p callback s
    = Ok (if bool_decide (callback = NULL) then Waiting else Returned 0) s' ∧
    ops s' !! p = Some o' ∧
    op_id o' = u16 (c_op_cycle (conn s) + 1) ∧
    op_callback o' = callback ∧
    op_timeout_work o' = true ∧
    msg_cookie (op_request o') = cookie ∧
    c_pending (conn s') = list_del p (c_pending (conn s)) ++ [p] ∧
    hd_calls s' = hd_calls s ++
      [BufferSend (c_interface_cport_id (conn s)) (msg_buffer (op_request o))
         (msg_buffer_size (op_request o)) GFP_KERNEL cookie] ∧
    mem s' !! msg_buffer (op_request o)
    = Some (splice 2 (cpu_to_le16 (u16 (c_op_cycle (conn s) + 1))) bytes) ∧
    events s' = events s ∧ recv_workqueue s' = recv_workqueue s.
Proof.
  intros Hen Ho Hback Hm Hlen Hplan He.
  unfold gb_operation_request_send.
  rewrite (bind_Ok _ _ _ _ _ (deref_Ok _ _ _ Ho)).
  unfold gets at 1. unfold bind at 1. rewrite Hen.
  rewrite bool_decide_eq_false_2 by (intros H; by apply H).
  erewrite bind_Ok; [|by apply update_Ok].
  set (o1 := set_op_callback callback o).
  set (s1 := set_ops (insert p o1) s).
  erewrite bind_Ok;
    [|apply (gb_pending_operation_insert_Ok s1 p o1 bytes);
      [apply lookup_insert_eq|exact Hm|exact Hlen]].
  set (o2 := set_op_id (u16 (c_op_cycle (conn s1) + 1)) o1).
  erewrite bind_Ok;
    [|apply (gb_message_send_Ok _ p Request GFP_KERNEL o2 cookie rest);
      [apply lookup_insert_eq|exact Hback|exact Hplan|exact He]].
  rewrite bool_decide_eq_false_2 by (intros H; by apply H).
  unfold schedule_delayed_work.
  erewrite bind_Ok; [|apply update_Ok, lookup_insert_eq].
  eexists _, _. split.
  { destruct (bool_decide (callback = NULL)); reflexivity. }
  simpl. split; [apply lookup_insert_eq|].
  split; [reflexivity|]. split; [reflexivity|]. split; [reflexivity|].
  split; [reflexivity|]. split; [reflexivity|]. split; [reflexivity|].
  split; [apply lookup_insert_eq|]. split; reflexivity.
Qed.

(** The first request of a connection is submitted with callback 5. *)
Lemma gb_operation_request_send_accepted_witness :
  ∃ s' o', gb_operation_request_send 16 5 created_for_send = Ok (Returned 0) s' ∧
           ops s' !! 16 = Some o' ∧ op_id o' = 1 ∧
           msg_cookie (op_request o') = 100 ∧
           c_pending (conn s') = [16] ∧
           hd_calls s' = [BufferAlloc 10 GFP_KERNEL 17; BufferAlloc 12 GFP_KERNEL 18;
                          BufferSend 7 17 10 GFP_KERNEL 100].
Proof.
  assert (Hc : hd_calls created_for_send
               = [BufferAlloc 10 GFP_KERNEL 17; BufferAlloc 12 GFP_KERNEL 18])
    by (vm_compute; reflexivity).
  assert (Hp : c_pending (conn created_for_send) = []) by (vm_compute; reflexivity).
  assert (Hcy : c_op_cycle (conn created_for_send) = 0) by (vm_compute; reflexivity).
  assert (Hcp : c_interface_cport_id (conn created_for_send) = 7)
    by (vm_compute; reflexivity).
  destruct (gb_operation_request_send_accepted created_for_send 16
              (mk_operation (mk_message 16 17 25 10 0) (mk_message 16 18 26 12 0)
                 0 false 0 0 false false 1)
              [10; 0; 0; 0; 1; 0; 0; 0; 0; 0] 5 100 [])
    as (s' & o' & Hrun & Hops & Hid & _ & _ & Hck & Hpend & Hcalls & _).
  - reflexivity.
  - vm_compute. reflexivity.
  - reflexivity.
  - vm_compute. reflexivity.
  - simpl. lia.
  - reflexivity.
  - reflexivity.
  - exists s', o'. rewrite Hcy in Hid. rewrite Hp in Hpend. rewrite Hc, Hcp in Hcalls.
    split; [exact Hrun|]. split; [exact Hops|]. split; [exact Hid|].
    split; [exact Hck|]. split; [exact Hpend|exact Hcalls].
Defined.

(** X10.  An interrupted wait: [gb_operation_wait] hands the request's
    cookie to [buffer_cancel] once and returns the status of the wait.
    It does not take the operation off the pending list, does not cancel
    the timeout and does not complete the operation. *)
Theorem gb_operation_wait_interrupted s p o ob r :
  ops s !! p = Some o →
  msg_cookie (op_request o) ≠ NULL →
  ops s !! msg_operation (op_request o) = Some ob →
  r < 0 →
  gb_operation_wait p r s
  = Ok r (set_hd_calls (λ l, l ++ [BufferCancel (msg_cookie (op_request o))]) s).
Proof.
  intros Ho Hck Hback Hr. unfold gb_operation_wait.
  rewrite bool_decide_eq_true_2 by done.
  unfold gb_message_cancel.
  erewrite bind_Ok; [reflexivity|].
  rewrite (bind_Ok _ _ _ _ _ (deref_Ok _ _ _ Ho)). simpl.
  rewrite bool_decide_eq_false_2 by done.
  unfold message_hd.
  erewrite bind_Ok; [reflexivity|].
  by rewrite (bind_Ok _ _ _ _ _ (deref_Ok _ _ _ Hback)).
Qed.

(** The wait of the synchronous request is interrupted with
    [-ERESTARTSYS]. *)
Lemma gb_operation_wait_interrupted_witness :
  ∃ s', gb_operation_wait 16 (- 512) submitted_sync = Ok (- 512) s' ∧
        cancels s' = [19] ∧ c_pending (conn s') = [16] ∧
        (op_timeout_work <$> ops s' !! 16) = Some true.
Proof.
  pose proof (gb_operation_wait_interrupted submitted_sync 16
                (mk_operation (mk_message 16 17 25 10 19) (mk_message 16 18 26 12 0)
                   1 false 0 0 false true 1)
                (mk_operation (mk_message 16 17 25 10 19) (mk_message 16 18 26 12 0)
                   1 false 0 0 false true 1) (- 512)
                ltac:(vm_compute; reflexivity) ltac:(discriminate)
                ltac:(vm_compute; reflexivity) ltac:(lia)) as Hrun.
  eexists. split; [exact Hrun|].
  split; [vm_compute; reflexivity|]. split; vm_compute; reflexivity.
Defined.

(** ** Receiving *)

(** X11.  [gb_connection_recv] drops what it cannot take: data arriving
    on a connection that is not enabled, data shorter than a header, and
    a frame whose header announces more bytes than were received.  In
    each case the only effect is one line in the error log; no operation
    is created, completed or changed. *)
Theorem gb_connection_recv_dropped s data :
  c_state (conn s) ≠ GB_CONNECTION_STATE_ENABLED ∨
  Z.of_nat (length data) < sizeof_hdr ∨
  le16_to_cpu (default 0 (data !! 0%nat)) (default 0 (data !! 1%nat))
    > Z.of_nat (length data) →
  gb_connection_recv data s = Ok tt (set_events (λ l, l ++ [EvErr]) s).
Proof.
  intros H. unfold gb_connection_recv. cbv zeta.
  unfold gets at 1. unfold bind at 1.
  case_bool_decide as Hst; [reflexivity|].
  case_bool_decide as Hsz; [reflexivity|].
  case_bool_decide as Hms; [reflexivity|].
  destruct H as [H|[H|H]]; [done|lia|lia].
Qed.

(** A frame that announces 12 bytes but arrives with 10. *)
Lemma gb_connection_recv_dropped_witness :
  gb_connection_recv [12; 0; 1; 0; 0x81; 0; 0; 0; 1; 2] submitted_sync
  = Ok tt (set_events (λ l, l ++ [EvErr]) submitted_sync).
Proof.
  apply gb_connection_recv_dropped. right. right.
  unfold le16_to_cpu. simpl. lia.
Defined.

Lemma le16_round_trip z :
  le16_to_cpu (u16 z mod 256) (u16 z / 256) = u16 z.
Proof. unfold le16_to_cpu. pose proof (Z.div_mod (u16 z) 256). lia. Qed.

Lemma u16_id z : 0 ≤ z < 65536 → u16 z = z.
Proof. intros H. unfold u16. by apply Z.mod_small. Qed.

Lemma land_response_bit type :
  0 ≤ type < 256 →
  (Z.land type GB_OPERATION_TYPE_RESPONSE ≠ 0 ↔ 128 ≤ type).
Proof.
  intros H. unfold GB_OPERATION_TYPE_RESPONSE.
  assert (Hbit : Z.land type 128 = if Z.testbit type 7 then 128 else 0).
  { apply Z.bits_inj'. intros n Hn. rewrite Z.land_spec.
    change 128 with (2 ^ 7). rewrite Z.pow2_bits_eqb by lia.
    destruct (Z.eqb_spec 7 n) as [<-|Hne].
    - rewrite andb_true_r. destruct (Z.testbit type 7) eqn:Hb.
      + by rewrite Z.pow2_bits_true.
      + by rewrite Z.bits_0.
    - rewrite andb_false_r. destruct (Z.testbit type 7).
      + by rewrite Z.pow2_bits_false.
      + by rewrite Z.bits_0. }
  rewrite Hbit.
  assert (Hdiv : Z.b2z (Z.testbit type 7) = (type / 2 ^ 7) mod 2)
    by (apply Z.testbit_spec'; lia).
  change (2 ^ 7) with 128 in Hdiv.
  destruct (Z.testbit type 7); simpl in Hdiv.
  - split; [intros _|done]. Z.div_mod_to_equations. lia.
  - split; [done|intros Hge]. Z.div_mod_to_equations. lia.
Qed.

(** X12.  Header round trip: a frame that starts with a header written
    the way the core writes it (size and id little-endian, then the
    type byte) is read back by [gb_connection_recv] with the same size,
    id and type.  The top bit of the type alone decides between the
    response and the request path, and the paths get the size announced
    in the header, not the number of bytes received. *)
Theorem gb_connection_recv_header_round_trip s size id type rest :
  c_state (conn s) = GB_CONNECTION_STATE_ENABLED →
  sizeof_hdr ≤ size < 65536 →
  0 ≤ id < 65536 →
  0 ≤ type < 256 →
  size ≤ 5 + Z.of_nat (length rest) →
  gb_connection_recv (cpu_to_le16 size ++ cpu_to_le16 id ++ type :: rest) s
  = (if bool_decide (128 ≤ type)
     then gb_connection_recv_response id
            (cpu_to_le16 size ++ cpu_to_le16 id ++ type :: rest) size
     else gb_connection_recv_request id type
            (cpu_to_le16 size ++ cpu_to_le16 id ++ type :: rest) size) s.
Proof.
  intros Hen Hsize Hid Htype Hlen. unfold sizeof_hdr in *.
  unfold gb_connection_recv. cbv zeta.
  unfold gets at 1. unfold bind at 1. rewrite Hen.
  rewrite bool_decide_eq_false_2 by (intros H; by apply H).
  assert (Hl : Z.of_nat (length (cpu_to_le16 size ++ cpu_to_le16 id ++ type :: rest))
               = 5 + Z.of_nat (length rest)).
  { unfold cpu_to_le16. cbn [app length]. lia. }
  rewrite Hl.
  rewrite bool_decide_eq_false_2 by (unfold sizeof_hdr; lia).
  set (frame := cpu_to_le16 size ++ cpu_to_le16 id ++ type :: rest).
  assert (H0 : frame !! 0%nat = Some (u16 size mod 256)) by reflexivity.
  assert (H1 : frame !! 1%nat = Some (u16 size / 256)) by reflexivity.
  assert (H2 : frame !! 2%nat = Some (u16 id mod 256)) by reflexivity.
  assert (H3 : frame !! 3%nat = Some (u16 id / 256)) by reflexivity.
  assert (H4 : frame !! 4%nat = Some type) by reflexivity.
  rewrite H0, H1, H2, H3, H4. cbn [from_option Datatypes.id].
  rewrite !le16_round_trip, !u16_id by lia.
  rewrite bool_decide_eq_false_2 by lia.
  destruct (bool_decide (128 ≤ type)) eqn:Ht.
  - apply bool_decide_eq_true_1 in Ht.
    rewrite bool_decide_eq_true_2; [reflexivity|]. by apply land_response_bit.
  - apply bool_decide_eq_false_1 in Ht.
    rewrite bool_decide_eq_false_2; [reflexivity|]. by rewrite land_response_bit.
Qed.

(** The request frame [size = 10, id = 0x4242, type = 3] on a connection
    without pending operations. *)
Lemma gb_connection_recv_header_round_trip_witness :
  gb_connection_recv [10; 0; 0x42; 0x42; 3; 0; 0; 0; 1; 2] (boot 0 [] [] [])
  = gb_connection_recv_request 0x4242 3 [10; 0; 0x42; 0x42; 3; 0; 0; 0; 1; 2] 10
      (boot 0 [] [] []).
Proof.
  apply (gb_connection_recv_header_round_trip (boot 0 [] [] []) 10 0x4242 3
           [0; 0; 0; 1; 2]).
  - reflexivity.
  - unfold sizeof_hdr. lia.
  - lia.
  - lia.
  - simpl. lia.
Defined.

(** ** Allocating messages and operations *)

Lemma buffer_alloc_next_Some s size gfp junk :
  next_alloc s = Some junk →
  buffer_alloc size gfp s
  = Ok (next_addr s)
      (set_hd_calls (λ l, l ++ [BufferAlloc size gfp (next_addr s)])
         (set_next_addr (λ a, a + 1)
            (set_mem (insert (next_addr s) (stale_bytes junk size))
               (set_alloc_plan (drop 1) s)))).
Proof.
  unfold next_alloc, buffer_alloc. intros H.
  destruct (alloc_plan s) as [|a l]; [by injection H as <-|by subst a].
Qed.

Lemma buffer_alloc_next_None s size gfp :
  next_alloc s = None →
  buffer_alloc size gfp s
  = Ok NULL (set_hd_calls (λ l, l ++ [BufferAlloc size gfp NULL])
               (set_alloc_plan (drop 1) s)).
Proof.
  unfold next_alloc, buffer_alloc. intros H.
  destruct (alloc_plan s) as [|a l]; [discriminate H|by subst a].
Qed.

Lemma splice_header (x y t : Z) (b0 : list Z) :
  (5 ≤ length b0)%nat →
  splice 4 [t] (splice 2 [0; 0] (splice 0 [x; y] b0))
  = [x; y] ++ [0; 0; t] ++ drop 5 b0.
Proof.
  intros H. do 5 (destruct b0 as [|? b0]; [simpl in H; lia|]). reflexivity.
Qed.

Lemma gb_operation_message_init_Ok s p o type size request gfp junk :
  ops s !! p = Some o →
  next_alloc s = Some junk →
  next_addr s ≠ NULL →
  0 ≤ size ≤ GB_OPERATION_MESSAGE_SIZE_MAX →
  gb_operation_message_init p type size request gfp s
  = Ok 0 (message_inited p o type size request gfp junk s).
Proof.
  intros Ho Hplan Hna Hsize.
  unfold gb_operation_message_init.
  rewrite bool_decide_eq_false_2 by lia. cbv zeta.
  rewrite (bind_Ok _ _ _ _ _ (deref_Ok _ _ _ Ho)).
  rewrite (bind_Ok _ _ _ _ _ (buffer_alloc_next_Some _ _ _ _ Hplan)).
  erewrite bind_Ok; [|apply update_Ok; exact Ho].
  rewrite bool_decide_eq_false_2 by done.
  unfold sizeof_hdr in *.
  assert (Hlen : Z.of_nat (length (stale_bytes junk (size + 8))) = size + 8)
    by (apply length_stale_bytes; lia).
  set (b0 := stale_bytes junk (size + 8)) in *.
  set (b1 := splice (Z.to_nat hdr_size_off) (cpu_to_le16 (size + 8)) b0).
  set (b2 := splice (Z.to_nat hdr_operation_id_off) [0; 0] b1).
  assert (Hlen1 : length b1 = length b0)
    by (apply length_splice; unfold hdr_size_off, cpu_to_le16;
        cbn [length Z.to_nat]; lia).
  assert (Hlen2 : length b2 = length b1)
    by (apply length_splice; unfold hdr_operation_id_off; cbn [length]; lia).
  erewrite bind_Ok;
    [|eapply (store_bytes_Ok _ _ _ _ b0);
      [apply lookup_insert_eq|done|
       unfold hdr_size_off, cpu_to_le16; cbn [length]; lia]].
  erewrite bind_Ok;
    [|eapply (store_bytes_Ok _ _ _ _ b1);
      [apply lookup_insert_eq|done|
       rewrite Hlen1; unfold hdr_operation_id_off; cbn [length]; lia]].
  erewrite bind_Ok;
    [|eapply (store_bytes_Ok _ _ _ _ b2);
      [apply lookup_insert_eq|done|
       rewrite Hlen2, Hlen1; unfold hdr_type_off; cbn [length]; lia]].
  erewrite bind_Ok; [|apply update_Ok, lookup_insert_eq].
  unfold ret. f_equal. unfold message_inited, init_bytes, init_type. cbv zeta.
  destruct s. mred. f_equal.
  - rewrite insert_insert_eq. by destruct request.
  - rewrite !insert_insert_eq. f_equal. unfold b2, b1, cpu_to_le16.
    change (Z.to_nat hdr_type_off) with 4%nat.
    change (Z.to_nat hdr_operation_id_off) with 2%nat.
    change (Z.to_nat hdr_size_off) with 0%nat.
    rewrite splice_header by lia. by destruct request.
Qed.

Lemma gb_operation_message_init_ENOMEM s p o type size request gfp :
  ops s !! p = Some o →
  next_alloc s = None →
  size ≤ GB_OPERATION_MESSAGE_SIZE_MAX →
  gb_operation_message_init p type size request gfp s
  = Ok (- ENOMEM) (message_enomem p o size request gfp s).
Proof.
  intros Ho Hplan Hsize.
  unfold gb_operation_message_init.
  rewrite bool_decide_eq_false_2 by lia. cbv zeta.
  rewrite (bind_Ok _ _ _ _ _ (deref_Ok _ _ _ Ho)).
  rewrite (bind_Ok _ _ _ _ _ (buffer_alloc_next_None _ _ _ Hplan)).
  erewrite bind_Ok; [|apply update_Ok; exact Ho].
  by rewrite bool_decide_eq_true_2.
Qed.

(** X13.  What a successful [gb_operation_message_init] leaves behind: a
    buffer of payload size plus 8 bytes obtained by one [buffer_alloc]
    call; in its header the frame size little-endian, a zero operation
    id and the type (with the response bit set for a response message);
    the payload pointer 8 bytes into the buffer and the back pointer set.
    The result byte and the padding are not written: from offset 5 on the
    buffer holds what the allocator left there. *)
Theorem gb_operation_message_init_success s p o type size request gfp junk :
  ops s !! p = Some o →
  next_alloc s = Some junk →
  next_addr s ≠ NULL →
  0 ≤ size ≤ GB_OPERATION_MESSAGE_SIZE_MAX →
  ∃ s' o',
    gb_operation_message_init p type size request gfp s = Ok 0 s' ∧
    ops s' !! p = Some o' ∧
    get_msg (if request then Request else Response) o'
    = mk_message p (next_addr s) (next_addr s + sizeof_hdr) (size + sizeof_hdr)
        (msg_cookie (get_msg (if request then Request else Response) o)) ∧
    get_msg (if request then Response else Request) o'
    = get_msg (if request then Response else Request) o ∧
    mem s' !! next_addr s
    = Some (cpu_to_le16 (size + sizeof_hdr) ++
            [0; 0; u8 (if request then type
                       else Z.lor type GB_OPERATION_TYPE_RESPONSE)] ++
            drop 5 (stale_bytes junk (size + sizeof_hdr))) ∧
    hd_calls s' = hd_calls s ++ [BufferAlloc (size + sizeof_hdr) gfp (next_addr s)].
Proof.
  intros Ho Hplan Hna Hsize. eexists _, _.
  split; [by apply gb_operation_message_init_Ok|]. simpl.
  split; [apply lookup_insert_eq|].
  split; [by destruct request|]. split; [by destruct request|].
  split; [apply lookup_insert_eq|reflexivity].
Qed.

(** A response message for 4 bytes of payload in a buffer that was not
    zeroed. *)
Lemma gb_operation_message_init_success_witness :
  ∃ s', gb_operation_message_init 16 1 4 false GFP_KERNEL
          (final (kmem_cache_zalloc (boot 0 [] [Some [9; 9; 9; 9; 9; 9; 9; 9; 9]] [])))
        = Ok 0 s' ∧
        mem s' !! 17 = Some [12; 0; 0; 0; 0x81; 9; 9; 9; 9; 0; 0; 0].
Proof.
  destruct (gb_operation_message_init_success
              (final (kmem_cache_zalloc
                        (boot 0 [] [Some [9; 9; 9; 9; 9; 9; 9; 9; 9]] [])))
              16 zero_operation 1 4 false GFP_KERNEL [9; 9; 9; 9; 9; 9; 9; 9; 9])
    as (s' & o' & Hrun & _ & _ & _ & Hmem & _).
  - vm_compute. reflexivity.
  - reflexivity.
  - discriminate.
  - unfold GB_OPERATION_MESSAGE_SIZE_MAX. lia.
  - exists s'. split; [exact Hrun|exact Hmem].
Defined.

(** X14.  The return value of [gb_operation_message_init] in full: it is
    [-E2BIG] exactly when the payload size is above 4096 (and then the
    driver is not called and nothing changes), [-ENOMEM] exactly when the
    size passes and [buffer_alloc] returns null (then the message's
    buffer pointer is null and no buffer exists), and 0 otherwise. *)
Theorem gb_operation_message_init_result s p o type size request gfp :
  ops s !! p = Some o →
  next_addr s ≠ NULL →
  0 ≤ size →
  ∃ r s',
    gb_operation_message_init p type size request gfp s = Ok r s' ∧
    (r = - E2BIG ∨ r = - ENOMEM ∨ r = 0) ∧
    (r = - E2BIG ↔ size > GB_OPERATION_MESSAGE_SIZE_MAX) ∧
    (r = - ENOMEM ↔ size ≤ GB_OPERATION_MESSAGE_SIZE_MAX ∧ next_alloc s = None) ∧
    (r = - E2BIG → s' = s) ∧
    (r = - ENOMEM →
     mem s' = mem s ∧
     (msg_buffer ∘ get_msg (if request then Request else Response) <$> ops s' !! p)
     = Some NULL).
Proof.
  intros Ho Hna Hsize.
  destruct (decide (size > GB_OPERATION_MESSAGE_SIZE_MAX)) as [Hbig|Hfit].
  - exists (- E2BIG), s.
    split; [by apply gb_operation_message_init_E2BIG|].
    split; [by left|]. split; [done|].
    split; [|split; [done|discriminate]].
    split; [discriminate|lia].
  - destruct (next_alloc s) as [junk|] eqn:Hplan.
    + exists 0, (message_inited p o type size request gfp junk s).
      split; [apply gb_operation_message_init_Ok; [done..|lia]|].
      split; [by right; right|].
      split; [split; [discriminate|lia]|].
      split; [split; [discriminate|intros [_ ?]; discriminate]|].
      split; discriminate.
    + exists (- ENOMEM), (message_enomem p o size request gfp s).
      split; [apply gb_operation_message_init_ENOMEM; [done..|lia]|].
      split; [by right; left|].
      split; [split; [discriminate|lia]|].
      split; [split; [intros _; split; [lia|done]|done]|].
      split; [discriminate|]. intros _. split; [reflexivity|].
      simpl. rewrite lookup_insert_eq. by destruct request.
Qed.

(** The driver has no memory for the request buffer. *)
Lemma gb_operation_message_init_result_witness :
  ∃ s', gb_operation_message_init 16 1 2 true GFP_KERNEL
          (final (kmem_cache_zalloc (boot 0 [] [None] []))) = Ok (- ENOMEM) s' ∧
        mem s' = ∅.
Proof.
  assert (Hm : mem (final (kmem_cache_zalloc (boot 0 [] [None] []))) = ∅)
    by (vm_compute; reflexivity).
  destruct (gb_operation_message_init_result
              (final (kmem_cache_zalloc (boot 0 [] [None] []))) 16 zero_operation
              1 2 true GFP_KERNEL)
    as (r & s' & Hrun & _ & _ & Hnomem & _ & Hmem).
  - vm_compute. reflexivity.
  - discriminate.
  - lia.
  - assert (Hr : r = - ENOMEM).
    { apply Hnomem. split; [unfold GB_OPERATION_MESSAGE_SIZE_MAX; lia|reflexivity]. }
    subst r. exists s'. split; [exact Hrun|].
    destruct (Hmem eq_refl) as [-> _]. exact Hm.
Defined.

Lemma kmem_cache_zalloc_Ok s :
  next_kmem s = true → kmem_cache_zalloc s = Ok (next_addr s) (zalloced s).
Proof.
  unfold next_kmem, kmem_cache_zalloc. intros H.
  destruct (kmem_plan s) as [|b l]; [reflexivity|by subst b].
Qed.

Lemma kmem_cache_zalloc_NULL s :
  next_kmem s = false → kmem_cache_zalloc s = Ok NULL (set_kmem_plan (drop 1) s).
Proof.
  unfold next_kmem, kmem_cache_zalloc. intros H.
  destruct (kmem_plan s) as [|b l]; [discriminate H|by subst b].
Qed.

Lemma kmem_cache_free_Ok s p o :
  ops s !! p = Some o → kmem_cache_free p s = Ok tt (set_ops (delete p) s).
Proof.
  intros Ho. unfold kmem_cache_free.
  by rewrite (bind_Ok _ _ _ _ _ (deref_Ok _ _ _ Ho)).
Qed.

Lemma gb_operation_message_exit_Ok s p w o ob :
  ops s !! p = Some o →
  ops s !! msg_operation (get_msg w o) = Some ob →
  gb_operation_message_exit p w s = Ok tt (message_exited p o w s).
Proof.
  intros Ho Hback. unfold gb_operation_message_exit.
  rewrite (bind_Ok _ _ _ _ _ (deref_Ok _ _ _ Ho)).
  unfold message_hd.
  erewrite bind_Ok;
    [|by rewrite (bind_Ok _ _ _ _ _ (deref_Ok _ _ _ Hback))].
  unfold buffer_free, hd_log, modify. unfold bind at 1. unfold bind at 1.
  erewrite update_Ok; [reflexivity|exact Ho].
Qed.

(** Reduce the named intermediate states as well. *)
Ltac sred :=
  cbv beta iota zeta delta
    [zalloced message_inited message_enomem message_exited
     set_ops set_conn set_mem set_hd_calls set_events set_recv_workqueue
     set_next_addr set_kmem_plan set_alloc_plan set_send_plan
     ops conn mem hd_calls events recv_workqueue next_addr kmem_plan
     alloc_plan send_plan].

(** X15.  [gb_operation_create_common] fails cleanly: whenever it returns
    null (no memory for the operation or for one of the buffers, or a
    payload size above the maximum), no operation is left in the cache,
    the lists of the connection are as before, and every buffer obtained
    during the call has been handed back, so the set of live buffers is
    as before. *)
Theorem gb_operation_create_common_failure
    s outgoing type request_size response_size s' :
  heap_fresh s →
  0 ≤ request_size →
  0 ≤ response_size →
  gb_operation_create_common outgoing type request_size response_size s
  = Ok NULL s' →
  ops s' = ops s ∧ conn s' = conn s ∧ mem s' = mem s ∧
  events s' = events s ∧ recv_workqueue s' = recv_workqueue s.
Proof.
  intros [Hpos Hfresh] Hrs Hps.
  destruct s as [ops0 c m h ev wq p kp ap sp]. simpl in Hpos, Hfresh.
  set (s := mk_state ops0 c m h ev wq p kp ap sp).
  destruct (Hfresh p) as [Hop _]; [lia|].
  destruct (Hfresh (p + 1)) as [_ Hb1]; [lia|].
  assert (Hp : p ≠ NULL) by (unfold NULL; lia).
  unfold gb_operation_create_common. cbv zeta.
  set (gfp := if bool_decide (response_size ≠ 0) then GFP_KERNEL else GFP_ATOMIC).
  destruct (next_kmem s) eqn:Hk.
  2:{ rewrite (bind_Ok _ _ _ _ _ (kmem_cache_zalloc_NULL _ Hk)).
      rewrite bool_decide_eq_true_2 by done. by intros [= <-]. }
  rewrite (bind_Ok _ _ _ _ _ (kmem_cache_zalloc_Ok _ Hk)).
  change (next_addr s) with p.
  rewrite bool_decide_eq_false_2 by done.
  set (s1 := zalloced s).
  assert (Ho1 : ops s1 !! p = Some zero_operation) by apply lookup_insert_eq.
  assert (Hna1 : next_addr s1 ≠ NULL).
  { change (next_addr s1) with (p + 1). unfold NULL. lia. }
  destruct (decide (request_size > GB_OPERATION_MESSAGE_SIZE_MAX)) as [Hbig|Hfit].
  { rewrite (bind_Ok _ _ _ _ _
               (gb_operation_message_init_E2BIG s1 p type _ true gfp Hbig)).
    rewrite bool_decide_eq_true_2 by done.
    rewrite (bind_Ok _ _ _ _ _ (kmem_cache_free_Ok _ _ _ Ho1)).
    intros [= <-]. subst s1 s. sred.
    rewrite delete_insert_id by exact Hop. done. }
  destruct (next_alloc s1) as [junk1|] eqn:Hplan1.
  2:{ rewrite (bind_Ok _ _ _ _ _
                 (gb_operation_message_init_ENOMEM s1 p zero_operation type request_size true gfp
                    Ho1 Hplan1 ltac:(lia))).
      rewrite bool_decide_eq_true_2 by done.
      erewrite bind_Ok; [|eapply kmem_cache_free_Ok; apply lookup_insert_eq].
      intros [= <-]. subst s1 s. sred.
      rewrite delete_insert_eq, delete_insert_id by exact Hop. done. }
  rewrite (bind_Ok _ _ _ _ _
             (gb_operation_message_init_Ok s1 p zero_operation type request_size true gfp junk1
                Ho1 Hplan1 Hna1 ltac:(lia))).
  rewrite bool_decide_eq_false_2 by (intros H; by apply H).
  set (s2 := message_inited p zero_operation type request_size true gfp junk1 s1).
  set (o2 := set_msg Request
               (mk_message p (p + 1) (p + 1 + sizeof_hdr)
                  (request_size + sizeof_hdr) 0) zero_operation).
  assert (Ho2 : ops s2 !! p = Some o2) by apply lookup_insert_eq.
  destruct outgoing.
  2:{ unfold ret at 1. unfold bind at 1.
      rewrite bool_decide_eq_false_2 by (intros H; by apply H).
      repeat (erewrite bind_Ok; [|apply update_Ok; apply lookup_insert_eq]).
      unfold modify, bind, ret. intros [= Hnull _]. done. }
  assert (Hcleanup : ∀ t ot,
            ops t !! p = Some ot →
            op_request ot = op_request o2 →
            ops t = <[p := ot]> ops0 →
            mem t = <[p + 1 := init_bytes junk1 (request_size + sizeof_hdr) type]> m →
            conn t = c → events t = ev → recv_workqueue t = wq →
            (gb_operation_message_exit p Request ;;; kmem_cache_free p ;;; ret NULL) t
            = Ok NULL s' →
            ops s' = ops0 ∧ conn s' = c ∧ mem s' = m ∧
            events s' = ev ∧ recv_workqueue s' = wq).
  { intros t ot Hot Hreq Hopst Hmemt Hct Het Hwt.
    erewrite bind_Ok;
      [|eapply (gb_operation_message_exit_Ok t p Request ot ot);
        [exact Hot|simpl; rewrite Hreq; exact Hot]].
    erewrite bind_Ok; [|eapply kmem_cache_free_Ok; apply lookup_insert_eq].
    intros [= <-]. simpl. rewrite Hreq. simpl.
    rewrite Hopst, Hmemt, Hct, Het, Hwt.
    rewrite delete_insert_eq, !delete_insert_id by done. done. }
  destruct (decide (response_size > GB_OPERATION_MESSAGE_SIZE_MAX)) as [Hbig|Hfit2].
  { rewrite (bind_Ok _ _ _ _ _
               (gb_operation_message_init_E2BIG s2 p type _ false GFP_KERNEL Hbig)).
    rewrite bool_decide_eq_true_2 by done.
    apply (Hcleanup s2 o2); try done.
    subst s2 s1 s. sred. by rewrite insert_insert_eq. }
  destruct (next_alloc s2) as [junk2|] eqn:Hplan2.
  2:{ rewrite (bind_Ok _ _ _ _ _
                 (gb_operation_message_init_ENOMEM s2 p o2 type response_size false GFP_KERNEL
                    Ho2 Hplan2 ltac:(lia))).
      rewrite bool_decide_eq_true_2 by done.
      eapply Hcleanup; [apply lookup_insert_eq|reflexivity|..]; try done.
      subst s2 s1 s. sred. by rewrite !insert_insert_eq. }
  assert (Hna2 : next_addr s2 ≠ NULL).
  { change (next_addr s2) with (p + 1 + 1). unfold NULL. lia. }
  rewrite (bind_Ok _ _ _ _ _
             (gb_operation_message_init_Ok s2 p o2 type response_size false GFP_KERNEL junk2
                Ho2 Hplan2 Hna2 ltac:(lia))).
  rewrite bool_decide_eq_false_2 by (intros H; by apply H).
  repeat (erewrite bind_Ok; [|apply update_Ok; apply lookup_insert_eq]).
  unfold modify, bind, ret. intros [= Hnull _]. done.
Qed.

(** No memory for the response buffer of the first operation. *)
Lemma gb_operation_create_common_failure_witness :
  ∃ s', gb_operation_create_common true 1 2 4 (boot 0 [] [Some []; None] [])
        = Ok NULL s' ∧
        ops s' = ∅ ∧ mem s' = ∅.
Proof.
  pose (s := boot 0 [] [Some []; None] []).
  pose (s' := final (gb_operation_create_common true 1 2 4 s)).
  destruct (gb_operation_create_common_failure s true 1 2 4 s')
    as (Hops & _ & Hmem & _).
  - split; [reflexivity|]. intros a _. split; apply lookup_empty.
  - lia.
  - lia.
  - vm_compute. reflexivity.
  - exists s'. split; [vm_compute; reflexivity|]. split; [exact Hops|exact Hmem].
Defined.

Lemma gb_operation_create_common_Ok
    s outgoing type request_size response_size junk1 junk2 :
  heap_fresh s →
  next_kmem s = true →
  0 ≤ request_size ≤ GB_OPERATION_MESSAGE_SIZE_MAX →
  0 ≤ response_size ≤ GB_OPERATION_MESSAGE_SIZE_MAX →
  next_alloc s = Some junk1 →
  (outgoing = true → next_alloc (set_alloc_plan (drop 1) s) = Some junk2) →
  gb_operation_create_common outgoing type request_size response_size s
  = Ok (next_addr s)
      (created outgoing type request_size response_size junk1 junk2 s).
Proof.
  intros [Hpos Hfresh] Hk Hrs Hps Hplan1 Hplan2.
  destruct s as [ops0 c m h ev wq p kp ap sp]. simpl in Hpos.
  set (s := mk_state ops0 c m h ev wq p kp ap sp) in *.
  assert (Hp : p ≠ NULL) by (unfold NULL; lia).
  unfold gb_operation_create_common. cbv zeta.
  fold (create_gfp response_size).
  rewrite (bind_Ok _ _ _ _ _ (kmem_cache_zalloc_Ok _ Hk)).
  change (next_addr s) with p.
  rewrite bool_decide_eq_false_2 by done.
  set (s1 := zalloced s).
  assert (Ho1 : ops s1 !! p = Some zero_operation) by apply lookup_insert_eq.
  assert (Hna1 : next_addr s1 ≠ NULL).
  { change (next_addr s1) with (p + 1). unfold NULL. lia. }
  rewrite (bind_Ok _ _ _ _ _
             (gb_operation_message_init_Ok s1 p zero_operation type request_size
                true (create_gfp response_size) junk1 Ho1 Hplan1 Hna1 Hrs)).
  rewrite bool_decide_eq_false_2 by (intros H; by apply H).
  set (s2 := message_inited p zero_operation type request_size true
               (create_gfp response_size) junk1 s1).
  set (o2 := set_msg Request
               (mk_message p (p + 1) (p + 1 + sizeof_hdr)
                  (request_size + sizeof_hdr) 0) zero_operation).
  assert (Ho2 : ops s2 !! p = Some o2) by apply lookup_insert_eq.
  destruct outgoing.
  - assert (Hna2 : next_addr s2 ≠ NULL).
    { change (next_addr s2) with (p + 1 + 1). unfold NULL. lia. }
    rewrite (bind_Ok _ _ _ _ _
               (gb_operation_message_init_Ok s2 p o2 type response_size
                  false GFP_KERNEL junk2 Ho2 (Hplan2 eq_refl) Hna2 Hps)).
    rewrite bool_decide_eq_false_2 by (intros H; by apply H).
    repeat (erewrite bind_Ok; [|apply update_Ok; apply lookup_insert_eq]).
    unfold modify, bind, ret. f_equal.
    subst s2 s1 s. unfold created, created_operation. sred. unfold init_type.
    replace (p + 1 + 1) with (p + 2) by lia.
    f_equal.
    + by rewrite !insert_insert_eq.
    + by rewrite <- app_assoc.
    + lia.
  - unfold ret at 1. unfold bind at 1.
    rewrite bool_decide_eq_false_2 by (intros H; by apply H).
    repeat (erewrite bind_Ok; [|apply update_Ok; apply lookup_insert_eq]).
    unfold modify, bind, ret. f_equal.
    subst s2 s1 s. unfold created, created_operation. sred. unfold init_type.
    replace (p + 1 + 1) with (p + 2) by lia.
    f_equal. by rewrite !insert_insert_eq.
Qed.

(** X16.  A successful [gb_operation_create_common]: the new operation
    has reference count 1, id 0, no callback, and sits at the tail of the
    operations list; its request buffer holds payload plus header, and
    only an outgoing operation gets a response buffer.  The operation and
    the request buffer are allocated with [GFP_KERNEL] when a response
    size is given and with [GFP_ATOMIC] when it is 0; the response buffer
    always with [GFP_KERNEL].  Other operations are untouched. *)
Theorem gb_operation_create_common_success
    s outgoing type request_size response_size junk1 junk2 :
  heap_fresh s →
  next_kmem s = true →
  0 ≤ request_size ≤ GB_OPERATION_MESSAGE_SIZE_MAX →
  0 ≤ response_size ≤ GB_OPERATION_MESSAGE_SIZE_MAX →
  next_alloc s = Some junk1 →
  (outgoing = true → next_alloc (set_alloc_plan (drop 1) s) = Some junk2) →
  ∃ s',
    gb_operation_create_common outgoing type request_size response_size s
    = Ok (next_addr s) s' ∧
    next_addr s ≠ NULL ∧
    ops s' !! next_addr s
    = Some (mk_operation
              (mk_message (next_addr s) (next_addr s + 1)
                 (next_addr s + 1 + sizeof_hdr) (request_size + sizeof_hdr) 0)
              (if outgoing
               then mk_message (next_addr s) (next_addr s + 2)
                      (next_addr s + 2 + sizeof_hdr) (response_size + sizeof_hdr) 0
               else zero_message)
              0 false 0 NULL false false 1) ∧
    (∀ q, q ≠ next_addr s → ops s' !! q = ops s !! q) ∧
    c_operations (conn s') = c_operations (conn s) ++ [next_addr s] ∧
    c_pending (conn s') = c_pending (conn s) ∧
    hd_calls s'
    = hd_calls s ++
      BufferAlloc (request_size + sizeof_hdr)
        (if bool_decide (response_size ≠ 0) then GFP_KERNEL else GFP_ATOMIC)
        (next_addr s + 1) ::
      (if outgoing
       then [BufferAlloc (response_size + sizeof_hdr) GFP_KERNEL (next_addr s + 2)]
       else []) ∧
    events s' = events s ∧
    heap_fresh s'.
Proof.
  intros Hfr Hk Hrs Hps Hplan1 Hplan2.
  exists (created outgoing type request_size response_size junk1 junk2 s).
  split; [by apply gb_operation_create_common_Ok|].
  destruct Hfr as [Hpos Hfresh].
  split; [unfold NULL; lia|]. unfold created. cbn [ops conn mem hd_calls events next_addr].
  split; [apply lookup_insert_eq|].
  split; [intros q Hq; by rewrite lookup_insert_ne|].
  split; [reflexivity|]. split; [reflexivity|]. split; [reflexivity|].
  split; [reflexivity|].
  unfold heap_fresh. cbn [ops mem next_addr].
  split; [destruct outgoing; lia|].
  intros a Ha. destruct (Hfresh a) as [Hoa Hma]; [destruct outgoing; lia|].
  split.
  - rewrite lookup_insert_ne by (destruct outgoing; lia). exact Hoa.
  - destruct outgoing; rewrite !lookup_insert_ne by lia; exact Hma.
Qed.

(** The dispatcher creates an operation for an incoming request of 10
    bytes. *)
Lemma gb_operation_create_common_success_witness :
  ∃ s', gb_operation_create_common false 3 10 0 (boot 0 [] [] []) = Ok 16 s' ∧
        c_operations (conn s') = [16] ∧
        hd_calls s' = [BufferAlloc 18 GFP_ATOMIC 17].
Proof.
  destruct (gb_operation_create_common_success (boot 0 [] [] []) false 3 10 0 [] [])
    as (s' & Hrun & _ & _ & _ & Hops & _ & Hcalls & _).
  - split; [reflexivity|]. intros a _. split; apply lookup_empty.
  - reflexivity.
  - unfold GB_OPERATION_MESSAGE_SIZE_MAX. lia.
  - unfold GB_OPERATION_MESSAGE_SIZE_MAX. lia.
  - reflexivity.
  - discriminate.
  - exists s'. split; [exact Hrun|]. split; [exact Hops|exact Hcalls].
Defined.

Lemma list_del_notin p l : p ∉ l → list_del p l = l.
Proof.
  induction l as [|q l IH]; intros H; [reflexivity|]. unfold list_del in *.
  rewrite filter_cons, decide_True.
  - rewrite IH; [done|]. intros Hp. apply H. by apply list_elem_of_further.
  - intros ->. apply H. apply list_elem_of_here.
Qed.

(** The state after the last reference of an operation with both
    messages was dropped. *)
Lemma gb_operation_put_last_Ok s p o :
  p ≠ NULL →
  ops s !! p = Some o →
  op_kref o = 1 →
  msg_operation (op_request o) = p →
  msg_operation (op_response o) = p →
  gb_operation_put p s
  = Ok tt (set_ops (delete p)
             (set_mem (delete (msg_buffer (op_request o)))
                (set_mem (delete (msg_buffer (op_response o)))
                   (set_hd_calls (λ l, l ++ [BufferFree (msg_buffer (op_response o));
                                             BufferFree (msg_buffer (op_request o))])
                      (set_conn (del_from_lists p) s))))).
Proof.
  intros Hp Ho Hk Hrq Hrs. unfold gb_operation_put.
  rewrite bool_decide_eq_false_2 by done.
  rewrite (bind_Ok _ _ _ _ _ (deref_Ok _ _ _ Ho)).
  rewrite (bind_Ok _ _ _ _ _ (update_Ok _ _ _ _ Ho)).
  rewrite Hk. rewrite bool_decide_eq_true_2 by done.
  unfold _gb_operation_destroy.
  erewrite bind_Ok; [|apply deref_Ok, lookup_insert_eq].
  unfold modify at 1. unfold bind at 1.
  set (o1 := set_op_kref (1 - 1) o).
  erewrite bind_Ok;
    [|eapply (gb_operation_message_exit_Ok _ p Response o1 o1);
      [apply lookup_insert_eq|simpl; rewrite Hrs; apply lookup_insert_eq]].
  erewrite bind_Ok;
    [|eapply (gb_operation_message_exit_Ok _ p Request _ _);
      [apply lookup_insert_eq|simpl; rewrite Hrq; apply lookup_insert_eq]].
  erewrite kmem_cache_free_Ok; [|apply lookup_insert_eq].
  f_equal. destruct s. sred. simpl. f_equal.
  - by rewrite !delete_insert_eq.
  - by rewrite <- app_assoc.
Qed.

(** X17.  Create, then release: an outgoing operation that is created
    and whose only reference is dropped leaves the operation cache, the
    lists of the connection and the set of live buffers exactly as they
    were; the driver saw two allocations and then one [buffer_free] for
    each of the two buffers, the response buffer first. *)
Theorem gb_operation_create_put s type request_size response_size junk1 junk2 :
  heap_fresh s →
  lists_live s →
  next_kmem s = true →
  0 ≤ request_size ≤ GB_OPERATION_MESSAGE_SIZE_MAX →
  0 ≤ response_size ≤ GB_OPERATION_MESSAGE_SIZE_MAX →
  next_alloc s = Some junk1 →
  next_alloc (set_alloc_plan (drop 1) s) = Some junk2 →
  ∃ s1 s2,
    gb_operation_create type request_size response_size s = Ok (next_addr s) s1 ∧
    gb_operation_put (next_addr s) s1 = Ok tt s2 ∧
    ops s2 = ops s ∧ conn s2 = conn s ∧ mem s2 = mem s ∧
    hd_calls s2
    = hd_calls s ++
      [BufferAlloc (request_size + sizeof_hdr)
         (if bool_decide (response_size ≠ 0) then GFP_KERNEL else GFP_ATOMIC)
         (next_addr s + 1);
       BufferAlloc (response_size + sizeof_hdr) GFP_KERNEL (next_addr s + 2);
       BufferFree (next_addr s + 2);
       BufferFree (next_addr s + 1)].
Proof.
  intros Hfr Hlive Hk Hrs Hps Hplan1 Hplan2.
  pose proof Hfr as [Hpos Hfresh].
  destruct (Hfresh (next_addr s)) as [Hop _]; [lia|].
  destruct (Hfresh (next_addr s + 1)) as [_ Hb1]; [lia|].
  destruct (Hfresh (next_addr s + 2)) as [_ Hb2]; [lia|].
  assert (Hnotin : next_addr s ∉ c_operations (conn s) ++ c_pending (conn s)).
  { intros Hin. destruct (Hlive _ Hin) as [x Hx]. congruence. }
  eexists _, _. split.
  { unfold gb_operation_create. by apply gb_operation_create_common_Ok. }
  split.
  { apply (gb_operation_put_last_Ok _ _
             (created_operation true (next_addr s) request_size response_size));
      [unfold NULL; lia|apply lookup_insert_eq|reflexivity..]. }
  destruct s as [ops0 c m h ev wq p kp ap sp].
  unfold created, created_operation. sred. simpl in *.
  split; [by apply delete_insert_id|].
  split.
  { destruct c as [st lo lp cy cp rr]. unfold del_from_lists, add_to_operations,
      set_c_lists. simpl in *. rewrite elem_of_app in Hnotin.
    rewrite list_del_app, list_del_self, app_nil_r, !list_del_notin by tauto. done. }
  split.
  { rewrite delete_insert_eq, (delete_insert_ne _ (p + 2) (p + 1)) by lia.
    rewrite (delete_id m (p + 2)) by exact Hb2.
    by apply delete_insert_id. }
  by rewrite <- app_assoc.
Qed.

(** The first operation of a connection is created and released. *)
Lemma gb_operation_create_put_witness :
  ∃ s1 s2, gb_operation_create 1 2 4 (boot 0 [] [] []) = Ok 16 s1 ∧
           gb_operation_put 16 s1 = Ok tt s2 ∧
           ops s2 = ∅ ∧ mem s2 = ∅ ∧
           hd_calls s2 = [BufferAlloc 10 GFP_KERNEL 17; BufferAlloc 12 GFP_KERNEL 18;
                          BufferFree 18; BufferFree 17].
Proof.
  destruct (gb_operation_create_put (boot 0 [] [] []) 1 2 4 [] [])
    as (s1 & s2 & Hrun1 & Hrun2 & Hops & _ & Hmem & Hcalls).
  - split; [reflexivity|]. intros a _. split; apply lookup_empty.
  - intros q Hq. apply elem_of_nil in Hq. destruct Hq.
  - reflexivity.
  - unfold GB_OPERATION_MESSAGE_SIZE_MAX. lia.
  - unfold GB_OPERATION_MESSAGE_SIZE_MAX. lia.
  - reflexivity.
  - reflexivity.
  - exists s1, s2. split; [exact Hrun1|]. split; [exact Hrun2|].
    split; [exact Hops|]. split; [exact Hmem|exact Hcalls].
Defined.

Lemma length_init_bytes junk size type :
  5 ≤ size → Z.of_nat (length (init_bytes junk size type)) = size.
Proof.
  intros H. unfold init_bytes, cpu_to_le16.
  rewrite !length_app, length_drop. cbn [length].
  pose proof (length_stale_bytes junk size ltac:(lia)). lia.
Qed.

(** X18.  An incoming request is taken in without running any handler:
    [gb_connection_recv_request] creates an operation with atomic
    allocations and no response buffer, stamps it with the id of the
    frame, copies the frame to the start of the request buffer and queues
    the operation for the worker.  The request buffer is 8 bytes longer
    than the frame, because the frame size, which already counts the
    header, is passed on as the payload size. *)
Theorem gb_connection_recv_request_queued s operation_id type data size junk :
  heap_fresh s →
  next_kmem s = true →
  next_alloc s = Some junk →
  0 ≤ size ≤ GB_OPERATION_MESSAGE_SIZE_MAX →
  size ≤ Z.of_nat (length data) →
  ∃ s',
    gb_connection_recv_request operation_id type data size s = Ok tt s' ∧
    ops s' !! next_addr s
    = Some (mk_operation
              (mk_message (next_addr s) (next_addr s + 1)
                 (next_addr s + 1 + sizeof_hdr) (size + sizeof_hdr) 0)
              zero_message operation_id false 0 NULL false false 1) ∧
    mem s' !! (next_addr s + 1)
    = Some (take (Z.to_nat size) data ++
            drop (Z.to_nat size) (init_bytes junk (size + sizeof_hdr) type)) ∧
    hd_calls s' = hd_calls s ++ [BufferAlloc (size + sizeof_hdr) GFP_ATOMIC
                                   (next_addr s + 1)] ∧
    next_addr s ∈ recv_workqueue s' ∧
    c_operations (conn s') = c_operations (conn s) ++ [next_addr s] ∧
    c_pending (conn s') = c_pending (conn s) ∧
    events s' = events s.
Proof.
  intros Hfr Hk Hplan Hsize Hdata.
  pose proof Hfr as [Hpos _].
  unfold gb_connection_recv_request, gb_operation_create_incoming.
  erewrite bind_Ok;
    [|apply (gb_operation_create_common_Ok s false type size 0 junk []);
      [done..|unfold GB_OPERATION_MESSAGE_SIZE_MAX; lia|done|discriminate]].
  rewrite bool_decide_eq_false_2 by (unfold NULL; lia).
  set (s1 := created false type size 0 junk [] s).
  set (p := next_addr s) in *.
  erewrite bind_Ok; [|apply update_Ok; apply lookup_insert_eq].
  erewrite bind_Ok; [|apply deref_Ok, lookup_insert_eq].
  unfold memcpy. cbn [op_request set_op_id created_operation msg_buffer].
  rewrite bool_decide_eq_true_2 by lia.
  erewrite bind_Ok;
    [|eapply (store_bytes_Ok _ _ _ _ (init_bytes junk (size + sizeof_hdr) type));
      [apply lookup_insert_eq|done|
       rewrite length_take, length_init_bytes by (unfold sizeof_hdr; lia);
       unfold sizeof_hdr; lia]].
  eexists. split; [reflexivity|].
  cbn [ops conn mem hd_calls events recv_workqueue set_ops set_mem
       set_recv_workqueue s1 created].
  split; [apply lookup_insert_eq|].
  split.
  { rewrite lookup_insert_eq. f_equal. change (Z.to_nat 0) with 0%nat.
    rewrite splice_front, length_take_le by lia. reflexivity. }
  split; [reflexivity|].
  split.
  { case_bool_decide; [done|]. apply elem_of_app. right. apply list_elem_of_here. }
  split; [reflexivity|]. split; reflexivity.
Qed.

(** The request frame [size = 10, id = 0x4242, type = 3] arrives on a
    fresh connection. *)
Lemma gb_connection_recv_request_queued_witness :
  ∃ s', gb_connection_recv_request 0x4242 3 [10; 0; 0x42; 0x42; 3; 0; 0; 0; 1; 2] 10
          (boot 0 [] [] []) = Ok tt s' ∧
        (msg_buffer_size ∘ op_request <$> ops s' !! 16) = Some 18 ∧
        mem s' !! 17
        = Some [10; 0; 0x42; 0x42; 3; 0; 0; 0; 1; 2; 0; 0; 0; 0; 0; 0; 0; 0] ∧
        16 ∈ recv_workqueue s' ∧ events s' = [].
Proof.
  destruct (gb_connection_recv_request_queued (boot 0 [] [] []) 0x4242 3
              [10; 0; 0x42; 0x42; 3; 0; 0; 0; 1; 2] 10 [])
    as (s' & Hrun & Hops & Hmem & _ & Hwq & _ & _ & Hev).
  - split; [reflexivity|]. intros a _. split; apply lookup_empty.
  - reflexivity.
  - reflexivity.
  - unfold GB_OPERATION_MESSAGE_SIZE_MAX. lia.
  - simpl. lia.
  - change (next_addr (boot 0 [] [] [])) with 16 in Hops, Hmem, Hwq.
    exists s'. split; [exact Hrun|]. split; [rewrite Hops; reflexivity|].
    split; [exact Hmem|]. split; [exact Hwq|exact Hev].
Defined.

Lemma create_common_fails s outgoing type request_size response_size :
  heap_fresh s →
  next_kmem s = false ∨
  request_size > GB_OPERATION_MESSAGE_SIZE_MAX ∨
  next_alloc s = None →
  ∃ s', gb_operation_create_common outgoing type request_size response_size s
        = Ok NULL s' ∧
        ops s' = ops s ∧ conn s' = conn s ∧ mem s' = mem s ∧
        events s' = events s ∧ recv_workqueue s' = recv_workqueue s.
Proof.
  intros [Hpos Hfresh] Hfail.
  destruct (Hfresh (next_addr s)) as [Hop _]; [lia|].
  unfold gb_operation_create_common. cbv zeta.
  destruct (next_kmem s) eqn:Hk.
  2:{ rewrite (bind_Ok _ _ _ _ _ (kmem_cache_zalloc_NULL _ Hk)).
      rewrite bool_decide_eq_true_2 by done.
      eexists. split; [reflexivity|]. by destruct s. }
  rewrite (bind_Ok _ _ _ _ _ (kmem_cache_zalloc_Ok _ Hk)).
  rewrite bool_decide_eq_false_2 by (unfold NULL; lia).
  assert (Ho1 : ops (zalloced s) !! next_addr s = Some zero_operation)
    by apply lookup_insert_eq.
  destruct (decide (request_size > GB_OPERATION_MESSAGE_SIZE_MAX)) as [Hbig|Hfit].
  { erewrite bind_Ok; [|by apply gb_operation_message_init_E2BIG].
    rewrite bool_decide_eq_true_2 by done.
    rewrite (bind_Ok _ _ _ _ _ (kmem_cache_free_Ok _ _ _ Ho1)).
    eexists. split; [reflexivity|].
    destruct s. sred. simpl in Hop. by rewrite delete_insert_id. }
  destruct Hfail as [Hfail|[Hfail|Hfail]]; [done..|].
  erewrite bind_Ok;
    [|apply (gb_operation_message_init_ENOMEM _ _ zero_operation);
      [exact Ho1|exact Hfail|lia]].
  rewrite bool_decide_eq_true_2 by done.
  erewrite bind_Ok; [|eapply kmem_cache_free_Ok; apply lookup_insert_eq].
  eexists. split; [reflexivity|].
  destruct s. sred. simpl in Hop. by rewrite delete_insert_eq, delete_insert_id.
Qed.

(** X19.  An incoming request for which no operation can be created (no
    memory for the operation or its buffer, or a frame of more than 4096
    bytes) is dropped: one line goes to the error log, nothing is queued,
    and the operations, lists and buffers are as before. *)
Theorem gb_connection_recv_request_dropped s operation_id type data size :
  heap_fresh s →
  0 ≤ size →
  next_kmem s = false ∨
  size > GB_OPERATION_MESSAGE_SIZE_MAX ∨
  next_alloc s = None →
  ∃ s',
    gb_connection_recv_request operation_id type data size s = Ok tt s' ∧
    ops s' = ops s ∧ conn s' = conn s ∧ mem s' = mem s ∧
    recv_workqueue s' = recv_workqueue s ∧
    events s' = events s ++ [EvErr].
Proof.
  intros Hfr Hsize Hfail.
  destruct (create_common_fails s false type size 0 Hfr Hfail)
    as (s1 & Hrun & Hops & Hconn & Hmem & Hev & Hwq).
  unfold gb_connection_recv_request, gb_operation_create_incoming.
  rewrite (bind_Ok _ _ _ _ _ Hrun).
  rewrite bool_decide_eq_true_2 by done.
  eexists. split; [reflexivity|]. simpl. by rewrite Hev.
Qed.

(** A request frame arrives when the operation cache is exhausted. *)
Lemma gb_connection_recv_request_dropped_witness :
  ∃ s', gb_connection_recv_request 0x4242 3 [10; 0; 0x42; 0x42; 3; 0; 0; 0; 1; 2] 10
          (boot 0 [false] [] []) = Ok tt s' ∧
        ops s' = ∅ ∧ recv_workqueue s' = [] ∧ events s' = [EvErr].
Proof.
  destruct (gb_connection_recv_request_dropped (boot 0 [false] [] []) 0x4242 3
              [10; 0; 0x42; 0x42; 3; 0; 0; 0; 1; 2] 10)
    as (s' & Hrun & Hops & _ & _ & Hwq & Hev).
  - split; [reflexivity|]. intros a _. split; apply lookup_empty.
  - lia.
  - left. reflexivity.
  - exists s'. split; [exact Hrun|]. split; [exact Hops|].
    split; [exact Hwq|exact Hev].
Defined.

(** ** Completing *)

Lemma gb_operation_complete_Ok s p o :
  ops s !! p = Some o →
  gb_operation_complete p s
  = Ok tt (set_ops (insert p (completed o))
             (set_events (λ l, l ++ [completion_event p o]) s)).
Proof.
  intros Ho. unfold gb_operation_complete, completion_event, completed.
  rewrite (bind_Ok _ _ _ _ _ (deref_Ok _ _ _ Ho)).
  case_bool_decide.
  - unfold emit, modify. f_equal. destruct s. sred. f_equal.
    symmetry. by apply insert_id.
  - unfold emit, modify. unfold bind at 1.
    erewrite update_Ok; [reflexivity|exact Ho].
Qed.

Lemma is_completion_completion_event p o :
  is_completion p (completion_event p o) = true.
Proof.
  unfold completion_event. case_bool_decide; simpl; by apply bool_decide_eq_true_2.
Qed.

Lemma gb_operation_request_handle_Ok s p o bytes type :
  ops s !! p = Some o →
  mem s !! msg_buffer (op_request o) = Some bytes →
  bytes !! 4%nat = Some type →
  gb_operation_request_handle p s
  = Ok tt (if bool_decide (c_request_recv (conn s) ≠ NULL)
           then set_events (λ l, l ++ [EvRequestRecv type p]) s
           else set_ops (insert p (set_op_result GB_OP_PROTOCOL_BAD o))
                  (set_events (λ l, l ++ [EvErr]) s)).
Proof.
  intros Ho Hm Hty. unfold gb_operation_request_handle.
  rewrite (bind_Ok _ _ _ _ _ (deref_Ok _ _ _ Ho)).
  erewrite bind_Ok; [|by eapply load_byte_Ok; [exact Hm| |exact Hty]].
  unfold gets at 1. unfold bind at 1.
  case_bool_decide; [reflexivity|].
  unfold emit, modify. unfold bind at 1.
  erewrite update_Ok; [reflexivity|exact Ho].
Qed.

(** X20.  The worker on an incoming request (an operation without a
    response buffer): when the protocol has a request handler it is
    called once with the type byte of the request header and the result
    is left alone; when it has none, an error is logged and the result
    becomes [GB_OP_PROTOCOL_BAD].  Either way the operation is then
    completed exactly once, by its callback if it has one and by its
    completion otherwise. *)
Theorem gb_operation_recv_work_incoming s p o bytes type :
  ops s !! p = Some o →
  msg_buffer (op_response o) = NULL →
  mem s !! msg_buffer (op_request o) = Some bytes →
  bytes !! 4%nat = Some type →
  ∃ s' o',
    gb_operation_recv_work p s = Ok tt s' ∧
    ops s' !! p = Some o' ∧
    op_result o'
    = (if bool_decide (c_request_recv (conn s) ≠ NULL) then op_result o
       else GB_OP_PROTOCOL_BAD) ∧
    events s'
    = events s ++
      [if bool_decide (c_request_recv (conn s) ≠ NULL) then EvRequestRecv type p
       else EvErr;
       completion_event p o] ∧
    completions p s' = S (completions p s) ∧
    conn s' = conn s ∧ mem s' = mem s.
Proof.
  intros Ho Hresp Hm Hty. unfold gb_operation_recv_work.
  rewrite (bind_Ok _ _ _ _ _ (deref_Ok _ _ _ Ho)). cbv zeta.
  rewrite bool_decide_eq_true_2 by done.
  rewrite (bind_Ok _ _ _ _ _ (gb_operation_request_handle_Ok _ _ _ _ _ Ho Hm Hty)).
  assert (Hcount : ∀ e (t' : gb_state),
            is_completion p e = false →
            events t' = (events s ++ [e]) ++ [completion_event p o] →
            completions p t' = S (completions p s)).
  { intros e t' He Hev. unfold completions.
    rewrite Hev, !filter_app, !length_app.
    rewrite (filter_cons_False _ e) by (by rewrite He).
    rewrite filter_cons_True by apply is_completion_completion_event.
    simpl. lia. }
  case_bool_decide as Hh.
  - erewrite gb_operation_complete_Ok; [|exact Ho].
    eexists _, _. split; [reflexivity|]. simpl.
    split; [apply lookup_insert_eq|].
    split; [unfold completed; by case_bool_decide|].
    split; [by rewrite <- app_assoc|].
    split; [|done].
    eapply (Hcount (EvRequestRecv type p)); [reflexivity|]. reflexivity.
  - erewrite gb_operation_complete_Ok; [|apply lookup_insert_eq].
    eexists _, _. split; [reflexivity|]. simpl.
    split; [apply lookup_insert_eq|].
    split; [unfold completed; by case_bool_decide|].
    split; [by rewrite <- app_assoc|].
    split; [|done].
    eapply (Hcount EvErr); [reflexivity|]. reflexivity.
Qed.

(** The worker runs the queued incoming request; the protocol has a
    handler. *)
Lemma gb_operation_recv_work_incoming_witness :
  ∃ s', gb_operation_recv_work 16 incoming_queued = Ok tt s' ∧
        events s' = [EvRequestRecv 3 16; EvCompleteAll 16] ∧
        (op_result <$> ops s' !! 16) = Some 0.
Proof.
  assert (He : events incoming_queued = []) by (vm_compute; reflexivity).
  assert (Hh : c_request_recv (conn incoming_queued) = 9) by (vm_compute; reflexivity).
  destruct (gb_operation_recv_work_incoming incoming_queued 16
              (mk_operation (mk_message 16 17 25 18 0) zero_message
                 0x4242 false 0 0 false false 1)
              [10; 0; 0x42; 0x42; 3; 0; 0; 0; 1; 2; 0; 0; 0; 0; 0; 0; 0; 0] 3)
    as (s' & o' & Hrun & Hops & Hres & Hev & _).
  - vm_compute. reflexivity.
  - reflexivity.
  - vm_compute. reflexivity.
  - reflexivity.
  - rewrite He, Hh in Hev. rewrite Hh in Hres.
    exists s'. split; [exact Hrun|]. split; [exact Hev|].
    rewrite Hops. simpl. by rewrite Hres.
Defined.

(** X21.  The worker on an operation that has a response buffer: the
    protocol's request handler is not called, even when one is
    registered, and result, buffers and lists are left alone; the
    operation is completed once, by callback or by completion. *)
Theorem gb_operation_recv_work_response s p o :
  ops s !! p = Some o →
  msg_buffer (op_response o) ≠ NULL →
  gb_operation_recv_work p s
  = Ok tt (set_ops (insert p (completed o))
             (set_events (λ l, l ++ [completion_event p o]) s)).
Proof.
  intros Ho Hresp. unfold gb_operation_recv_work.
  rewrite (bind_Ok _ _ _ _ _ (deref_Ok _ _ _ Ho)). cbv zeta.
  rewrite bool_decide_eq_false_2 by done.
  unfold ret at 1. unfold bind at 1.
  by apply gb_operation_complete_Ok.
Qed.

(** The response of the asynchronous request has been received; the
    worker calls the callback. *)
Lemma gb_operation_recv_work_response_witness :
  ∃ s', gb_operation_recv_work 16 submitted_async = Ok tt s' ∧
        events s' = [EvCallback 5 16] ∧
        (op_completion <$> ops s' !! 16) = Some false.
Proof.
  pose proof (gb_operation_recv_work_response submitted_async 16
                (mk_operation (mk_message 16 17 25 10 19) (mk_message 16 18 26 12 0)
                   1 false 0 5 false true 1)
                ltac:(vm_compute; reflexivity) ltac:(discriminate)) as Hrun.
  eexists. split; [exact Hrun|]. split; vm_compute; reflexivity.
Defined.

(** X22.  The response path end to end: a matched response that fits,
    followed by one step of the worker on an otherwise empty queue,
    completes the operation exactly once; afterwards the operation is off
    the pending list, its timer is not armed and the queue is empty. *)
Theorem gb_connection_recv_response_then_worker
    s id p o data size bytes status :
  gb_pending_operation_find id s = Ok p s →
  p ≠ NULL →
  ops s !! p = Some o →
  msg_buffer (op_response o) ≠ NULL →
  msg_payload (op_response o) - msg_buffer (op_response o) = sizeof_hdr →
  mem s !! msg_buffer (op_response o) = Some bytes →
  Z.of_nat (length bytes) = msg_buffer_size (op_response o) →
  bytes !! 8%nat = Some status →
  0 ≤ size ≤ msg_buffer_size (op_response o) →
  size ≤ Z.of_nat (length data) →
  recv_workqueue s = [] →
  ∃ s1 s2 o',
    gb_connection_recv_response id data size s = Ok tt s1 ∧
    worker_step s1 = Ok tt s2 ∧
    completions p s1 = completions p s ∧
    completions p s2 = S (completions p s) ∧
    events s2 = events s ++ [completion_event p o] ∧
    ops s2 !! p = Some o' ∧
    op_timeout_work o' = false ∧
    (p ∉ c_pending (conn s2)) ∧
    recv_workqueue s2 = [].
Proof.
  intros Hfind Hp Ho Hresp Hpay Hm Hlen Hst Hsize Hdata Hwq.
  pose proof (gb_connection_recv_response_Ok s id p o data size bytes status
                Hfind Hp Ho Hpay Hm Hlen Hst Hsize Hdata) as Hrun.
  set (s1 := responded p o data size bytes (u8 status) s) in *.
  set (o1 := set_op_result (u8 status) (set_op_timeout_work false o)).
  assert (Ho1 : ops s1 !! p = Some o1).
  { unfold s1, responded. cbv zeta.
    destruct (bool_decide (u8 status = GB_OP_SUCCESS)); apply lookup_insert_eq. }
  assert (Hq1 : recv_workqueue s1 = [p]).
  { unfold s1, responded. cbv zeta.
    destruct (bool_decide (u8 status = GB_OP_SUCCESS)); simpl; rewrite Hwq;
      by rewrite bool_decide_eq_false_2 by apply not_elem_of_nil. }
  assert (He1 : events s1 = events s).
  { unfold s1, responded. cbv zeta.
    by destruct (bool_decide (u8 status = GB_OP_SUCCESS)). }
  assert (Hc1 : c_pending (conn s1) = list_del p (c_pending (conn s))).
  { unfold s1, responded. cbv zeta.
    by destruct (bool_decide (u8 status = GB_OP_SUCCESS)). }
  eexists s1, _, (completed o1). split; [exact Hrun|].
  split.
  { unfold worker_step, gets. unfold bind at 1. rewrite Hq1.
    unfold modify. unfold bind at 1.
    unfold gb_operation_recv_work.
    erewrite bind_Ok; [|apply deref_Ok; exact Ho1]. cbv zeta.
    rewrite bool_decide_eq_false_2 by exact Hresp.
    unfold ret at 1. unfold bind at 1.
    apply gb_operation_complete_Ok. exact Ho1. }
  split; [unfold completions; by rewrite He1|].
  assert (Hred : ∀ (t : gb_state) f g,
            events (set_ops f (set_events g t)) = g (events t) ∧
            conn (set_ops f (set_events g t)) = conn t ∧
            recv_workqueue (set_ops f (set_events g t)) = recv_workqueue t)
    by (by intros []).
  split.
  { eapply completions_snoc; [|apply is_completion_completion_event].
    destruct (Hred (set_recv_workqueue (λ _, []) s1)
                (insert p (completed o1))
                (λ l, l ++ [completion_event p o1])) as (-> & _).
    cbn [events set_recv_workqueue]. by rewrite He1. }
  split.
  { destruct (Hred (set_recv_workqueue (λ _, []) s1)
                (insert p (completed o1))
                (λ l, l ++ [completion_event p o1])) as (-> & _).
    cbn [events set_recv_workqueue]. by rewrite He1. }
  split; [apply lookup_insert_eq|].
  split; [unfold completed; by case_bool_decide|].
  split; [|reflexivity].
  destruct (Hred (set_recv_workqueue (λ _, []) s1)
              (insert p (completed o1))
              (λ l, l ++ [completion_event p o1])) as (_ & -> & _).
  cbn [conn set_recv_workqueue]. rewrite Hc1. apply list_del_not_elem.
Qed.

(** The response to the synchronous request arrives and the worker runs. *)
Lemma gb_connection_recv_response_then_worker_witness :
  ∃ s1 s2, gb_connection_recv_response 1 good_response 12 submitted_sync = Ok tt s1 ∧
           worker_step s1 = Ok tt s2 ∧
           completions 16 s2 = 1%nat ∧
           events s2 = [EvCompleteAll 16] ∧
           recv_workqueue s2 = [].
Proof.
  assert (He : events submitted_sync = []) by (vm_compute; reflexivity).
  assert (Hc : completions 16 submitted_sync = 0%nat) by (vm_compute; reflexivity).
  destruct (gb_connection_recv_response_then_worker submitted_sync 1 16
              (mk_operation (mk_message 16 17 25 10 19) (mk_message 16 18 26 12 0)
                 1 false 0 0 false true 1)
              good_response 12 [12; 0; 0; 0; 0x81; 0; 0; 0; 0; 0; 0; 0] 0)
    as (s1 & s2 & o' & Hrun1 & Hrun2 & _ & Hc2 & Hev & _ & _ & _ & Hwq).
  - vm_compute. reflexivity.
  - discriminate.
  - vm_compute. reflexivity.
  - discriminate.
  - reflexivity.
  - vm_compute. reflexivity.
  - reflexivity.
  - reflexivity.
  - simpl. lia.
  - simpl. lia.
  - vm_compute. reflexivity.
  - rewrite He in Hev. rewrite Hc in Hc2.
    exists s1, s2. split; [exact Hrun1|]. split; [exact Hrun2|].
    split; [exact Hc2|]. split; [exact Hev|exact Hwq].
Defined.

(** ** References and cancellation *)

(** X23.  Dropping a reference that is not the last one only decrements
    the count: the operation stays in the cache and on its list, no
    buffer is freed and the driver is not called. *)
Theorem gb_operation_put_not_last s p o :
  p ≠ NULL →
  ops s !! p = Some o →
  op_kref o ≠ 1 →
  gb_operation_put p s
  = Ok tt (set_ops (insert p (set_op_kref (op_kref o - 1) o)) s).
Proof.
  intros Hp Ho Hk. unfold gb_operation_put.
  rewrite bool_decide_eq_false_2 by done.
  rewrite (bind_Ok _ _ _ _ _ (deref_Ok _ _ _ Ho)).
  rewrite (bind_Ok _ _ _ _ _ (update_Ok _ _ _ _ Ho)).
  rewrite bool_decide_eq_false_2 by lia. reflexivity.
Qed.

(** One of two references to the request in flight is dropped. *)
Lemma gb_operation_put_not_last_witness :
  ∃ s', gb_operation_put 16 submitted_held = Ok tt s' ∧
        (op_kref <$> ops s' !! 16) = Some 1 ∧
        hd_calls s' = hd_calls submitted_held ∧
        c_pending (conn s') = [16].
Proof.
  pose proof (gb_operation_put_not_last submitted_held 16
                (mk_operation (mk_message 16 17 25 10 19) (mk_message 16 18 26 12 0)
                   1 false 0 5 false true 2)
                ltac:(discriminate) ltac:(vm_compute; reflexivity)
                ltac:(discriminate)) as Hrun.
  eexists. split; [exact Hrun|].
  split; [vm_compute; reflexivity|]. split; vm_compute; reflexivity.
Defined.

(** X24.  What [gb_operation_cancel] does and does not do: it sets the
    cancel flag and calls [buffer_cancel] for the request when its cookie
    is non-null, then for the response when the operation has a response
    buffer with a non-null cookie.  It does not complete the operation,
    does not take it off the pending list, does not cancel the timeout
    and does not clear the cookies. *)
Theorem gb_operation_cancel_effects s p o :
  ops s !! p = Some o →
  msg_operation (op_request o) = p →
  msg_operation (op_response o) = p →
  gb_operation_cancel p s
  = Ok tt (set_hd_calls (λ l, l ++ map BufferCancel (in_flight o))
             (set_ops (insert p (set_op_canceled true o)) s)).
Proof.
  intros Ho Hrq Hrs. destruct s as [ops0 c m h ev wq na kp ap sp]. simpl in Ho.
  unfold gb_operation_cancel, gb_message_cancel, in_flight, get_msg. mrun.
  cbn [op_request op_response set_op_canceled].
  destruct (bool_decide (msg_cookie (op_request o) = NULL)) eqn:Hc1;
    destruct (bool_decide (msg_buffer (op_response o) ≠ NULL)) eqn:Hb;
    try destruct (bool_decide (msg_cookie (op_response o) = NULL)) eqn:Hc2.
  all: repeat (mred; rewrite ?lookup_insert_eq, ?Hrq, ?Hrs, ?Hb, ?Hc1, ?Hc2;
               cbn [op_request op_response set_op_canceled]).
  all: simpl; rewrite ?app_nil_r, <- ?app_assoc; reflexivity.
Qed.

(** The request in flight is cancelled. *)
Lemma gb_operation_cancel_effects_witness :
  ∃ s', gb_operation_cancel 16 submitted_async = Ok tt s' ∧
        cancels s' = [19] ∧
        c_pending (conn s') = [16] ∧ events s' = [] ∧
        (op_timeout_work <$> ops s' !! 16) = Some true.
Proof.
  pose proof (gb_operation_cancel_effects submitted_async 16
                (mk_operation (mk_message 16 17 25 10 19) (mk_message 16 18 26 12 0)
                   1 false 0 5 false true 1)
                ltac:(vm_compute; reflexivity) eq_refl eq_refl) as Hrun.
  eexists. split; [exact Hrun|].
  split; [vm_compute; reflexivity|]. split; [vm_compute; reflexivity|].
  split; vm_compute; reflexivity.
Defined.

(** * Properties of the power-management reference count *)

Module kbase_pm_facts.
Import kbase_pm.

Lemma int32_small z : - 2 ^ 31 ≤ z < 2 ^ 31 → int32 z = z.
Proof. intros H. unfold int32. rewrite Z.mod_small by lia. lia. Qed.

(** X25.  Taking a reference while the driver is not suspending always
    succeeds, whatever the suspend handler: the call returns 0 with the
    lock released and the count one higher, and the GPU is powered on
    (hardware access, then the clock-rate tracer) exactly when this was
    the first reference. *)
Theorem active_not_suspending handler d :
  suspending d = false →
  pm_locked d = false →
  0 ≤ active_count d < 2 ^ 31 - 1 →
  kbase_pm_context_active_handle_suspend handler d
  = Some (0, mk_kbdev (active_count d + 1) false false
               (pm_calls d ++
                KTRACE_PM_CONTEXT_ACTIVE (active_count d + 1) ::
                (if bool_decide (active_count d = 0)
                 then [hwaccess_pm_gpu_active; clk_rate_trace_gpu_active]
                 else []))).
Proof.
  intros Hs Hl Hc. destruct d as [c s l calls]. simpl in *. subst s l.
  unfold kbase_pm_context_active_handle_suspend, kbase_pm_lock, take_reference.
  simpl. rewrite int32_small by lia.
  destruct (bool_decide (c = 0)) eqn:H0.
  - apply bool_decide_eq_true_1 in H0. subst c. simpl.
    unfold kbase_pm_unlock, call. simpl. by rewrite <- !app_assoc.
  - apply bool_decide_eq_false_1 in H0.
    rewrite bool_decide_eq_false_2 by lia. reflexivity.
Qed.

Lemma active_not_suspending_witness :
  kbase_pm_context_active_handle_suspend KBASE_PM_SUSPEND_HANDLER_DONT_INCREASE
    (mk_kbdev 0 false false [])
  = Some (0, mk_kbdev 1 false false
               [KTRACE_PM_CONTEXT_ACTIVE 1; hwaccess_pm_gpu_active;
                clk_rate_trace_gpu_active]).
Proof.
  apply (active_not_suspending KBASE_PM_SUSPEND_HANDLER_DONT_INCREASE
           (mk_kbdev 0 false false [])); [reflexivity|reflexivity|simpl; lia].
Defined.

(** X26.  While the driver is suspending, a caller that must not
    increase the count is refused: the call returns 1 and leaves the
    count and the hardware alone.  A caller that must not reactivate the
    GPU is refused in the same way exactly when the count is 0; when
    other references exist it gets its reference and 0 is returned.  The
    lock is released on every path. *)
Theorem active_while_suspending handler d :
  suspending d = true →
  pm_locked d = false →
  0 ≤ active_count d < 2 ^ 31 - 1 →
  handler ≠ KBASE_PM_SUSPEND_HANDLER_NOT_POSSIBLE →
  kbase_pm_context_active_handle_suspend handler d
  = Some (if bool_decide (handler = KBASE_PM_SUSPEND_HANDLER_DONT_REACTIVATE
                          ∧ active_count d ≠ 0)
          then (0, mk_kbdev (active_count d + 1) true false
                     (pm_calls d ++ [KTRACE_PM_CONTEXT_ACTIVE (active_count d + 1)]))
          else (1, d)).
Proof.
  intros Hs Hl Hc Hh. destruct d as [c s l calls]. simpl in *. subst s l.
  unfold kbase_pm_context_active_handle_suspend, kbase_pm_lock, take_reference.
  simpl. destruct handler; [done| |].
  - rewrite bool_decide_eq_false_2 by (intros [? _]; done). reflexivity.
  - destruct (bool_decide (c ≠ 0)) eqn:H0.
    + apply bool_decide_eq_true_1 in H0.
      rewrite (bool_decide_eq_true_2
                 (KBASE_PM_SUSPEND_HANDLER_DONT_REACTIVATE
                  = KBASE_PM_SUSPEND_HANDLER_DONT_REACTIVATE ∧ c ≠ 0))
        by (split; [reflexivity|exact H0]).
      simpl. rewrite int32_small by lia.
      rewrite bool_decide_eq_false_2 by lia. reflexivity.
    + apply bool_decide_eq_false_1 in H0.
      rewrite (bool_decide_eq_false_2
                 (KBASE_PM_SUSPEND_HANDLER_DONT_REACTIVATE
                  = KBASE_PM_SUSPEND_HANDLER_DONT_REACTIVATE ∧ c ≠ 0))
        by (intros [_ ?]; by apply H0).
      reflexivity.
Qed.

(** The power-on worker asks for a reference during a suspend while the
    GPU is still in use, and while it is not. *)
Lemma active_while_suspending_witness :
  kbase_pm_context_active_handle_suspend KBASE_PM_SUSPEND_HANDLER_DONT_REACTIVATE
    (mk_kbdev 2 true false [])
  = Some (0, mk_kbdev 3 true false [KTRACE_PM_CONTEXT_ACTIVE 3]) ∧
  kbase_pm_context_active_handle_suspend KBASE_PM_SUSPEND_HANDLER_DONT_INCREASE
    (mk_kbdev 2 true false [])
  = Some (1, mk_kbdev 2 true false []).
Proof.
  split.
  - apply (active_while_suspending KBASE_PM_SUSPEND_HANDLER_DONT_REACTIVATE
             (mk_kbdev 2 true false [])); [reflexivity|reflexivity|simpl; lia|discriminate].
  - apply (active_while_suspending KBASE_PM_SUSPEND_HANDLER_DONT_INCREASE
             (mk_kbdev 2 true false [])); [reflexivity|reflexivity|simpl; lia|discriminate].
Defined.

(** X27.  [kbase_pm_context_idle] in full: the count goes down by one
    and the lock is released; the GPU is idled, the clock-rate tracer
    told and the waiters for a zero count woken exactly when the last
    reference was dropped.  Called without a reference, it drives the
    count below zero and idles nothing; only the debug assertion
    notices. *)
Theorem idle_effects d :
  pm_locked d = false →
  - 2 ^ 31 < active_count d < 2 ^ 31 →
  kbase_pm_context_idle d
  = Some (mk_kbdev (active_count d - 1) (suspending d) false
            (pm_calls d ++
             KTRACE_PM_CONTEXT_IDLE (active_count d - 1) ::
             (if bool_decide (active_count d ≤ 0) then [debug_assert_failed] else []) ++
             (if bool_decide (active_count d = 1)
              then [hwaccess_pm_gpu_idle; clk_rate_trace_gpu_idle;
                    wake_up_zero_active_count]
              else []))).
Proof.
  intros Hl Hc. destruct d as [c s l calls]. simpl in *. subst l.
  unfold kbase_pm_context_idle, kbase_pm_lock. simpl.
  rewrite int32_small by lia.
  destruct (decide (c ≤ 0)) as [Hle|Hgt].
  - rewrite (bool_decide_eq_false_2 (0 ≤ c - 1)) by lia.
    rewrite (bool_decide_eq_false_2 (c - 1 = 0)) by lia.
    rewrite (bool_decide_eq_true_2 (c ≤ 0)) by lia.
    rewrite (bool_decide_eq_false_2 (c = 1)) by lia.
    unfold kbase_pm_unlock, call. simpl. by rewrite <- !app_assoc.
  - rewrite (bool_decide_eq_true_2 (0 ≤ c - 1)) by lia.
    rewrite (bool_decide_eq_false_2 (c ≤ 0)) by lia.
    destruct (decide (c = 1)) as [->|Hne].
    + simpl. unfold kbase_pm_unlock, call. simpl. by rewrite <- !app_assoc.
    + rewrite (bool_decide_eq_false_2 (c - 1 = 0)) by lia.
      rewrite (bool_decide_eq_false_2 (c = 1)) by lia. reflexivity.
Qed.

(** An idle call without a matching active call. *)
Lemma idle_effects_witness :
  kbase_pm_context_idle (mk_kbdev 0 false false [])
  = Some (mk_kbdev (- 1) false false [KTRACE_PM_CONTEXT_IDLE (- 1); debug_assert_failed]).
Proof.
  apply (idle_effects (mk_kbdev 0 false false [])); [reflexivity|simpl; lia].
Defined.

(** X28.  Active, then idle: a reference that is taken and dropped again
    leaves the count as it was; the GPU is powered on and off again when
    there was no other reference, and the hardware is not touched at all
    when there was one. *)
Theorem active_idle_round_trip handler d :
  suspending d = false →
  pm_locked d = false →
  0 ≤ active_count d < 2 ^ 31 - 1 →
  ∃ d1,
    kbase_pm_context_active_handle_suspend handler d = Some (0, d1) ∧
    kbase_pm_context_idle d1
    = Some (mk_kbdev (active_count d) false false
              (pm_calls d ++
               (KTRACE_PM_CONTEXT_ACTIVE (active_count d + 1) ::
                (if bool_decide (active_count d = 0)
                 then [hwaccess_pm_gpu_active; clk_rate_trace_gpu_active]
                 else [])) ++
               KTRACE_PM_CONTEXT_IDLE (active_count d) ::
               (if bool_decide (active_count d = 0)
                then [hwaccess_pm_gpu_idle; clk_rate_trace_gpu_idle;
                      wake_up_zero_active_count]
                else []))).
Proof.
  intros Hs Hl Hc. destruct d as [c s l calls]. simpl in *. subst s l.
  eexists. split.
  { unfold kbase_pm_context_active_handle_suspend, kbase_pm_lock, take_reference.
    simpl. rewrite int32_small by lia. reflexivity. }
  unfold kbase_pm_context_idle, kbase_pm_lock, kbase_pm_unlock.
  cbn [pm_locked active_count suspending pm_calls set_active_count call].
  assert (Hl : ∀ (b : bool) x y, pm_locked (if b then x else y)
                                 = if b then pm_locked x else pm_locked y)
    by (by intros []).
  destruct (decide (c = 0)) as [->|Hne].
  - simpl. unfold call. simpl. by rewrite <- !app_assoc.
  - rewrite !(bool_decide_eq_false_2 (c + 1 = 1)) by lia.
    cbn [pm_locked active_count suspending pm_calls set_active_count call].
    replace (c + 1 - 1) with c by lia. rewrite int32_small by lia.
    rewrite (bool_decide_eq_true_2 (0 ≤ c)) by lia.
    rewrite !(bool_decide_eq_false_2 (c = 0)) by lia.
    cbn [pm_locked active_count suspending pm_calls set_active_count call].
    by rewrite <- !app_assoc.
Qed.

Lemma active_idle_round_trip_witness :
  ∃ d1, kbase_pm_context_active_handle_suspend KBASE_PM_SUSPEND_HANDLER_NOT_POSSIBLE
          (mk_kbdev 0 false false []) = Some (0, d1) ∧
        kbase_pm_context_idle d1
        = Some (mk_kbdev 0 false false
                  [KTRACE_PM_CONTEXT_ACTIVE 1; hwaccess_pm_gpu_active;
                   clk_rate_trace_gpu_active; KTRACE_PM_CONTEXT_IDLE 0;
                   hwaccess_pm_gpu_idle; clk_rate_trace_gpu_idle;
                   wake_up_zero_active_count]).
Proof.
  destruct (active_idle_round_trip KBASE_PM_SUSPEND_HANDLER_NOT_POSSIBLE
              (mk_kbdev 0 false false []))
    as (d1 & Hrun1 & Hrun2); [reflexivity|reflexivity|simpl; lia|].
  exists d1. split; [exact Hrun1|exact Hrun2].
Defined.

End kbase_pm_facts.

(** * Properties of module start and stop *)

Module lifecycle_facts.
Import lifecycle.

#[local] Arguments list_del : simpl never.

(** X29.  [gb_operation_init] is all or nothing: it returns 0 exactly
    when both the cache and the work queue could be created, and then
    both pointers are set; otherwise it returns [-ENOMEM], the cache
    pointer is null again and no kernel object created by the call is
    left behind (a cache created before the work queue failed has been
    destroyed). *)
Theorem gb_operation_init_all_or_nothing cache workqueue g :
  cache ∉ objects g →
  gb_operation_recv_workqueue g = NULL →
  ∃ r g',
    gb_operation_init cache workqueue g = (r, g') ∧
    (r = 0 ↔ cache ≠ NULL ∧ workqueue ≠ NULL) ∧
    (r = 0 →
     gb_operation_cache g' = cache ∧ gb_operation_recv_workqueue g' = workqueue ∧
     objects g' = objects g ++ [cache; workqueue]) ∧
    (r ≠ 0 →
     r = - ENOMEM ∧ gb_operation_cache g' = NULL ∧
     gb_operation_recv_workqueue g' = NULL ∧ objects g' = objects g).
Proof.
  intros Hfresh Hwq. destruct g as [c0 w0 objs]. simpl in *. subst w0.
  unfold gb_operation_init, create_object, set_cache, set_workqueue, destroy_object.
  cbv zeta.
  destruct (decide (cache = NULL)) as [->|Hc].
  - eexists _, _. split; [reflexivity|]. simpl.
    split; [split; [discriminate|intros [? _]; done]|].
    split; [discriminate|]. intros _. done.
  - repeat first [rewrite (bool_decide_eq_false_2 (cache = NULL)) by done
                   |progress simpl].
    destruct (decide (workqueue = NULL)) as [->|Hw].
    + eexists _, _. split; [reflexivity|]. simpl.
      split; [split; [discriminate|intros [_ ?]; done]|].
      split; [discriminate|]. intros _.
      rewrite list_del_app, list_del_self, app_nil_r, list_del_notin by done. done.
    + repeat first [rewrite (bool_decide_eq_false_2 (cache = NULL)) by done
                     |rewrite (bool_decide_eq_false_2 (workqueue = NULL)) by done
                     |progress simpl].
      eexists _, _. split; [reflexivity|]. simpl.
      split; [done|]. split; [|done]. intros _.
      by rewrite <- app_assoc.
Qed.

(** The cache is created, the work queue is not. *)
Lemma gb_operation_init_all_or_nothing_witness :
  gb_operation_init 100 NULL (mk_globals NULL NULL [])
  = (- ENOMEM, mk_globals NULL NULL []).
Proof.
  destruct (gb_operation_init_all_or_nothing 100 NULL (mk_globals NULL NULL []))
    as (r & g' & Hrun & _); [apply not_elem_of_nil|reflexivity|].
  rewrite Hrun. vm_compute in Hrun. symmetry. exact Hrun.
Defined.

(** X30.  Start, then stop: after a successful [gb_operation_init],
    [gb_operation_exit] destroys the work queue and the cache, resets
    both pointers to null and leaves exactly the kernel objects that
    existed before the start. *)
Theorem gb_operation_init_exit cache workqueue g :
  cache ≠ NULL → workqueue ≠ NULL → cache ≠ workqueue →
  cache ∉ objects g → workqueue ∉ objects g →
  ∃ g1, gb_operation_init cache workqueue g = (0, g1) ∧
        gb_operation_exit g1 = mk_globals NULL NULL (objects g).
Proof.
  intros Hc Hw Hcw Hcf Hwf. destruct g as [c0 w0 objs]. simpl in *.
  unfold gb_operation_init, gb_operation_exit, create_object, set_cache,
    set_workqueue, destroy_object. cbv zeta.
  repeat first [rewrite (bool_decide_eq_false_2 (cache = NULL)) by done
                 |rewrite (bool_decide_eq_false_2 (workqueue = NULL)) by done
                 |progress simpl].
  eexists. split; [reflexivity|]. simpl. f_equal.
  rewrite !list_del_app, !list_del_self, !app_nil_r.
  rewrite (list_del_notin workqueue [cache])
    by (intros H; apply list_elem_of_singleton in H; congruence).
  rewrite list_del_self, app_nil_r.
  rewrite (list_del_notin workqueue objs) by exact Hwf.
  by apply list_del_notin.
Qed.

Lemma gb_operation_init_exit_witness :
  ∃ g1, gb_operation_init 100 101 (mk_globals NULL NULL []) = (0, g1) ∧
        gb_operation_exit g1 = mk_globals NULL NULL [].
Proof.
  apply (gb_operation_init_exit 100 101 (mk_globals NULL NULL []));
    [discriminate|discriminate|discriminate|apply not_elem_of_nil|apply not_elem_of_nil].
Defined.

End lifecycle_facts.
